(** * Electastic renderer: a shallow embedding of the connection manager
      and of the view-state computations of the chat, map and admin panels.

    Conventions of the embedding.
    - A JavaScript [number] that the code uses as an identifier, a counter or
      a millisecond timestamp is a [Z]; an optional field ([to?], [emoji?],
      [replyId?], [packetId?]) is an [option Z] and its truthiness test is
      [truthy].
    - A JavaScript string is a [string]; [includes], [startsWith], [trim] and
      the two regular-expression replacements of [createConnection] are
      written out as functions on strings.
    - Calls into the platform (the mesh client library, Web Bluetooth, timers,
      the console) are recorded as a trace of [Event]s; a computation is a
      trace together with a value or a thrown JavaScript value ([Eff]).
    - React state is threaded explicitly; an effect or an event handler is a
      function from state to state.
    - Latitude, longitude and zoom are binary64 floats.
    - What the runtime decides ([Date] in the local time zone, [JSON],
      [toLowerCase]) and [getNodeStatus], whose module is not among the
      sources, are parameters; the last part of the definitions gives
      instances of them to compute with. *)

From Stdlib Require Import ZArith Ascii Floats.
From Stdlib Require Import DecimalString DecimalZ HexadecimalString HexadecimalZ.
From stdpp Require Import gmap strings list fin_maps pretty.

Local Open Scope Z_scope.
Set Warnings "-register-all".

(** ** JavaScript strings *)

Module JsString.

(** [s.startsWith(p)] *)
Fixpoint startsWith (s p : string) {struct p} : bool :=
  match p with
  | EmptyString => true
  | String c p' =>
      match s with
      | EmptyString => false
      | String d s' => if Ascii.eqb c d then startsWith s' p' else false
      end
  end.

(** [s.includes(sub)]: [sub] occurs at some offset of [s]. *)
Fixpoint includes (s sub : string) : bool :=
  startsWith s sub ||
  match s with
  | EmptyString => false
  | String _ s' => includes s' sub
  end.

(** The white space and line terminators of ECMAScript that fit in one
    byte: TAB, LF, VT, FF, CR and SPACE. *)
Definition isWhiteSpace (c : ascii) : bool :=
  let n := N_of_ascii c in
  ((9 <=? n) && (n <=? 13))%N || (n =? 32)%N.

Fixpoint trimStart (s : string) : string :=
  match s with
  | EmptyString => EmptyString
  | String c s' => if isWhiteSpace c then trimStart s' else s
  end.

(** [allWhiteSpace s]: every character of [s] is white space. *)
Fixpoint allWhiteSpace (s : string) : bool :=
  match s with
  | EmptyString => true
  | String c s' => isWhiteSpace c && allWhiteSpace s'
  end.

Fixpoint trimEnd (s : string) : string :=
  match s with
  | EmptyString => EmptyString
  | String c s' => if allWhiteSpace s then EmptyString else String c (trimEnd s')
  end.

(** [s.trim()] *)
Definition trim (s : string) : string := trimEnd (trimStart s).

(** Truthiness of a string: the empty string is falsy. *)
Definition nonEmpty (s : string) : bool :=
  match s with EmptyString => false | _ => true end.

(** [String(n)] and [`${n}`] for an integer [n]: its decimal digits. *)
Definition ofNumber (n : Z) : string :=
  DecimalString.NilZero.string_of_int (Z.to_int n).

(** [n.toString(16)] for an integer [n]. *)
Definition toString16 (n : Z) : string :=
  HexadecimalString.NilZero.string_of_int (Z.to_hex_int n).

(** The value of a digit of [parseInt], up to radix 36. *)
Definition digitValue (c : ascii) : option Z :=
  let n := Z.of_N (N_of_ascii c) in
  if (48 <=? n) && (n <=? 57) then Some (n - 48)
  else if (97 <=? n) && (n <=? 122) then Some (n - 87)
  else if (65 <=? n) && (n <=? 90) then Some (n - 55)
  else None.

(** The longest prefix of [s] made of digits of [radix], read from the
    left with [acc] as the value so far; [seen] tells whether a digit was
    read. *)
Fixpoint parseDigits (radix : Z) (s : string) (acc : Z) (seen : bool) : option Z :=
  match s with
  | EmptyString => if seen then Some acc else None
  | String c s' =>
      match digitValue c with
      | Some d =>
          if d <? radix then parseDigits radix s' (acc * radix + d) true
          else if seen then Some acc else None
      | None => if seen then Some acc else None
      end
  end.

(** [parseInt(s, radix)] for radix 10 and 16; [None] is [NaN]. Leading
    white space is skipped, a sign is read, and for radix 16 a [0x] or
    [0X] prefix is skipped. *)
Definition parseInt (s : string) (radix : Z) : option Z :=
  let s := trimStart s in
  let '(sign, s) :=
    match s with
    | String "-" s' => (-1, s')
    | String "+" s' => (1, s')
    | _ => (1, s)
    end in
  let s :=
    if (radix =? 16) && (startsWith s "0x" || startsWith s "0X") then
      String.substring 2 (String.length s - 2)%nat s
    else s in
  match parseDigits radix s 0 false with
  | Some n => Some (sign * n)
  | None => None
  end.

(** [sub] occurs in [s]. *)
Definition Contains (s sub : string) : Prop :=
  ∃ pre post, s = pre +:+ sub +:+ post.

End JsString.

(** ** Computations with a trace and JavaScript exceptions *)

(** What [throw] carries: an [Error] object with its message, or any other
    value, of which the code only uses [String(err)]. *)
Inductive Thrown : Type :=
| ErrorObj (message : string)
| NonError (asString : string).

Record Gatt : Type := mkGatt {
  connected : bool;
  (** how [gatt.disconnect()] ends: [None] returns, [Some e] throws [e] *)
  gatt_disconnect_result : option Thrown
}.

Record BluetoothDevice : Type := mkBluetoothDevice {
  bt_id : string;
  gatt : option Gatt
}.

(** Calls that leave the renderer, in the order they are made. *)
Inductive Event : Type :=
| EvDeviceDisconnect
| EvToDeviceClose
| EvGattDisconnect (d : BluetoothDevice)
| EvDeviceComplete
| EvConsoleWarn
| EvGetDevices
| EvBleCreate
| EvSerialCreate (baud : Z)
| EvHttpCreate (host : string) (tls : bool)
| EvCreateFromDevice (d : BluetoothDevice)
| EvPrepareConnection (d : BluetoothDevice)
| EvSetTimeout (ms : Z)
| EvNewMeshDevice.

Inductive Outcome (A : Type) : Type :=
| Returns (a : A)
| Throws (e : Thrown).
Arguments Returns {A} a.
Arguments Throws {A} e.

Definition Eff (A : Type) : Type := list Event * Outcome A.

Module Eff.

Definition ret {A} (a : A) : Eff A := ([], Returns a).

Definition throw {A} (e : Thrown) : Eff A := ([], Throws e).

Definition bind {A B} (m : Eff A) (k : A → Eff B) : Eff B :=
  match m with
  | (t1, Returns a) => let '(t2, r) := k a in (t1 ++ t2, r)
  | (t1, Throws e) => (t1, Throws e)
  end.

(** [try { m } catch (err) { handler err }] *)
Definition tryCatch {A} (m : Eff A) (handler : Thrown → Eff A) : Eff A :=
  match m with
  | (t1, Returns a) => (t1, Returns a)
  | (t1, Throws e) => let '(t2, r) := handler e in (t1 ++ t2, r)
  end.

(** [try { m } finally { fin }]: [fin] runs on both exits of [m]; an
    exception of [fin] replaces the completion of [m]. *)
Definition tryFinally {A} (m : Eff A) (fin : Eff unit) : Eff A :=
  let '(t1, r) := m in
  match fin with
  | (t2, Returns _) => (t1 ++ t2, r)
  | (t2, Throws e) => (t1 ++ t2, Throws e)
  end.

(** A call into the platform: it is recorded, then it returns or throws. *)
Definition call {A} (ev : Event) (result : Outcome A) : Eff A := ([ev], result).

(** A call that returns nothing: [None] returns, [Some e] throws [e]. *)
Definition callVoid (ev : Event) (result : option Thrown) : Eff unit :=
  call ev (match result with None => Returns tt | Some e => Throws e end).

(** [try { m } catch { /* ignore */ }] *)
Definition ignoreErrors (m : Eff unit) : Eff unit :=
  tryCatch m (λ _, ret tt).

Definition trace {A} (m : Eff A) : list Event := fst m.
Definition outcome {A} (m : Eff A) : Outcome A := snd m.

End Eff.

(** [x ← m; k] and [m ;; k] sequence two computations. *)
#[global] Instance Eff_ret : MRet Eff := @Eff.ret.
#[global] Instance Eff_bind : MBind Eff := λ A B k m, Eff.bind m k.

(** ** connection.ts *)

Module Connection.

(** The transport object handed to [MeshDevice]. *)
Record Transport : Type := mkTransport {
  (** how [toDevice.close()] ends *)
  toDevice_close_result : option Thrown;
  (** the [__bluetoothDevice] property stashed on the transport *)
  bluetoothDevice : option BluetoothDevice
}.

Record MeshDevice : Type := mkMeshDevice {
  transport : Transport;
  (** how [device.disconnect()] ends *)
  disconnect_result : option Thrown;
  (** how [device.complete()] ends *)
  complete_result : option Thrown
}.

(** What the platform answers to the calls of this module. *)
Record Platform : Type := mkPlatform {
  getDevices_result : Outcome (list BluetoothDevice);
  bleCreate_result : Outcome Transport;
  serialCreate_result : Z → Outcome Transport;
  httpCreate_result : string → bool → Outcome Transport;
  (** [TransportWebBluetooth.createFromDevice], when it is a function; a
      falsy transport is [None] *)
  createFromDevice : option (BluetoothDevice → Outcome (option Transport));
  prepareConnection : option (BluetoothDevice → Outcome (option Transport));
  (** the behaviour of the device that [new MeshDevice(transport)] builds *)
  deviceDisconnect_result : Transport → option Thrown;
  deviceComplete_result : Transport → option Thrown
}.

Definition newMeshDevice (p : Platform) (t : Transport) : Eff MeshDevice :=
  Eff.call EvNewMeshDevice
    (Returns {| transport := t;
                disconnect_result := deviceDisconnect_result p t;
                complete_result := deviceComplete_result p t |}).

(** [err instanceof Error ? err.message : String(err)] *)
Definition errorText (e : Thrown) : string :=
  match e with
  | ErrorObj m => m
  | NonError s => s
  end.

(** [d.gatt?.connected] *)
Definition gattConnected (d : BluetoothDevice) : bool :=
  match gatt d with
  | Some g => connected g
  | None => false
  end.

(** [try { d.gatt.disconnect(); } catch { }] for a device with a GATT
    server. *)
Definition gattDisconnect (d : BluetoothDevice) : Eff unit :=
  match gatt d with
  | Some g => Eff.ignoreErrors (Eff.callVoid (EvGattDisconnect d) (gatt_disconnect_result g))
  | None => Eff.ret tt
  end.

Definition isStreamError (msg : string) : bool :=
  JsString.includes msg "not a function" ||
  JsString.includes msg "already been closed" ||
  JsString.includes msg "locked".

Definition safeDisconnect (device : MeshDevice) : Eff unit :=
  Eff.tryFinally
    (Eff.tryCatch
       (Eff.callVoid EvDeviceDisconnect (disconnect_result device))
       (λ err,
          let msg := errorText err in
          if isStreamError msg then
            Eff.ignoreErrors
              (Eff.callVoid EvToDeviceClose
                 (toDevice_close_result (transport device))) ;;
            match bluetoothDevice (transport device) with
            | Some btDevice =>
                if gattConnected btDevice then gattDisconnect btDevice
                else Eff.ret tt
            | None => Eff.ret tt
            end
          else
            Eff.callVoid EvConsoleWarn None))
    (Eff.ignoreErrors (Eff.callVoid EvDeviceComplete (complete_result device))).

(** What [safeDisconnect] does between [device.disconnect()] and
    [device.complete()]. *)
Definition cleanupTrace (device : MeshDevice) : list Event :=
  match disconnect_result device with
  | None => []
  | Some err =>
      if isStreamError (errorText err) then
        EvToDeviceClose ::
        match bluetoothDevice (transport device) with
        | Some btDevice =>
            if gattConnected btDevice then [EvGattDisconnect btDevice] else []
        | None => []
        end
      else [EvConsoleWarn]
  end.

(** [devices.find(p)] is [List.find]: the first element that satisfies [p]. *)
Definition hasDisconnectedGatt (d : BluetoothDevice) : bool :=
  match gatt d with
  | Some g => negb (connected g)
  | None => false
  end.

Definition hasGatt (d : BluetoothDevice) : bool :=
  match gatt d with
  | Some _ => true
  | None => false
  end.

(** [devices.find(disconnected) ?? devices.find(with GATT)] *)
Definition reconnectTarget (devices : list BluetoothDevice) : option BluetoothDevice :=
  match List.find hasDisconnectedGatt devices with
  | Some d => Some d
  | None => List.find hasGatt devices
  end.

Definition setBluetoothDevice (t : Transport) (d : BluetoothDevice) : Transport :=
  {| toDevice_close_result := toDevice_close_result t;
     bluetoothDevice := Some d |}.

(** The forced disconnection of a GATT link that still reports itself
    connected, and the wait that follows it. *)
Definition staleDisconnect (target : BluetoothDevice) : list Event :=
  if gattConnected target then [EvGattDisconnect target; EvSetTimeout 500] else [].

(** The transport for [target], from whichever of [createFromDevice] and
    [prepareConnection] the library has. *)
Definition createTransport (p : Platform) (target : BluetoothDevice)
  : Eff (option Transport) :=
  match createFromDevice p with
  | Some create => Eff.call (EvCreateFromDevice target) (create target)
  | None =>
      match prepareConnection p with
      | Some prepare => Eff.call (EvPrepareConnection target) (prepare target)
      | None =>
          Eff.throw (ErrorObj
            "TransportWebBluetooth has no method to create a transport from an existing device")
      end
  end.

Definition reconnectBle (p : Platform) : Eff MeshDevice :=
  devices ← Eff.call EvGetDevices (getDevices_result p);
  match reconnectTarget devices with
  | None =>
      Eff.throw (ErrorObj "No previously connected BLE device found for reconnection")
  | Some target =>
      (if gattConnected target then
         gattDisconnect target ;;
         Eff.callVoid (EvSetTimeout 500) None
       else Eff.ret tt) ;;
      transport ← createTransport p target;
      match transport with
      | None => Eff.throw (ErrorObj "Failed to create BLE transport for reconnection")
      | Some t => newMeshDevice p (setBluetoothDevice t target)
      end
  end.

(** [dropPrefix p s]: what follows [p] in [s], when [s] starts with [p]. *)
Fixpoint dropPrefix (p s : string) : option string :=
  match p with
  | EmptyString => Some s
  | String c p' =>
      match s with
      | EmptyString => None
      | String d s' => if Ascii.eqb c d then dropPrefix p' s' else None
      end
  end.

(** The match of [/^https?:\/\//] at the start of [s]: what follows it.
    The optional [s] is tried first, then skipped. *)
Definition matchProtocol (s : string) : option string :=
  match dropPrefix "http" s with
  | None => None
  | Some r =>
      match
        match dropPrefix "s" r with
        | Some r' => dropPrefix "://" r'
        | None => None
        end
      with
      | Some rest => Some rest
      | None => dropPrefix "://" r
      end
  end.

(** [host.replace(/^https?:\/\//, "")] *)
Definition replaceProtocol (host : string) : string :=
  match matchProtocol host with
  | Some rest => rest
  | None => host
  end.

(** [/\/+$/] matches at the start of [s]: [s] is one or more slashes up to
    the end of the input. *)
Fixpoint slashesToEnd (s : string) : bool :=
  match s with
  | EmptyString => false
  | String c s' =>
      Ascii.eqb c "/" &&
      match s' with
      | EmptyString => true
      | _ => slashesToEnd s'
      end
  end.

(** [host.replace(/\/+$/, "")]: the leftmost match is removed. *)
Fixpoint replaceTrailingSlashes (host : string) : string :=
  match host with
  | EmptyString => EmptyString
  | String c s' =>
      if slashesToEnd host then EmptyString
      else String c (replaceTrailingSlashes s')
  end.

Definition withBluetoothDevice (t : Transport) (found : option BluetoothDevice) : Transport :=
  match found with
  | Some d => setBluetoothDevice t d
  | None => t
  end.

Definition createConnection (p : Platform) (type : string) (httpAddress : option string)
  : Eff MeshDevice :=
  transport ←
    (if String.eqb type "ble" then
       t ← Eff.call EvBleCreate (bleCreate_result p);
       Eff.tryCatch
         (devices ← Eff.call EvGetDevices (getDevices_result p);
          mret (withBluetoothDevice t (List.find gattConnected devices)))
         (λ _, Eff.callVoid EvConsoleWarn None ;; mret t)
     else if String.eqb type "serial" then
       Eff.call (EvSerialCreate 115200) (serialCreate_result p 115200)
     else if String.eqb type "http" then
       match httpAddress with
       | Some address =>
           if JsString.nonEmpty address then
             let host := JsString.trim address in
             let useTls := JsString.startsWith host "https://" in
             let host := replaceProtocol host in
             let host := replaceTrailingSlashes host in
             Eff.call (EvHttpCreate host useTls) (httpCreate_result p host useTls)
           else Eff.throw (ErrorObj "HTTP address required")
       | None => Eff.throw (ErrorObj "HTTP address required")
       end
     else Eff.throw (ErrorObj ("Unknown connection type: " +:+ type)));
  newMeshDevice p transport.

(** The calls that create a transport. *)
Definition isTransportCreate (ev : Event) : bool :=
  match ev with
  | EvBleCreate | EvSerialCreate _ | EvHttpCreate _ _ => true
  | _ => false
  end.

(** *** The specification's description of the host that is passed on *)






End Connection.

(** ** AdminPanel.tsx *)

Module AdminPanel.

(** The calls the panel makes on its props and on the preload API. *)
Inductive Call : Type :=
| OnReboot (seconds : Z)
| OnShutdown (seconds : Z)
| OnResetNodeDb
| OnFactoryReset
| OnRemoveNode (nodeNum : Z)
| OnTraceRoute (destination : Z)
| DbClearMessages
| DbClearNodes
| ClearSessionData
| DbExport
| DbImport.

(** What the panel does that is visible outside: a call, or a toast. *)
Inductive Output : Type :=
| Invoke (c : Call)
| Toast (text : string) (kind : string).

Record PendingAction : Type := mkPendingAction {
  name : string;
  title : string;
  message : string;
  confirmLabel : string;
  danger : bool;
  (** the calls the [action] closure awaits, in order *)
  action : list Call
}.

Record Props : Type := mkProps {
  nodesSize : Z;
  messageCount : Z;
  isConnected : bool;
  (** how the promise of a call settles: [None] resolves, [Some e] rejects *)
  callResult : Call → option Thrown
}.

Record State : Type := mkState {
  targetNode : string;
  pendingAction : option PendingAction;
  (** everything done so far, oldest first *)
  log : list Output
}.

Definition initial : State :=
  {| targetNode := ""; pendingAction := None; log := [] |}.

(** What the user can do to the panel. *)
Inductive UiEvent : Type :=
| TypeTargetNode (text : string)
| ClickReboot
| ClickShutdown
| ClickResetNodeDb
| ClickFactoryReset
| ClickTraceRoute
| ClickRemoveNode
| ClickExportDatabase
| ClickImportMerge
| ClickClearMessages
| ClickClearNodes
| ClickClearAll
| ClickConfirm
| ClickCancel
| ClickBackdrop.

Definition setPendingAction (s : State) (a : option PendingAction) : State :=
  {| targetNode := targetNode s; pendingAction := a; log := log s |}.

Definition emit (s : State) (out : list Output) : State :=
  {| targetNode := targetNode s; pendingAction := pendingAction s;
     log := log s ++ out |}.

Definition executeWithConfirmation (s : State) (a : PendingAction) : State :=
  setPendingAction s (Some a).

(** [err instanceof Error ? err.message : "Unknown error"] *)
Definition errorMessage (e : Thrown) : string :=
  match e with
  | ErrorObj m => m
  | NonError _ => "Unknown error"
  end.

(** Awaiting the calls of an action one after the other: the first
    rejection ends the action. *)
Fixpoint runAction (p : Props) (calls : list Call) : list Output * option Thrown :=
  match calls with
  | [] => ([], None)
  | c :: rest =>
      match callResult p c with
      | Some e => ([Invoke c], Some e)
      | None => let '(out, r) := runAction p rest in (Invoke c :: out, r)
      end
  end.

Definition handleConfirm (p : Props) (s : State) : State :=
  match pendingAction s with
  | None => s
  | Some a =>
      let s := setPendingAction s None in
      let '(out, r) := runAction p (action a) in
      match r with
      | None =>
          emit s (out ++ [Toast (name a +:+ " command sent successfully.") "success"])
      | Some e =>
          emit s (out ++ [Toast ("Failed: " +:+ errorMessage e) "error"])
      end
  end.

Definition getTargetNodeNum (s : State) : Z :=
  if negb (JsString.nonEmpty (targetNode s)) then 0
  else
    let parsed :=
      if JsString.startsWith (targetNode s) "!" then
        JsString.parseInt
          (String.substring 1 (String.length (targetNode s) - 1)%nat (targetNode s)) 16
      else JsString.parseInt (targetNode s) 10 in
    match parsed with
    | None => 0
    | Some n => n
    end.

(** A button with [disabled] set does not run its [onClick]. *)
Definition whenEnabled (enabled : bool) (s s' : State) : State :=
  if enabled then s' else s.

(** The confirmation modal is rendered only while an action is pending. *)
Definition modalShown (s : State) : bool :=
  match pendingAction s with Some _ => true | None => false end.

Definition step (p : Props) (s : State) (ev : UiEvent) : State :=
  match ev with
  | TypeTargetNode text =>
      whenEnabled (isConnected p)
        s {| targetNode := text; pendingAction := pendingAction s; log := log s |}
  | ClickReboot =>
      whenEnabled (isConnected p) s
        (executeWithConfirmation s
           {| name := "Reboot"; title := "Reboot Device";
              message := "This will reboot the connected Meshtastic device. It will briefly go offline during restart.";
              confirmLabel := "Reboot"; danger := false;
              action := [OnReboot 2] |})
  | ClickShutdown =>
      whenEnabled (isConnected p) s
        (executeWithConfirmation s
           {| name := "Shutdown"; title := "Shutdown Device";
              message := "This will power off the connected device. You will need to physically power it back on.";
              confirmLabel := "Shutdown"; danger := false;
              action := [OnShutdown 2] |})
  | ClickResetNodeDb =>
      whenEnabled (isConnected p) s
        (executeWithConfirmation s
           {| name := "Reset NodeDB"; title := "Reset Node Database";
              message := "This will clear the device's internal node database. The device will re-discover nodes over time.";
              confirmLabel := "Reset NodeDB"; danger := false;
              action := [OnResetNodeDb] |})
  | ClickFactoryReset =>
      whenEnabled (isConnected p) s
        (executeWithConfirmation s
           {| name := "Factory Reset"; title := "⚠ Factory Reset";
              message := "This will erase ALL device settings and restore factory defaults. All channels, configuration, and stored data on the device will be permanently lost. This action CANNOT be undone.";
              confirmLabel := "Factory Reset"; danger := true;
              action := [OnFactoryReset] |})
  | ClickTraceRoute =>
      whenEnabled (isConnected p && JsString.nonEmpty (targetNode s)) s
        (let target := getTargetNodeNum s in
         if target =? 0 then
           emit s [Toast "Enter a target node for trace route." "warning"]
         else
           match callResult p (OnTraceRoute target) with
           | None =>
               emit s [Invoke (OnTraceRoute target);
                       Toast "Trace route request sent." "info"]
           | Some e =>
               emit s [Invoke (OnTraceRoute target);
                       Toast ("Trace route failed: " +:+ errorMessage e) "error"]
           end)
  | ClickRemoveNode =>
      whenEnabled (isConnected p && JsString.nonEmpty (targetNode s)) s
        (let target := getTargetNodeNum s in
         if target =? 0 then
           emit s [Toast "Enter a target node to remove." "warning"]
         else
           executeWithConfirmation s
             {| name := "Remove Node"; title := "Remove Node";
                message := "Remove node !" +:+ JsString.toString16 target +:+
                  " from the device's node database? The node may reappear if it broadcasts again.";
                confirmLabel := "Remove"; danger := false;
                action := [OnRemoveNode target] |})
  | ClickExportDatabase =>
      match callResult p DbExport with
      | None => emit s [Invoke DbExport]
      | Some e =>
          emit s [Invoke DbExport; Toast ("Export failed: " +:+ errorMessage e) "error"]
      end
  | ClickImportMerge =>
      match callResult p DbImport with
      | None => emit s [Invoke DbImport]
      | Some e =>
          emit s [Invoke DbImport; Toast ("Import failed: " +:+ errorMessage e) "error"]
      end
  | ClickClearMessages =>
      executeWithConfirmation s
        {| name := "Clear Messages"; title := "Clear Messages";
           message := "This will permanently delete all " +:+ JsString.ofNumber (messageCount p) +:+
             " locally stored messages. This cannot be undone.";
           confirmLabel := "Clear " +:+ JsString.ofNumber (messageCount p) +:+ " Messages";
           danger := true;
           action := [DbClearMessages] |}
  | ClickClearNodes =>
      executeWithConfirmation s
        {| name := "Clear Nodes"; title := "Clear Nodes";
           message := "This will permanently delete all " +:+ JsString.ofNumber (nodesSize p) +:+
             " locally stored nodes. They will be re-discovered when connected.";
           confirmLabel := "Clear " +:+ JsString.ofNumber (nodesSize p) +:+ " Nodes";
           danger := true;
           action := [DbClearNodes] |}
  | ClickClearAll =>
      executeWithConfirmation s
        {| name := "Clear All Data"; title := "⚠ Clear All Local Data";
           message := "This will permanently delete ALL local messages, nodes, and cached session data. This action CANNOT be undone.";
           confirmLabel := "Clear Everything"; danger := true;
           action := [DbClearMessages; DbClearNodes; ClearSessionData] |}
  | ClickConfirm => if modalShown s then handleConfirm p s else s
  | ClickCancel => if modalShown s then setPendingAction s None else s
  | ClickBackdrop => if modalShown s then setPendingAction s None else s
  end.

(** The panel after a sequence of user actions. *)
Definition run (p : Props) (s : State) (evs : list UiEvent) : State :=
  fold_left (step p) evs s.

(** The device commands of the claim: Reboot, Shutdown, Reset NodeDB,
    Factory Reset and Remove Node. *)
Definition isDeviceCommand (c : Call) : bool :=
  match c with
  | OnReboot _ | OnShutdown _ | OnResetNodeDb | OnFactoryReset | OnRemoveNode _ => true
  | _ => false
  end.

Definition invokesDeviceCommand (o : Output) : bool :=
  match o with
  | Invoke c => isDeviceCommand c
  | Toast _ _ => false
  end.

Definition isConfirm (ev : UiEvent) : bool :=
  match ev with ClickConfirm => true | _ => false end.

(** The device commands in a log. *)
Definition deviceCommands (l : list Output) : list Output :=
  List.filter invokesDeviceCommand l.

(** The device commands among the calls of a pending action. *)
Definition guardedCalls (a : option PendingAction) : list Call :=
  match a with
  | Some a => List.filter isDeviceCommand (action a)
  | None => []
  end.

End AdminPanel.

(** ** MapPanel.tsx *)

Module MapPanel.

Inductive NodeStatus : Type := Online | Stale | Offline.

(** The fields of [MeshNode] that the map reads. Coordinates are
    JavaScript numbers: binary64 floats. *)
Record MeshNode : Type := mkMeshNode {
  node_id : Z;
  long_name : string;
  short_name : string;
  latitude : float;
  longitude : float;
  last_heard : Z
}.

Definition LatLng : Type := float * float.

(** A Leaflet icon as [createMarkerIcon] builds it: the fill colour and the
    shape of its SVG, its size and its anchor. *)
Inductive Shape : Type := Star | Circle.

Record Icon : Type := mkIcon {
  fill : string;
  shape : Shape;
  iconSize : Z;
  iconAnchor : Z
}.

Definition createMarkerIcon (color : string) (isSelf : bool) : Icon :=
  let size := if isSelf then 32 else 25 in
  let anchor := if isSelf then 16 else 12 in
  if isSelf then {| fill := color; shape := Star; iconSize := size; iconAnchor := anchor |}
  else {| fill := color; shape := Circle; iconSize := size; iconAnchor := anchor |}.

(** The cached icons of [MARKERS]. *)
Definition selfOnline : Icon := createMarkerIcon "#22c55e" true.
Definition selfStale : Icon := createMarkerIcon "#eab308" true.
Definition selfOffline : Icon := createMarkerIcon "#6b7280" true.
Definition online : Icon := createMarkerIcon "#22c55e" false.
Definition stale : Icon := createMarkerIcon "#eab308" false.
Definition offline : Icon := createMarkerIcon "#6b7280" false.

Definition getMarkerIcon (status : NodeStatus) (isSelf : bool) : Icon :=
  if isSelf then
    match status with
    | Online => selfOnline
    | Stale => selfStale
    | Offline => selfOffline
    end
  else
    match status with
    | Online => online
    | Stale => stale
    | Offline => offline
    end.

Definition DEFAULT_CENTER : LatLng := (0x1.41566cf41f213p+5, -0x1.a46858793dd98p+6)%float.
Definition DEFAULT_ZOOM : float := 12%float.

(** [x !== 0] on numbers: [-0] equals [0], [NaN] differs from it. *)
Definition isNonzero (x : float) : bool := negb (PrimFloat.eqb x 0%float).

(** [nodes] is the [Map] in insertion order; [nodes.values()] are its
    second components. *)
Definition nodesWithPosition (nodes : list (Z * MeshNode)) : list MeshNode :=
  List.filter (λ n, isNonzero (latitude n) && isNonzero (longitude n))
    (List.map snd nodes).

Definition positions (nodes : list (Z * MeshNode)) : list LatLng :=
  List.map (λ n, (latitude n, longitude n)) (nodesWithPosition nodes).

Definition center (nodes : list (Z * MeshNode)) : LatLng :=
  match nodesWithPosition nodes with
  | n :: _ => (latitude n, longitude n)
  | [] => DEFAULT_CENTER
  end.

Record Marker : Type := mkMarker {
  key : Z;
  position : LatLng;
  icon : Icon;
  zIndexOffset : Z
}.

Section Markers.

(** [getNodeStatus] of [lib/nodeStatus], which is not part of the sources
    at hand: the status of a node from its last-heard time. *)
Variable getNodeStatus : Z → NodeStatus.

Definition markerOf (myNodeNum : Z) (node : MeshNode) : Marker :=
  let isSelf := node_id node =? myNodeNum in
  let status := getNodeStatus (last_heard node) in
  let icon := getMarkerIcon status isSelf in
  {| key := node_id node;
     position := (latitude node, longitude node);
     icon := icon;
     zIndexOffset := if isSelf then 1000 else 0 |}.

(** The [Marker] elements of the rendered map. *)
Definition markers (nodes : list (Z * MeshNode)) (myNodeNum : Z) : list Marker :=
  List.map (markerOf myNodeNum) (nodesWithPosition nodes).

End Markers.

(** The colour the claim gives to a status. *)
Definition statusColor (status : NodeStatus) : string :=
  match status with
  | Online => "#22c55e"
  | Stale => "#eab308"
  | Offline => "#6b7280"
  end.

(** *** View persistence and auto-fit *)

(** The module-level variables, which outlive the component. *)
Record Session : Type := mkSession {
  savedCenter : option LatLng;
  savedZoom : option float;
  userHasInteracted : bool
}.

Definition freshSession : Session :=
  {| savedCenter := None; savedZoom := None; userHasInteracted := false |}.

(** A mounted [MapPanel]: the [lastFittedCount] ref of [MapFitter] and the
    [positions.length] its effect last ran with. *)
Record Instance : Type := mkInstance {
  lastFittedCount : nat;
  depLength : nat
}.

Record MapState : Type := mkMapState {
  session : Session;
  instance : option Instance
}.

Inductive MapEvent : Type :=
| Mount (nodes : list (Z * MeshNode))
| Render (nodes : list (Z * MeshNode))
| MoveEnd (c : LatLng) (zoom : float)
| ZoomEnd (c : LatLng) (zoom : float)
| Unmount.

(** What is asked of the Leaflet map. *)
Inductive MapAction : Type :=
| InitView (c : LatLng) (zoom : float)
| FlyTo (c : LatLng)
| FlyToBounds (ps : list LatLng).

Definition isAutoFit (a : MapAction) : bool :=
  match a with
  | InitView _ _ => false
  | FlyTo _ | FlyToBounds _ => true
  end.

(** The handlers of [MapViewTracker]; [c] and [zoom] are what
    [map.getCenter()] and [map.getZoom()] return. *)
Definition trackView (c : LatLng) (zoom : float) : Session :=
  {| savedCenter := Some c; savedZoom := Some zoom; userHasInteracted := true |}.

(** The body of the effect of [MapFitter]. *)
Definition fitEffect (se : Session) (lastFitted : nat) (ps : list LatLng)
  : nat * list MapAction :=
  if userHasInteracted se then (lastFitted, [])
  else if (length ps =? 0)%nat then (lastFitted, [])
  else if (length ps <=? lastFitted)%nat then (lastFitted, [])
  else
    (length ps,
     match ps with
     | [p] => [FlyTo p]
     | _ => [FlyToBounds ps]
     end).

(** [savedCenter ?? center] and [savedZoom ?? DEFAULT_ZOOM] *)
Definition initialView (se : Session) (nodes : list (Z * MeshNode)) : MapAction :=
  InitView (default (center nodes) (savedCenter se))
           (default DEFAULT_ZOOM (savedZoom se)).

Definition step (s : MapState) (ev : MapEvent) : MapState * list MapAction :=
  match ev with
  | Mount nodes =>
      let ps := positions nodes in
      let '(fitted, acts) := fitEffect (session s) 0 ps in
      ({| session := session s;
          instance := Some {| lastFittedCount := fitted; depLength := length ps |} |},
       initialView (session s) nodes :: acts)
  | Render nodes =>
      match instance s with
      | None => (s, [])
      | Some i =>
          let ps := positions nodes in
          if (length ps =? depLength i)%nat then (s, [])
          else
            let '(fitted, acts) := fitEffect (session s) (lastFittedCount i) ps in
            ({| session := session s;
                instance := Some {| lastFittedCount := fitted; depLength := length ps |} |},
             acts)
      end
  | MoveEnd c zoom | ZoomEnd c zoom =>
      match instance s with
      | None => (s, [])
      | Some i => ({| session := trackView c zoom; instance := Some i |}, [])
      end
  | Unmount => ({| session := session s; instance := None |}, [])
  end.

(** The map after a sequence of events, with everything asked of Leaflet. *)
Fixpoint run (s : MapState) (evs : list MapEvent) : MapState * list MapAction :=
  match evs with
  | [] => (s, [])
  | ev :: rest =>
      let '(s1, a1) := step s ev in
      let '(s2, a2) := run s1 rest in
      (s2, a1 ++ a2)
  end.

(** The views that the map reported in [evs]. *)
Definition reportedViews (evs : list MapEvent) : list (LatLng * float) :=
  omap (λ ev, match ev with
              | MoveEnd c zoom | ZoomEnd c zoom => Some (c, zoom)
              | _ => None
              end) evs.






End MapPanel.

(** ** ChatPanel.tsx *)

(** The part of the JavaScript [Date] object that the chat panel uses. All
    of it depends on the time zone of the machine. *)
Record DateApi : Type := mkDateApi {
  (** [new Date(ts).getFullYear()] *)
  getFullYear : Z → Z;
  (** [new Date(ts).getMonth()], from 0 *)
  getMonth : Z → N;
  (** [new Date(ts).getDate()], from 1 *)
  getDate : Z → N;
  (** [new Date(year, month, date).getTime()]: the start of a local day *)
  dateOf : Z → N → N → Z;
  (** [toLocaleDateString] with the short weekday, the short month and the
      day *)
  toLocaleDateString : Z → string
}.

(** A value that [JSON.parse] returns. *)
Inductive JValue : Type :=
| JNull
| JBool (b : bool)
| JNumber (n : Z)
| JString (s : string)
| JArray (items : list JValue)
| JObject (fields : list (string * JValue)).

(** The [JSON] object of the runtime. *)
Record JsonApi : Type := mkJsonApi {
  (** [JSON.parse(text)]; [None] when it throws a [SyntaxError] *)
  JSON_parse : string → option JValue;
  (** [JSON.stringify(value)] *)
  JSON_stringify : JValue → string
}.

Module ChatPanel.

(** The fields of [ChatMessage] that the computations read. A field
    declared optional is [None] when it is [undefined]. *)
Record ChatMessage : Type := mkChatMessage {
  sender_id : Z;
  sender_name : string;
  payload : string;
  channel : Z;
  timestamp : Z;
  to : option Z;
  emoji : option Z;
  replyId : option Z;
  packetId : option Z
}.

(** Truthiness of an optional number: [undefined] and [0] are falsy. *)
Definition truthy (x : option Z) : bool :=
  match x with
  | Some n => negb (n =? 0)
  | None => false
  end.

Record Reaction : Type := mkReaction {
  r_emoji : Z;
  r_sender_name : string
}.

(** [msg.emoji && msg.replyId] *)
Definition isReaction (msg : ChatMessage) : bool :=
  truthy (emoji msg) && truthy (replyId msg).

(** [{ emoji: msg.emoji, sender_name: msg.sender_name }] for a message that
    has an emoji. *)
Definition reactionOf (msg : ChatMessage) : Reaction :=
  {| r_emoji := default 0 (emoji msg); r_sender_name := sender_name msg |}.

(** One turn of the loop that separates regular messages from reactions. *)
Definition splitStep (acc : list ChatMessage * gmap Z (list Reaction)) (msg : ChatMessage)
  : list ChatMessage * gmap Z (list Reaction) :=
  let '(regular, reactions) := acc in
  if isReaction msg then
    let id := default 0 (replyId msg) in
    let existing := default [] (reactions !! id) in
    (regular, <[id := existing ++ [reactionOf msg]]> reactions)
  else (regular ++ [msg], reactions).

Definition splitMessages (messages : list ChatMessage)
  : list ChatMessage * gmap Z (list Reaction) :=
  fold_left splitStep messages ([], ∅).

Definition regularMessages (messages : list ChatMessage) : list ChatMessage :=
  fst (splitMessages messages).

Definition reactionsByReplyId (messages : list ChatMessage) : gmap Z (list Reaction) :=
  snd (splitMessages messages).

(** *** Unread counts *)

(** One turn of the loop of the effect that counts unread messages. *)
Definition unreadStep (myNodeNum : Z) (lastRead : gmap Z Z)
    (counts : gmap Z nat) (msg : ChatMessage) : gmap Z nat :=
  if sender_id msg =? myNodeNum then counts
  else if truthy (to msg) then counts
  else
    let lastReadAt := default 0 (lastRead !! channel msg) in
    if timestamp msg >? lastReadAt then
      <[channel msg := (default 0%nat (counts !! channel msg) + 1)%nat]> counts
    else counts.

(** The map that the effect passes to [setUnreadCounts]. *)
Definition countUnread (myNodeNum : Z) (lastRead : gmap Z Z)
    (regular : list ChatMessage) : gmap Z nat :=
  fold_left (unreadStep myNodeNum lastRead) regular ∅.

Inductive ViewMode : Type := Channels | Dm.

Record View : Type := mkView {
  viewMode : ViewMode;
  activeDmNode : option Z;
  selectedChannel : Z;
  searchQuery : string
}.

(** [lastReadRef.current] and the [unreadCounts] state. *)
Record Unread : Type := mkUnread {
  lastRead : gmap Z Z;
  unreadCounts : gmap Z nat
}.

(** The effect that runs when the messages change. *)
Definition updateUnread (myNodeNum : Z) (messages : list ChatMessage) (u : Unread) : Unread :=
  {| lastRead := lastRead u;
     unreadCounts := countUnread myNodeNum (lastRead u) (regularMessages messages) |}.

(** The effect that marks the channel being viewed as read; [now] is
    [Date.now()]. *)
Definition markRead (v : View) (now : Z) (u : Unread) : Unread :=
  match viewMode v with
  | Channels =>
      {| lastRead := <[selectedChannel v := now]> (lastRead u);
         unreadCounts := delete (selectedChannel v) (unreadCounts u) |}
  | Dm => u
  end.

(** [unreadCounts.get(ch.index) ?? 0] *)
Definition unreadOf (u : Unread) (ch : Z) : nat :=
  default 0%nat (unreadCounts u !! ch).

(** The text of the red badge on the button of channel [ch], when the
    badge is rendered. *)
Definition unreadBadge (v : View) (u : Unread) (ch : Z) : option string :=
  let unread := unreadOf u ch in
  let viewed :=
    match viewMode v with
    | Channels => selectedChannel v =? ch
    | Dm => false
    end in
  if (0 <? unread)%nat && negb viewed then
    Some (if (99 <? unread)%nat then "99+" else JsString.ofNumber (Z.of_nat unread))
  else None.

(** *** The messages shown *)

(** [viewMode === "dm" && activeDmNode != null]: the node of the open
    conversation. *)
Definition dmNode (v : View) : option Z :=
  match viewMode v with
  | Dm => activeDmNode v
  | Channels => None
  end.

Definition optionEqb (x : option Z) (n : Z) : bool :=
  match x with
  | Some m => m =? n
  | None => false
  end.

Section Search.

(** [String.prototype.toLowerCase] of the runtime. *)
Variable toLowerCase : string → string.

Definition matchesQuery (q : string) (m : ChatMessage) : bool :=
  JsString.includes (toLowerCase (payload m)) q ||
  JsString.includes (toLowerCase (sender_name m)) q.

Definition filteredMessages (myNodeNum : Z) (v : View) (messages : list ChatMessage)
  : list ChatMessage :=
  let regular := regularMessages messages in
  let msgs :=
    match dmNode v with
    | Some active =>
        List.filter
          (λ m, (optionEqb (to m) active && (sender_id m =? myNodeNum)) ||
                ((sender_id m =? active) && optionEqb (to m) myNodeNum))
          regular
    | None =>
        List.filter
          (λ m, negb (truthy (to m)) &&
                ((selectedChannel v =? -1) || (channel m =? selectedChannel v)))
          regular
    end in
  if JsString.nonEmpty (JsString.trim (searchQuery v)) then
    let q := toLowerCase (searchQuery v) in
    List.filter (matchesQuery q) msgs
  else msgs.


End Search.

(** *** Reactions under a message *)

(** [grouped.get(emoji) || []], [push], [grouped.set]: the [Map] keeps the
    order in which its keys were first set. *)
Fixpoint groupAdd (e : Z) (sender : string) (grouped : list (Z * list string))
  : list (Z * list string) :=
  match grouped with
  | [] => [(e, [sender])]
  | (e', senders) :: rest =>
      if e' =? e then (e', senders ++ [sender]) :: rest
      else (e', senders) :: groupAdd e sender rest
  end.

Fixpoint join (sep : string) (l : list string) : string :=
  match l with
  | [] => ""
  | [x] => x
  | x :: rest => x +:+ sep +:+ join sep rest
  end.

Record ReactionGroup : Type := mkReactionGroup {
  g_emoji : Z;
  g_count : nat;
  g_tooltip : string
}.

Definition getGroupedReactions (messages : list ChatMessage) (packet : option Z)
  : list ReactionGroup :=
  if truthy packet then
    match reactionsByReplyId messages !! default 0 packet with
    | Some reactions =>
        let grouped :=
          fold_left (λ g r, groupAdd (r_emoji r) (r_sender_name r) g) reactions [] in
        List.map (λ '(e, senders),
                    {| g_emoji := e; g_count := length senders;
                       g_tooltip := join ", " senders |})
                 grouped
    | None => []
    end
  else [].

(** *** Day separators *)

Section Days.

Variable D : DateApi.

(** The local calendar day of a timestamp: year, month, day of month. *)
Definition localDay (ts : Z) : Z * N * N :=
  (getFullYear D ts, getMonth D ts, getDate D ts).

Definition getDayKey (ts : Z) : string :=
  JsString.ofNumber (getFullYear D ts) +:+ "-" +:+
  JsString.ofNumber (Z.of_N (getMonth D ts)) +:+ "-" +:+
  JsString.ofNumber (Z.of_N (getDate D ts)).

(** The loop of [daySeparatorIndices] from index [i] on. *)
Fixpoint daySeparatorLoop (msgs : list ChatMessage) (i : nat) (prevDayKey : string)
    (indices : gset nat) : gset nat :=
  match msgs with
  | [] => indices
  | m :: rest =>
      let dayKey := getDayKey (timestamp m) in
      if String.eqb dayKey prevDayKey then
        daySeparatorLoop rest (S i) prevDayKey indices
      else
        daySeparatorLoop rest (S i) dayKey ({[ i ]} ∪ indices)
  end.

Definition daySeparatorIndices (filtered : list ChatMessage) : gset nat :=
  daySeparatorLoop filtered 0 "" ∅.

(** The start of the local day of [ts], in milliseconds. *)
Definition dayStart (ts : Z) : Z :=
  dateOf D (getFullYear D ts) (getMonth D ts) (getDate D ts).

(** [now] is the time at which [new Date()] is evaluated. *)
Definition formatDayLabel (now ts : Z) : string :=
  let today := dayStart now in
  let msgDay := dayStart ts in
  let diff := today - msgDay in
  if diff =? 0 then "Today"
  else if diff =? 86400000 then "Yesterday"
  else toLocaleDateString D ts.

(** The label of the separator above message [i], when there is one. *)
Definition daySeparator (now : Z) (filtered : list ChatMessage) (i : nat) : option string :=
  match filtered !! i with
  | Some msg =>
      if decide (i ∈ daySeparatorIndices filtered) then
        Some (formatDayLabel now (timestamp msg))
      else None
  | None => None
  end.

End Days.

(** *** Open DM tabs and their persistence *)

Definition STORAGE_KEY : string := "electastic:openDmTabs".

(** [typeof n === "number"] *)
Definition isNumber (v : JValue) : bool :=
  match v with
  | JNumber _ => true
  | _ => false
  end.

(** The numbers among [items], in order. *)
Definition numbersOf (items : list JValue) : list Z :=
  omap (λ v, match v with JNumber n => Some n | _ => None end) items.

Section Tabs.

Variable J : JsonApi.

(** The initialiser of the [openDmTabs] state; [storage] is
    [localStorage], and [getItem] of a missing key is [null]. *)
Definition loadOpenDmTabs (storage : gmap string string) : list Z :=
  match storage !! STORAGE_KEY with
  | Some saved =>
      if JsString.nonEmpty saved then
        match JSON_parse J saved with
        | Some (JArray items) =>
            if forallb isNumber items then numbersOf items else []
        | Some _ => []
        | None => []
        end
      else []
  | None => []
  end.

(** The effect that persists [openDmTabs]. *)
Definition persistOpenDmTabs (tabs : list Z) (storage : gmap string string)
  : gmap string string :=
  <[STORAGE_KEY := JSON_stringify J (JArray (JNumber <$> tabs))]> storage.

Record TabsState : Type := mkTabsState {
  openDmTabs : list Z;
  storage : gmap string string
}.

(** Mounting the panel: the state is initialised, then the effect runs. *)
Definition mountTabs (st : gmap string string) : TabsState :=
  let tabs := loadOpenDmTabs st in
  {| openDmTabs := tabs; storage := persistOpenDmTabs tabs st |}.

Inductive TabsEvent : Type :=
| OpenDmTo (nodeNum : Z)
| CloseDmTab (nodeNum : Z).

(** [setOpenDmTabs] with a new array, followed by the effect. *)
Definition setOpenDmTabs (s : TabsState) (tabs : list Z) : TabsState :=
  {| openDmTabs := tabs; storage := persistOpenDmTabs tabs (storage s) |}.

Definition tabsStep (s : TabsState) (ev : TabsEvent) : TabsState :=
  match ev with
  | OpenDmTo nodeNum =>
      if existsb (Z.eqb nodeNum) (openDmTabs s) then s
      else setOpenDmTabs s (openDmTabs s ++ [nodeNum])
  | CloseDmTab nodeNum =>
      setOpenDmTabs s (List.filter (λ n, negb (n =? nodeNum)) (openDmTabs s))
  end.

Definition tabsRun (s : TabsState) (evs : list TabsEvent) : TabsState :=
  fold_left tabsStep evs s.

End Tabs.

(** *** Vocabulary of the properties *)

(** The reactions to packet [id] among [messages], in order. *)
Definition reactionsTo (id : Z) (messages : list ChatMessage) : list Reaction :=
  reactionOf <$> List.filter (λ m, isReaction m && optionEqb (replyId m) id) messages.

(** [m] is a broadcast on the selected channel, or on any channel when
    "All" (channel -1) is selected. *)
Definition onSelectedChannel (v : View) (m : ChatMessage) : bool :=
  negb (truthy (to m)) &&
  ((selectedChannel v =? -1) || (channel m =? selectedChannel v)).

(** [m] went from the local node to [node] or from [node] to the local
    node. *)
Definition exchangedWith (myNodeNum node : Z) (m : ChatMessage) : bool :=
  (optionEqb (to m) node && (sender_id m =? myNodeNum)) ||
  ((sender_id m =? node) && optionEqb (to m) myNodeNum).

Definition withoutSearch (v : View) : View :=
  {| viewMode := viewMode v; activeDmNode := activeDmNode v;
     selectedChannel := selectedChannel v; searchQuery := "" |}.

(** A search is active: the query is not blank. *)
Definition searchActive (v : View) : bool :=
  JsString.nonEmpty (JsString.trim (searchQuery v)).

(** [m] counts as unread on channel [ch]: a regular broadcast on [ch] from
    another node, later than the last read of [ch] (0 when it was never
    read). *)
Definition isUnreadOn (myNodeNum : Z) (lastRead : gmap Z Z) (ch : Z) (m : ChatMessage) : bool :=
  negb (isReaction m) && negb (sender_id m =? myNodeNum) && negb (truthy (to m)) &&
  (channel m =? ch) && (timestamp m >? default 0 (lastRead !! ch)).

Definition unreadNumber (myNodeNum : Z) (lastRead : gmap Z Z) (ch : Z)
    (messages : list ChatMessage) : nat :=
  length (List.filter (isUnreadOn myNodeNum lastRead ch) messages).

(** The badge of channel [ch], when one is shown after the counting
    effect, shows the number of unread messages of [ch]. *)
Definition BadgeShowsNumber (myNodeNum : Z) (messages : list ChatMessage) (u : Unread)
    (v : View) (ch : Z) : Prop :=
  ∀ text,
    unreadBadge v (updateUnread myNodeNum messages u) ch = Some text →
    text = JsString.ofNumber (Z.of_nat (unreadNumber myNodeNum (lastRead u) ch messages)).

(** [s] has no ['-']. *)
Fixpoint noDash (s : string) : bool :=
  match s with
  | EmptyString => true
  | String c s' => negb (Ascii.eqb c "-") && noDash s'
  end.

(** The day key that the loop compares the key of message [k] with:
    [prevDayKey] for the first message, the key of message [k - 1] after. *)
Definition keyBefore (D : DateApi) (prevDayKey : string) (msgs : list ChatMessage) (k : nat)
  : string :=
  match k with
  | O => prevDayKey
  | S k' =>
      match msgs !! k' with
      | Some m => getDayKey D (timestamp m)
      | None => ""
      end
  end.

End ChatPanel.

(** ** Runtimes for the examples *)

(** The [Date] functions of a machine whose time zone is UTC, for years
    from 100 on. *)
Module UtcDate.

Definition msPerDay : Z := 86400000.

(** The civil date (year, month from 1, day) of a day number counted from
    1970-01-01. *)
Definition civilFromDays (days : Z) : Z * Z * Z :=
  let z := days + 719468 in
  let era := z / 146097 in
  let doe := z - era * 146097 in
  let yoe := (doe - doe / 1460 + doe / 36524 - doe / 146096) / 365 in
  let doy := doe - (365 * yoe + yoe / 4 - yoe / 100) in
  let mp := (5 * doy + 2) / 153 in
  let d := doy - (153 * mp + 2) / 5 + 1 in
  let m := if mp <? 10 then mp + 3 else mp - 9 in
  let y := yoe + era * 400 + (if m <=? 2 then 1 else 0) in
  (y, m, d).

Definition daysFromCivil (y m d : Z) : Z :=
  let y := if m <=? 2 then y - 1 else y in
  let era := y / 400 in
  let yoe := y - era * 400 in
  let doy := (153 * (if 2 <? m then m - 3 else m + 9) + 2) / 5 + d - 1 in
  let doe := yoe * 365 + yoe / 4 - yoe / 100 + doy in
  era * 146097 + doe - 719468.

Definition weekdayName (days : Z) : string :=
  match (days + 4) mod 7 with
  | 0 => "Sun" | 1 => "Mon" | 2 => "Tue" | 3 => "Wed"
  | 4 => "Thu" | 5 => "Fri" | _ => "Sat"
  end.

Definition monthName (m : Z) : string :=
  match m with
  | 1 => "Jan" | 2 => "Feb" | 3 => "Mar" | 4 => "Apr" | 5 => "May" | 6 => "Jun"
  | 7 => "Jul" | 8 => "Aug" | 9 => "Sep" | 10 => "Oct" | 11 => "Nov" | _ => "Dec"
  end.

Definition api : DateApi :=
  {| getFullYear := λ ts, (civilFromDays (ts / msPerDay)).1.1;
     getMonth := λ ts, Z.to_N ((civilFromDays (ts / msPerDay)).1.2 - 1);
     getDate := λ ts, Z.to_N (civilFromDays (ts / msPerDay)).2;
     dateOf := λ y m d, daysFromCivil y (Z.of_N m + 1) (Z.of_N d) * msPerDay;
     toLocaleDateString := λ ts,
       let '(_, m, d) := civilFromDays (ts / msPerDay) in
       weekdayName (ts / msPerDay) +:+ ", " +:+ monthName m +:+ " " +:+ JsString.ofNumber d |}.

End UtcDate.

(** [toLowerCase] on the letters A to Z. *)
Module AsciiCase.

Definition lowerChar (c : ascii) : ascii :=
  let n := N_of_ascii c in
  if ((65 <=? n) && (n <=? 90))%N then ascii_of_N (n + 32) else c.

Fixpoint toLowerCase (s : string) : string :=
  match s with
  | EmptyString => EmptyString
  | String c s' => String (lowerChar c) (toLowerCase s')
  end.

End AsciiCase.

(** [JSON] restricted to what the panel stores: arrays of integers. *)
Module IntArrayJson.

Definition stringifyItem (v : JValue) : string :=
  match v with
  | JNumber n => JsString.ofNumber n
  | _ => "null"
  end.

Definition stringify (v : JValue) : string :=
  match v with
  | JArray items => "[" +:+ ChatPanel.join "," (stringifyItem <$> items) +:+ "]"
  | JNumber n => JsString.ofNumber n
  | _ => "null"
  end.

Definition parseNumber (token : string) : option Z :=
  Z.of_int <$> DecimalString.NilZero.int_of_string token.

(** Reads the items of an array after its opening bracket; [token] is the
    part of the current item read so far, [acc] the items before it. *)
Fixpoint parseItems (s : string) (token : string) (acc : list Z) : option (list Z) :=
  match s with
  | EmptyString => None
  | String c rest =>
      if Ascii.eqb c "]" then
        match rest with
        | EmptyString =>
            match token, acc with
            | EmptyString, [] => Some []
            | _, _ => (λ n, acc ++ [n]) <$> parseNumber token
            end
        | _ => None
        end
      else if Ascii.eqb c "," then
        match parseNumber token with
        | Some n => parseItems rest "" (acc ++ [n])
        | None => None
        end
      else parseItems rest (token +:+ String c "") acc
  end.

Definition parse (text : string) : option JValue :=
  match text with
  | String "[" rest => (λ ns, JArray (JNumber <$> ns)) <$> parseItems rest "" []
  | _ => None
  end.

Definition api : JsonApi := {| JSON_parse := parse; JSON_stringify := stringify |}.

(** [s] has no [','] and no [']']. *)
Fixpoint plain (s : string) : bool :=
  match s with
  | EmptyString => true
  | String c s' => negb (Ascii.eqb c ",") && negb (Ascii.eqb c "]") && plain s'
  end.

End IntArrayJson.

(** ** Inputs of the examples *)

Module Examples.

Import Connection.

Definition liveGatt : Gatt :=
  {| connected := true; gatt_disconnect_result := None |}.

Definition idleGatt : Gatt :=
  {| connected := false; gatt_disconnect_result := None |}.

Definition radio : BluetoothDevice := {| bt_id := "radio-1"; gatt := Some liveGatt |}.

Definition idleRadio : BluetoothDevice := {| bt_id := "radio-2"; gatt := Some idleGatt |}.

Definition bleTransport : Transport :=
  {| toDevice_close_result := Some (ErrorObj "Cannot close a locked stream");
     bluetoothDevice := Some radio |}.

(** A BLE device: its transport has no [disconnect] method. *)
Definition bleDevice : MeshDevice :=
  {| transport := bleTransport;
     disconnect_result := Some (ErrorObj "this.transport.disconnect is not a function");
     complete_result := None |}.

Definition plainTransport : Transport :=
  {| toDevice_close_result := None; bluetoothDevice := None |}.

Definition platform : Platform :=
  {| getDevices_result := Returns [radio; idleRadio];
     bleCreate_result := Returns plainTransport;
     serialCreate_result := λ _, Returns plainTransport;
     httpCreate_result := λ _ _, Returns plainTransport;
     createFromDevice := None;
     prepareConnection := Some (λ _, Returns (Some plainTransport));
     deviceDisconnect_result := λ _, None;
     deviceComplete_result := λ _, None |}.

Definition adminProps : AdminPanel.Props :=
  {| AdminPanel.nodesSize := 4; AdminPanel.messageCount := 12;
     AdminPanel.isConnected := true; AdminPanel.callResult := λ _, None |}.

Definition homeNode : MapPanel.MeshNode :=
  {| MapPanel.node_id := 1; MapPanel.long_name := "Home"; MapPanel.short_name := "HOME";
     MapPanel.latitude := 45%float; MapPanel.longitude := 7%float;
     MapPanel.last_heard := 1704067200000 |}.

Definition farNode : MapPanel.MeshNode :=
  {| MapPanel.node_id := 2; MapPanel.long_name := "Far"; MapPanel.short_name := "FAR";
     MapPanel.latitude := 46%float; MapPanel.longitude := 8%float;
     MapPanel.last_heard := 1704060000000 |}.

(** A node that has sent no position. *)
Definition silentNode : MapPanel.MeshNode :=
  {| MapPanel.node_id := 3; MapPanel.long_name := "Silent"; MapPanel.short_name := "SIL";
     MapPanel.latitude := 0%float; MapPanel.longitude := 0%float;
     MapPanel.last_heard := 0 |}.

Definition nodeMap : list (Z * MapPanel.MeshNode) :=
  [(1, homeNode); (2, farNode); (3, silentNode)].

Definition alwaysOnline (lastHeard : Z) : MapPanel.NodeStatus := MapPanel.Online.

(** A hundred broadcasts from another node on channel 0. *)
Definition hundredMessages : list ChatPanel.ChatMessage :=
  replicate 100
    {| ChatPanel.sender_id := 2; ChatPanel.sender_name := "Bob";
       ChatPanel.payload := "ping"; ChatPanel.channel := 0;
       ChatPanel.timestamp := 1704067200000; ChatPanel.to := None;
       ChatPanel.emoji := None; ChatPanel.replyId := None;
       ChatPanel.packetId := None |}.

Definition neverRead : ChatPanel.Unread :=
  {| ChatPanel.lastRead := ∅; ChatPanel.unreadCounts := ∅ |}.

(** The view of a conversation, so that no channel is being viewed. *)
Definition dmView : ChatPanel.View :=
  {| ChatPanel.viewMode := ChatPanel.Dm; ChatPanel.activeDmNode := Some 2;
     ChatPanel.selectedChannel := 0; ChatPanel.searchQuery := "" |}.

Definition allChannels : ChatPanel.View :=
  {| ChatPanel.viewMode := ChatPanel.Channels; ChatPanel.activeDmNode := None;
     ChatPanel.selectedChannel := -1; ChatPanel.searchQuery := "" |}.

Definition hello : ChatPanel.ChatMessage :=
  {| ChatPanel.sender_id := 2; ChatPanel.sender_name := "Bob";
     ChatPanel.payload := "Hello mesh"; ChatPanel.channel := 0;
     ChatPanel.timestamp := 1704067200000; ChatPanel.to := None;
     ChatPanel.emoji := None; ChatPanel.replyId := None;
     ChatPanel.packetId := Some 11 |}.

(** A thumbs-up on [hello]. *)
Definition thumbsUp : ChatPanel.ChatMessage :=
  {| ChatPanel.sender_id := 3; ChatPanel.sender_name := "Cy";
     ChatPanel.payload := ""; ChatPanel.channel := 0;
     ChatPanel.timestamp := 1704067260000; ChatPanel.to := None;
     ChatPanel.emoji := Some 128077; ChatPanel.replyId := Some 11;
     ChatPanel.packetId := Some 12 |}.

(** A direct message from node 2 to the local node 1. *)
Definition whisper : ChatPanel.ChatMessage :=
  {| ChatPanel.sender_id := 2; ChatPanel.sender_name := "Bob";
     ChatPanel.payload := "psst"; ChatPanel.channel := 0;
     ChatPanel.timestamp := 1704153700000; ChatPanel.to := Some 1;
     ChatPanel.emoji := None; ChatPanel.replyId := None;
     ChatPanel.packetId := Some 13 |}.

End Examples.

(** ** Further vocabulary for the connection manager *)

Module ConnectionMore.

Import Connection.

(** The calls of [reconnectBle] that create a transport from a device. *)
Definition isCreation (ev : Event) : bool :=
  match ev with
  | EvCreateFromDevice _ | EvPrepareConnection _ => true
  | _ => false
  end.

(** The transport of a BLE connection: the created one, with the first
    device whose GATT reports itself connected stashed on it when
    [getDevices] answers and has one. *)
Definition capturedTransport (p : Platform) (t : Transport) : Transport :=
  match getDevices_result p with
  | Returns devices => withBluetoothDevice t (List.find gattConnected devices)
  | Throws _ => t
  end.

End ConnectionMore.

(** ** Further vocabulary for the admin panel *)

Module AdminCalls.

Import AdminPanel.

(** The node that a call is aimed at, when it has one. *)
Definition targetOf (c : Call) : option Z :=
  match c with
  | OnRemoveNode n | OnTraceRoute n => Some n
  | _ => None
  end.

Definition nonzeroTarget (c : Call) : bool :=
  match targetOf c with
  | Some n => negb (n =? 0)
  | None => true
  end.


(** The calls made in a log, in order. *)
Definition invoked (l : list Output) : list Call :=
  omap (λ o, match o with Invoke c => Some c | Toast _ _ => None end) l.

(** The calls of the action that is pending. *)
Definition pendingCalls (s : State) : list Call :=
  match pendingAction s with
  | Some a => action a
  | None => []
  end.

End AdminCalls.

(** ** MapPanel.tsx: the legend and the fitted positions *)

Module MapLegend.

Import MapPanel.

(** The [counts] object of [statusCounts]. *)
Record Counts : Type := mkCounts {
  online : Z;
  stale : Z;
  offline : Z
}.

(** [counts[status]++] *)
Definition increment (counts : Counts) (status : NodeStatus) : Counts :=
  match status with
  | Online =>
      {| online := online counts + 1; stale := stale counts; offline := offline counts |}
  | Stale =>
      {| online := online counts; stale := stale counts + 1; offline := offline counts |}
  | Offline =>
      {| online := online counts; stale := stale counts; offline := offline counts + 1 |}
  end.

Section Legend.

Variable getNodeStatus : Z → NodeStatus.

Definition statusCounts (nodes : list (Z * MeshNode)) : Counts :=
  fold_left (λ counts n, increment counts (getNodeStatus (last_heard n)))
    (nodesWithPosition nodes) {| online := 0; stale := 0; offline := 0 |}.

End Legend.

(** The title of the popup of a marker:
    [node.long_name || `!${node.node_id.toString(16)}`]. *)
Definition popupTitle (node : MeshNode) : string :=
  if JsString.nonEmpty (long_name node) then long_name node
  else "!" +:+ JsString.toString16 (node_id node).

(** The overlay "No nodes with GPS positions yet" is rendered. *)
Definition showsEmptyOverlay (nodes : list (Z * MeshNode)) : bool :=
  (length (nodesWithPosition nodes) =? 0)%nat.

(** The number of markers whose icon is filled with [color]. *)
Definition filledWith (color : string) (ms : list Marker) : Z :=
  Z.of_nat (length (List.filter (λ m, String.eqb (fill (icon m)) color) ms)).

(** The node maps that [evs] rendered. *)
Definition renderedNodes (evs : list MapEvent) : list (list (Z * MeshNode)) :=
  omap (λ ev, match ev with
              | Mount nodes | Render nodes => Some nodes
              | _ => None
              end) evs.

(** The request that fits the map to the positions [ps]. *)
Definition fitOf (ps : list LatLng) : MapAction :=
  match ps with
  | [p] => FlyTo p
  | _ => FlyToBounds ps
  end.

End MapLegend.

(** ** ChatPanel.tsx: quoted replies, grouped reactions and labels *)

Module ChatReplies.

Import ChatPanel.




(** [grouped.get(e)] on the [Map] of [getGroupedReactions]. *)
Fixpoint sendersOf (e : Z) (grouped : list (Z * list string)) : option (list string) :=
  match grouped with
  | [] => None
  | (e', senders) :: rest => if e' =? e then Some senders else sendersOf e rest
  end.

(** The names of those who reacted with [e], in order. *)
Definition reactedWith (e : Z) (reactions : list Reaction) : list string :=
  r_sender_name <$> List.filter (λ r, r_emoji r =? e) reactions.

(** The view [v] with another channel selected. *)
Definition onChannel (v : View) (ch : Z) : View :=
  {| viewMode := viewMode v; activeDmNode := activeDmNode v;
     selectedChannel := ch; searchQuery := searchQuery v |}.

(** [nodes.get(nodeNum)] on the node map in insertion order. *)
Definition nodesGet (nodes : list (Z * MapPanel.MeshNode)) (nodeNum : Z)
  : option MapPanel.MeshNode :=
  snd <$> List.find (λ kv, fst kv =? nodeNum) nodes.

(** [node?.short_name || node?.long_name || `!${nodeNum.toString(16)}`] *)
Definition getDmLabel (nodes : list (Z * MapPanel.MeshNode)) (nodeNum : Z) : string :=
  let fallback := "!" +:+ JsString.toString16 nodeNum in
  match nodesGet nodes nodeNum with
  | Some node =>
      if JsString.nonEmpty (MapPanel.short_name node) then MapPanel.short_name node
      else if JsString.nonEmpty (MapPanel.long_name node) then MapPanel.long_name node
      else fallback
  | None => fallback
  end.

End ChatReplies.

(** ** ChatPanel.tsx: the state of the panel and its handlers *)

Module ChatUi.

Import ChatPanel.

(** The calls the panel makes on its props and on the console. *)
Inductive Call : Type :=
| OnSend (text : string) (channel : Z) (destination replyId : option Z)
| OnReact (emoji : Z) (replyId : option Z) (channel : Z) (destination : option Z)
| OnNodeClick (nodeNum : Z)
| OnDmTargetConsumed
| ConsoleError.

(** The state of the component. [view] holds [viewMode], [activeDmNode],
    [channel] (as [selectedChannel]) and [searchQuery]; [isConnected] is
    the prop. Each event is handled after the render that follows the
    previous one. *)
Record Ui : Type := mkUi {
  view : View;
  openDmTabs : list Z;
  input : string;
  sending : bool;
  replyingTo : option ChatMessage;
  showSearch : bool;
  pickerOpenFor : option Z;
  isConnected : bool;
  (** everything called so far, oldest first *)
  calls : list Call
}.

(** The state after mounting with the tabs read from [localStorage]. *)
Definition initial (tabs : list Z) (connected : bool) : Ui :=
  {| view := {| viewMode := Channels; activeDmNode := None;
                selectedChannel := 0; searchQuery := "" |};
     openDmTabs := tabs; input := ""; sending := false; replyingTo := None;
     showSearch := false; pickerOpenFor := None; isConnected := connected;
     calls := [] |}.

Definition setView (s : Ui) (v : View) : Ui :=
  {| view := v; openDmTabs := openDmTabs s; input := input s; sending := sending s;
     replyingTo := replyingTo s; showSearch := showSearch s;
     pickerOpenFor := pickerOpenFor s; isConnected := isConnected s; calls := calls s |}.

Definition setViewMode (s : Ui) (mode : ViewMode) : Ui :=
  setView s {| viewMode := mode; activeDmNode := activeDmNode (view s);
               selectedChannel := selectedChannel (view s);
               searchQuery := searchQuery (view s) |}.

Definition setActiveDmNode (s : Ui) (node : option Z) : Ui :=
  setView s {| viewMode := viewMode (view s); activeDmNode := node;
               selectedChannel := selectedChannel (view s);
               searchQuery := searchQuery (view s) |}.

Definition setChannel (s : Ui) (ch : Z) : Ui :=
  setView s {| viewMode := viewMode (view s); activeDmNode := activeDmNode (view s);
               selectedChannel := ch; searchQuery := searchQuery (view s) |}.

Definition setSearchQuery (s : Ui) (q : string) : Ui :=
  setView s {| viewMode := viewMode (view s); activeDmNode := activeDmNode (view s);
               selectedChannel := selectedChannel (view s); searchQuery := q |}.

Definition setOpenDmTabs (s : Ui) (tabs : list Z) : Ui :=
  {| view := view s; openDmTabs := tabs; input := input s; sending := sending s;
     replyingTo := replyingTo s; showSearch := showSearch s;
     pickerOpenFor := pickerOpenFor s; isConnected := isConnected s; calls := calls s |}.

Definition setInput (s : Ui) (text : string) : Ui :=
  {| view := view s; openDmTabs := openDmTabs s; input := text; sending := sending s;
     replyingTo := replyingTo s; showSearch := showSearch s;
     pickerOpenFor := pickerOpenFor s; isConnected := isConnected s; calls := calls s |}.

Definition setSending (s : Ui) (b : bool) : Ui :=
  {| view := view s; openDmTabs := openDmTabs s; input := input s; sending := b;
     replyingTo := replyingTo s; showSearch := showSearch s;
     pickerOpenFor := pickerOpenFor s; isConnected := isConnected s; calls := calls s |}.

Definition setReplyingTo (s : Ui) (msg : option ChatMessage) : Ui :=
  {| view := view s; openDmTabs := openDmTabs s; input := input s; sending := sending s;
     replyingTo := msg; showSearch := showSearch s;
     pickerOpenFor := pickerOpenFor s; isConnected := isConnected s; calls := calls s |}.

Definition setShowSearch (s : Ui) (b : bool) : Ui :=
  {| view := view s; openDmTabs := openDmTabs s; input := input s; sending := sending s;
     replyingTo := replyingTo s; showSearch := b;
     pickerOpenFor := pickerOpenFor s; isConnected := isConnected s; calls := calls s |}.

Definition setPickerOpenFor (s : Ui) (key : option Z) : Ui :=
  {| view := view s; openDmTabs := openDmTabs s; input := input s; sending := sending s;
     replyingTo := replyingTo s; showSearch := showSearch s;
     pickerOpenFor := key; isConnected := isConnected s; calls := calls s |}.

Definition setConnected (s : Ui) (b : bool) : Ui :=
  {| view := view s; openDmTabs := openDmTabs s; input := input s; sending := sending s;
     replyingTo := replyingTo s; showSearch := showSearch s;
     pickerOpenFor := pickerOpenFor s; isConnected := b; calls := calls s |}.

Definition emit (s : Ui) (cs : list Call) : Ui :=
  {| view := view s; openDmTabs := openDmTabs s; input := input s; sending := sending s;
     replyingTo := replyingTo s; showSearch := showSearch s;
     pickerOpenFor := pickerOpenFor s; isConnected := isConnected s;
     calls := calls s ++ cs |}.

(** The standard reactions: the code and the label of each. *)
Definition REACTION_EMOJIS : list (Z * string) :=
  [(128077, "👍"); (10084, "❤️"); (128514, "😂"); (128078, "👎"); (127881, "🎉")].

(** [openDmTabs.includes(nodeNum)] *)
Definition includesTab (s : Ui) (nodeNum : Z) : bool :=
  existsb (Z.eqb nodeNum) (openDmTabs s).

Definition openDmTo (s : Ui) (nodeNum : Z) : Ui :=
  let s :=
    if includesTab s nodeNum then s else setOpenDmTabs s (openDmTabs s ++ [nodeNum]) in
  setViewMode (setActiveDmNode s (Some nodeNum)) Dm.

Definition closeDmTab (s : Ui) (nodeNum : Z) : Ui :=
  let remaining := List.filter (λ n, negb (n =? nodeNum)) (openDmTabs s) in
  let s' := setOpenDmTabs s remaining in
  if optionEqb (activeDmNode (view s)) nodeNum then
    match last remaining with
    | Some n => setActiveDmNode s' (Some n)
    | None => setViewMode (setActiveDmNode s' None) Channels
    end
  else s'.

(** The effect of a new [initialDmTarget]. *)
Definition consumeDmTarget (s : Ui) (target : option Z) : Ui :=
  match target with
  | Some nodeNum => emit (openDmTo s nodeNum) [OnDmTargetConsumed]
  | None => s
  end.

Definition handleEscape (s : Ui) : Ui :=
  let s := setPickerOpenFor s None in
  match replyingTo s with
  | Some _ => setReplyingTo s None
  | None =>
      if showSearch s then setShowSearch s false
      else
        match viewMode (view s) with
        | Dm => setViewMode s Channels
        | Channels => s
        end
  end.

(** [handleSend] up to its [await]. *)
Definition handleSend (s : Ui) : Ui :=
  if negb (JsString.nonEmpty (JsString.trim (input s))) || negb (isConnected s) || sending s
  then s
  else
    let sendChannel :=
      if selectedChannel (view s) =? -1 then 0 else selectedChannel (view s) in
    emit (setSending s true)
      [OnSend (JsString.trim (input s)) sendChannel (dmNode (view s))
         (replyingTo s ≫= packetId)].

(** [handleSend] after its [await]: [None] when [onSend] resolved, the
    error when it rejected. *)
Definition sendSettled (s : Ui) (result : option Thrown) : Ui :=
  match result with
  | None => setSending (setReplyingTo (setInput s "") None) false
  | Some _ => setSending (emit s [ConsoleError]) false
  end.

Definition handleReact (s : Ui) (emojiCode : Z) (packet : option Z) (msgChannel : Z)
    (result : option Thrown) : Ui :=
  let s := setPickerOpenFor s None in
  match result with
  | None => emit s [OnReact emojiCode packet msgChannel (dmNode (view s))]
  | Some _ => emit s [OnReact emojiCode packet msgChannel (dmNode (view s)); ConsoleError]
  end.

(** [msg.packetId ?? -(i + 1)] *)
Definition pickerKey (i : nat) (msg : ChatMessage) : Z :=
  default (- (Z.of_nat i + 1)) (packetId msg).

Definition showPicker (s : Ui) (i : nat) (msg : ChatMessage) : bool :=
  optionEqb (pickerOpenFor s) (pickerKey i msg).

(** The row of buttons next to a message is rendered. *)
Definition showsActions (s : Ui) (msg : ChatMessage) : bool :=
  isConnected s && truthy (packetId msg).

(** What happens to the panel. A [msg] with its index [i] is a message of
    the rendered list; [TypeInput] is any change of the input field, of any
    length. *)
Inductive UiEvent : Type :=
| ClickAll
| ClickChannel (index : Z)
| ClickSearchToggle
| KeyFind
| TypeSearch (q : string)
| ClickDmTab (nodeNum : Z)
| ClickCloseDm (nodeNum : Z)
| InitialDmTarget (target : option Z)
| KeyEscape
| TypeInput (text : string)
| Submit
| SendSettled (result : option Thrown)
| ClickSender (msg : ChatMessage)
| ClickReactToggle (i : nat) (msg : ChatMessage)
| ClickEmoji (i : nat) (msg : ChatMessage) (k : nat) (result : option Thrown)
| ClickReply (msg : ChatMessage)
| ClickDmSender (msg : ChatMessage)
| ClickCancelReply
| Connected (b : bool).

(** An element that is not rendered, or is disabled, takes no event. *)
Definition whenRendered (rendered : bool) (s s' : Ui) : Ui :=
  if rendered then s' else s.

Definition handle (myNodeNum : Z) (s : Ui) (ev : UiEvent) : Ui :=
  match ev with
  | ClickAll => setViewMode (setChannel s (-1)) Channels
  | ClickChannel index => setViewMode (setChannel s index) Channels
  | ClickSearchToggle | KeyFind => setShowSearch s (negb (showSearch s))
  | TypeSearch q => whenRendered (showSearch s) s (setSearchQuery s q)
  | ClickDmTab nodeNum =>
      whenRendered (includesTab s nodeNum) s
        (setViewMode (setActiveDmNode s (Some nodeNum)) Dm)
  | ClickCloseDm nodeNum =>
      whenRendered (includesTab s nodeNum) s (closeDmTab s nodeNum)
  | InitialDmTarget target => consumeDmTarget s target
  | KeyEscape => handleEscape s
  | TypeInput text =>
      whenRendered (isConnected s && negb (sending s)) s (setInput s text)
  | Submit => handleSend s
  | SendSettled result => whenRendered (sending s) s (sendSettled s result)
  | ClickSender msg => emit s [OnNodeClick (sender_id msg)]
  | ClickReactToggle i msg =>
      whenRendered (showsActions s msg && negb (sender_id msg =? myNodeNum)) s
        (setPickerOpenFor s (if showPicker s i msg then None else Some (pickerKey i msg)))
  | ClickEmoji i msg k result =>
      whenRendered (showPicker s i msg) s
        (match REACTION_EMOJIS !! k with
         | Some re => handleReact s re.1 (packetId msg) (channel msg) result
         | None => s
         end)
  | ClickReply msg => whenRendered (showsActions s msg) s (setReplyingTo s (Some msg))
  | ClickDmSender msg =>
      whenRendered (showsActions s msg && negb (sender_id msg =? myNodeNum)) s
        (openDmTo s (sender_id msg))
  | ClickCancelReply =>
      whenRendered (bool_decide (is_Some (replyingTo s))) s (setReplyingTo s None)
  | Connected b => setConnected s b
  end.

Definition viewModeEqb (a b : ViewMode) : bool :=
  match a, b with
  | Channels, Channels | Dm, Dm => true
  | _, _ => false
  end.

Definition optionZEqb (a b : option Z) : bool :=
  match a, b with
  | Some x, Some y => x =? y
  | None, None => true
  | _, _ => false
  end.

(** The dependencies of the effect that clears the reply are unchanged. *)
Definition sameConversation (a b : Ui) : bool :=
  (selectedChannel (view a) =? selectedChannel (view b)) &&
  viewModeEqb (viewMode (view a)) (viewMode (view b)) &&
  optionZEqb (activeDmNode (view a)) (activeDmNode (view b)).

(** An event, then the effect that clears the reply when the channel, the
    view mode or the conversation has changed. *)
Definition step (myNodeNum : Z) (s : Ui) (ev : UiEvent) : Ui :=
  let s' := handle myNodeNum s ev in
  if sameConversation s s' then s' else setReplyingTo s' None.

Definition run (myNodeNum : Z) (s : Ui) (evs : list UiEvent) : Ui :=
  fold_left (step myNodeNum) evs s.

(** The events on the tabs that an event of the panel amounts to. *)
Definition tabsEventOf (myNodeNum : Z) (s : Ui) (ev : UiEvent) : option TabsEvent :=
  match ev with
  | ClickCloseDm nodeNum =>
      if includesTab s nodeNum then Some (CloseDmTab nodeNum) else None
  | InitialDmTarget (Some nodeNum) => Some (OpenDmTo nodeNum)
  | ClickDmSender msg =>
      if showsActions s msg && negb (sender_id msg =? myNodeNum)
      then Some (OpenDmTo (sender_id msg)) else None
  | _ => None
  end.

(** The events on the tabs that a sequence of events amounts to. *)
Fixpoint tabsEvents (myNodeNum : Z) (s : Ui) (evs : list UiEvent) : list TabsEvent :=
  match evs with
  | [] => []
  | ev :: rest =>
      option_list (tabsEventOf myNodeNum s ev) ++ tabsEvents myNodeNum (step myNodeNum s ev) rest
  end.



(** The packet id that an event reads from a message is not negative. *)
Definition packetIdInRange (ev : UiEvent) : bool :=
  match ev with
  | ClickReactToggle _ msg =>
      match packetId msg with Some pid => 0 <=? pid | None => true end
  | _ => true
  end.

End ChatUi.

(** ** ChatPanel.tsx: highlighting of search matches *)

Module Highlight.

Section Regex.

(** The case folding of a regular expression with the [i] flag, on one
    character. *)
Variable canonicalize : ascii → ascii.

(** [String.prototype.toLowerCase] of the runtime. *)
Variable toLowerCase : string → string.

(** [splitRegex], built from the escaped query, matches at the start of
    [s]: the characters of the query in order, case ignored. *)
Fixpoint matchesAt (s query : string) {struct query} : bool :=
  match query with
  | EmptyString => true
  | String c query' =>
      match s with
      | EmptyString => false
      | String d s' =>
          Ascii.eqb (canonicalize c) (canonicalize d) && matchesAt s' query'
      end
  end.

(** [text.split(splitRegex)] from a position of the text on: [s] is the
    text from that position, [gap] the text since the last match, and
    [skip] the number of characters of [s] that belong to a match already
    pushed. The capture group puts every match among the parts. *)
Fixpoint splitFrom (query s gap : string) (skip : nat) : list string :=
  match s with
  | EmptyString => [gap]
  | String c s' =>
      match skip with
      | S k => splitFrom query s' gap k
      | O =>
          if matchesAt s query then
            gap :: String.substring 0 (String.length query) s ::
              splitFrom query s' "" (String.length query - 1)
          else splitFrom query s' (gap +:+ String c "") 0
      end
  end.

Definition split (text query : string) : list string := splitFrom query text "" 0.


End Regex.



End Highlight.

(** ** Further inputs of the examples *)

Module MoreExamples.

Import Connection.



(** Props of a panel whose local database rejects the clearing of
    messages. *)
Definition failingProps : AdminPanel.Props :=
  {| AdminPanel.nodesSize := 4; AdminPanel.messageCount := 12;
     AdminPanel.isConnected := false;
     AdminPanel.callResult :=
       λ c, match c with
            | AdminPanel.DbClearMessages => Some (ErrorObj "disk full")
            | _ => None
            end |}.

(** The view of channel 0. *)
Definition channelZero : ChatPanel.View :=
  {| ChatPanel.viewMode := ChatPanel.Channels; ChatPanel.activeDmNode := None;
     ChatPanel.selectedChannel := 0; ChatPanel.searchQuery := "" |}.

End MoreExamples.

(** * Properties *)

#[local] Arguments String.append !_ _ / : simpl nomatch.

(** ** Strings *)

Section StringFacts.

Import JsString.

Lemma startsWith_app (p r : string) : startsWith (p +:+ r) p = true.
Proof.
  induction p as [|c p IH]; simpl; [done|].
  by rewrite Ascii.eqb_refl.
Qed.

Lemma startsWith_inv (s p : string) :
  startsWith s p = true → ∃ r, s = p +:+ r.
Proof.
  revert s. induction p as [|c p IH]; intros s H; simpl in *.
  - by exists s.
  - destruct s as [|d s]; [done|].
    destruct (Ascii.eqb_spec c d) as [->|]; [|done].
    destruct (IH _ H) as [r ->]. by exists r.
Qed.

Lemma startsWith_spec (s p : string) :
  startsWith s p = true ↔ ∃ r, s = p +:+ r.
Proof.
  split; [apply startsWith_inv|]. intros [r ->]. apply startsWith_app.
Qed.

Lemma includes_spec (s sub : string) :
  includes s sub = true ↔ Contains s sub.
Proof.
  unfold Contains. induction s as [|c s IH]; simpl.
  - rewrite orb_false_r, startsWith_spec. split.
    + intros [r Hr]. by exists "", r.
    + intros ([|d pre] & post & H); simpl in H; [by exists post|done].
  - rewrite orb_true_iff, startsWith_spec, IH. split.
    + intros [[r Hr]|(pre & post & ->)].
      * by exists "", r.
      * by exists (String c pre), post.
    + intros ([|d pre] & post & H); simpl in H.
      * left. by exists post.
      * right. injection H as -> ->. by exists pre, post.
Qed.

End StringFacts.

(** ** Connection manager *)

Section ConnectionFacts.

Import JsString Connection.

Lemma ignoreErrors_returns (m : Eff unit) :
  Eff.outcome (Eff.ignoreErrors m) = Returns tt.
Proof. by destruct m as [t [[]|e]]. Qed.

Lemma ignoreErrors_trace (m : Eff unit) :
  Eff.trace (Eff.ignoreErrors m) = Eff.trace m.
Proof. destruct m as [t [[]|e]]; simpl; [done|]. by rewrite app_nil_r. Qed.

Lemma gattDisconnect_returns (d : BluetoothDevice) :
  Eff.outcome (gattDisconnect d) = Returns tt.
Proof.
  unfold gattDisconnect. destruct (gatt d); [|done]. apply ignoreErrors_returns.
Qed.

Lemma gattDisconnect_trace (d : BluetoothDevice) (g : Gatt) :
  gatt d = Some g → Eff.trace (gattDisconnect d) = [EvGattDisconnect d].
Proof.
  intros H. unfold gattDisconnect. rewrite H, ignoreErrors_trace.
  by destruct (gatt_disconnect_result g).
Qed.

Lemma isStreamError_spec (msg : string) :
  isStreamError msg = true ↔
  Contains msg "not a function" ∨ Contains msg "already been closed" ∨
  Contains msg "locked".
Proof.
  unfold isStreamError. rewrite !orb_true_iff, !includes_spec. tauto.
Qed.

Lemma tryFinally_ignore {A} (m : Eff A) (fin : Eff unit) :
  Eff.tryFinally m (Eff.ignoreErrors fin) = (Eff.trace m ++ Eff.trace fin, Eff.outcome m).
Proof.
  destruct m as [t1 r], fin as [t2 [[]|e]]; simpl; [done|]. by rewrite app_nil_r.
Qed.

Lemma bind_ignore (m : Eff unit) (k : Eff unit) :
  Eff.bind (Eff.ignoreErrors m) (λ _, k) = (Eff.trace m ++ Eff.trace k, Eff.outcome k).
Proof.
  destruct m as [t1 [[]|e]], k as [t2 r]; simpl; [done|]. by rewrite app_nil_r.
Qed.

(** Every run of [safeDisconnect] is [device.disconnect()], the clean-up
    of the [catch] block, then [device.complete()]. *)
Lemma safeDisconnect_closed_form (device : MeshDevice) :
  safeDisconnect device =
  (EvDeviceDisconnect :: cleanupTrace device ++ [EvDeviceComplete], Returns tt).
Proof.
  unfold safeDisconnect, cleanupTrace, mbind, Eff_bind. rewrite tryFinally_ignore.
  destruct (disconnect_result device) as [err|]; [|done].
  cbn [Eff.callVoid Eff.call Eff.tryCatch].
  destruct (isStreamError (errorText err)); [|done].
  rewrite bind_ignore.
  destruct (bluetoothDevice (transport device)) as [bt|].
  - unfold gattConnected. destruct (gatt bt) as [g|] eqn:Hg.
    + destruct (connected g).
      * pose proof (gattDisconnect_trace bt g Hg) as Ht.
        pose proof (gattDisconnect_returns bt) as Hr.
        destruct (gattDisconnect bt) as [t r]. simpl in *. subst.
        by destruct (toDevice_close_result (transport device)).
      * by destruct (toDevice_close_result (transport device)).
    + by destruct (toDevice_close_result (transport device)).
  - by destruct (toDevice_close_result (transport device)).
Qed.

(** C1. [safeDisconnect] never throws; [device.complete()] is called on
    every path, once and last; and when [device.disconnect()] throws with a
    message that contains "not a function", "already been closed" or
    "locked", [toDevice.close()] is attempted and the GATT server of a
    captured Bluetooth device that reports itself connected is
    disconnected. *)
Theorem safeDisconnect_completes (device : MeshDevice) :
  Eff.outcome (safeDisconnect device) = Returns tt ∧
  (∃ before, Eff.trace (safeDisconnect device) = before ++ [EvDeviceComplete] ∧
             EvDeviceComplete ∉ before) ∧
  (∀ err,
     disconnect_result device = Some err →
     Contains (errorText err) "not a function" ∨
     Contains (errorText err) "already been closed" ∨
     Contains (errorText err) "locked" →
     EvToDeviceClose ∈ Eff.trace (safeDisconnect device) ∧
     ∀ btDevice g,
       bluetoothDevice (transport device) = Some btDevice →
       gatt btDevice = Some g → connected g = true →
       EvGattDisconnect btDevice ∈ Eff.trace (safeDisconnect device)).
Proof.
  rewrite safeDisconnect_closed_form. simpl. split; [done|split].
  - exists (EvDeviceDisconnect :: cleanupTrace device). split; [done|].
    unfold cleanupTrace. rewrite list_elem_of_In.
    repeat case_match; simpl; intuition discriminate.
  - intros err Hd Hmsg. apply isStreamError_spec in Hmsg.
    unfold cleanupTrace. rewrite Hd, Hmsg. split.
    + apply list_elem_of_In. simpl. auto.
    + intros bt g -> Hg Hc. unfold gattConnected. rewrite Hg, Hc.
      apply list_elem_of_In. simpl. auto.
Qed.

Lemma find_none_gatt (devices : list BluetoothDevice) :
  (∀ d, d ∈ devices → gatt d = None) → reconnectTarget devices = None.
Proof.
  intros H. unfold reconnectTarget.
  destruct (List.find hasDisconnectedGatt devices) as [d|] eqn:E1.
  - apply find_some in E1 as [Hin Hd]. apply list_elem_of_In, H in Hin.
    unfold hasDisconnectedGatt in Hd. by rewrite Hin in Hd.
  - destruct (List.find hasGatt devices) as [d|] eqn:E2; [|done].
    apply find_some in E2 as [Hin Hd]. apply list_elem_of_In, H in Hin.
    unfold hasGatt in Hd. by rewrite Hin in Hd.
Qed.

(** The target is a device with a GATT object, and one whose GATT is
    disconnected when there is any. *)
Lemma reconnectTarget_some (devices : list BluetoothDevice) (d0 : BluetoothDevice) :
  d0 ∈ devices → gatt d0 ≠ None →
  ∃ target, reconnectTarget devices = Some target ∧ target ∈ devices ∧
            hasGatt target = true ∧
            ((∃ d, d ∈ devices ∧ hasDisconnectedGatt d = true) →
             hasDisconnectedGatt target = true).
Proof.
  intros Hin Hg. unfold reconnectTarget.
  destruct (List.find hasDisconnectedGatt devices) as [d|] eqn:E1.
  - apply find_some in E1 as [Hd1 Hd2]. exists d. repeat split; auto.
    + by apply list_elem_of_In.
    + unfold hasDisconnectedGatt, hasGatt in *. by destruct (gatt d).
  - destruct (List.find hasGatt devices) as [d|] eqn:E2.
    + apply find_some in E2 as [Hd1 Hd2]. exists d. repeat split; auto.
      * by apply list_elem_of_In.
      * intros (d' & Hd' & Hdis). apply list_elem_of_In in Hd'.
        by rewrite (find_none _ _ E1 d' Hd') in Hdis.
    + apply list_elem_of_In in Hin. pose proof (find_none _ _ E2 d0 Hin) as Hn.
      unfold hasGatt in Hn. by destruct (gatt d0).
Qed.

Lemma reconnectBle_closed_form (p : Platform) (devices : list BluetoothDevice)
    (target : BluetoothDevice) :
  getDevices_result p = Returns devices →
  reconnectTarget devices = Some target →
  reconnectBle p =
  (EvGetDevices :: staleDisconnect target ++ Eff.trace (createTransport p target) ++
     match Eff.outcome (createTransport p target) with
     | Returns (Some _) => [EvNewMeshDevice]
     | _ => []
     end,
   match Eff.outcome (createTransport p target) with
   | Returns (Some t) =>
       Returns {| transport := setBluetoothDevice t target;
                  disconnect_result := deviceDisconnect_result p (setBluetoothDevice t target);
                  complete_result := deviceComplete_result p (setBluetoothDevice t target) |}
   | Returns None => Throws (ErrorObj "Failed to create BLE transport for reconnection")
   | Throws e => Throws e
   end).
Proof.
  intros Hdev Htarget. unfold reconnectBle, mbind, Eff_bind.
  rewrite Hdev. cbn [Eff.call Eff.bind]. rewrite Htarget.
  unfold staleDisconnect.
  destruct (createTransport p target) as [tc [[t|]|e]];
  destruct (gattConnected target) eqn:Hc.
  all: try (unfold gattConnected in Hc; destruct (gatt target) as [g|] eqn:Hg; [|done];
       pose proof (gattDisconnect_trace target g Hg) as Ht;
       pose proof (gattDisconnect_returns target) as Hr;
       destruct (gattDisconnect target) as [tg rg]; simpl in Ht, Hr; subst).
  all: cbn; rewrite ?app_nil_r; done.
Qed.

(** C2. [reconnectBle] throws when no granted device has a GATT object.
    Otherwise its target is a device with a GATT object, one with a
    disconnected GATT when there is any; a target that still reports itself
    connected is disconnected and 500 ms are waited before the transport is
    created; and it throws when the library has neither [createFromDevice]
    nor [prepareConnection], or when no transport comes back. *)
Theorem reconnectBle_spec (p : Platform) (devices : list BluetoothDevice) :
  getDevices_result p = Returns devices →
  ((∀ d, d ∈ devices → gatt d = None) →
   reconnectBle p =
   ([EvGetDevices],
    Throws (ErrorObj "No previously connected BLE device found for reconnection"))) ∧
  (∀ d0, d0 ∈ devices → gatt d0 ≠ None →
   ∃ target,
     reconnectTarget devices = Some target ∧ target ∈ devices ∧ hasGatt target = true ∧
     ((∃ d, d ∈ devices ∧ hasDisconnectedGatt d = true) →
      hasDisconnectedGatt target = true) ∧
     (gattConnected target = true →
      ∃ rest, Eff.trace (reconnectBle p) =
              EvGetDevices :: EvGattDisconnect target :: EvSetTimeout 500 :: rest) ∧
     (gattConnected target = false →
      ∃ rest, Eff.trace (reconnectBle p) = EvGetDevices :: rest ∧
              ∀ d ms, (EvGattDisconnect d ∉ rest) ∧ (EvSetTimeout ms ∉ rest)) ∧
     (createFromDevice p = None → prepareConnection p = None →
      Eff.outcome (reconnectBle p) =
      Throws (ErrorObj
        "TransportWebBluetooth has no method to create a transport from an existing device")) ∧
     (Eff.outcome (createTransport p target) = Returns None →
      Eff.outcome (reconnectBle p) =
      Throws (ErrorObj "Failed to create BLE transport for reconnection")) ∧
     (∀ t, Eff.outcome (createTransport p target) = Returns (Some t) →
      ∃ device, Eff.outcome (reconnectBle p) = Returns device ∧
                transport device = setBluetoothDevice t target)).
Proof.
  intros Hdev. split.
  - intros Hnone. unfold reconnectBle, mbind, Eff_bind. rewrite Hdev.
    cbn [Eff.call Eff.bind]. by rewrite (find_none_gatt devices Hnone).
  - intros d0 Hin Hg.
    destruct (reconnectTarget_some devices d0 Hin Hg) as (target & Ht & Htin & Hhas & Hpref).
    exists target. rewrite (reconnectBle_closed_form p devices target Hdev Ht).
    unfold staleDisconnect. cbn [Eff.trace Eff.outcome fst snd].
    repeat split; try done.
    + intros ->. eauto.
    + intros ->. eexists; split; [done|]. intros d ms.
      rewrite !list_elem_of_In. unfold createTransport.
      repeat case_match; simpl; intuition discriminate.
    + intros H1 H2. unfold createTransport. by rewrite H1, H2.
    + by intros ->.
    + intros t ->. eauto.
Qed.


Lemma substring_all (s : string) : String.substring 0 (String.length s) s = s.
Proof. induction s as [|c s IH]; simpl; [done|]. by rewrite IH. Qed.

Lemma substring_drop_prefix (p r : string) :
  String.substring (String.length p)
    (String.length (p +:+ r) - String.length p)%nat (p +:+ r) = r.
Proof.
  induction p as [|c p IH]; simpl.
  - rewrite Nat.sub_0_r. apply substring_all.
  - apply IH.
Qed.








Lemma newMeshDevice_no_create (p : Platform) (t : Transport) :
  Forall (λ ev, isTransportCreate ev = false) (Eff.trace (newMeshDevice p t)).
Proof. repeat constructor. Qed.


Lemma safeDisconnect_completes_witness :
  EvToDeviceClose ∈ Eff.trace (safeDisconnect Examples.bleDevice) ∧
  EvGattDisconnect Examples.radio ∈ Eff.trace (safeDisconnect Examples.bleDevice).
Proof.
  destruct (safeDisconnect_completes Examples.bleDevice) as (_ & _ & H).
  destruct (H (ErrorObj "this.transport.disconnect is not a function") eq_refl)
    as [Hclose Hgatt].
  - left. by exists "this.transport.disconnect is ", "".
  - split; [exact Hclose|].
    exact (Hgatt Examples.radio Examples.liveGatt eq_refl eq_refl eq_refl).
Defined.

Lemma reconnectBle_spec_witness :
  ∃ target, reconnectTarget [Examples.radio; Examples.idleRadio] = Some target ∧
            hasDisconnectedGatt target = true.
Proof.
  destruct (reconnectBle_spec Examples.platform [Examples.radio; Examples.idleRadio] eq_refl)
    as [_ H].
  destruct (H Examples.radio) as (target & Ht & _ & _ & Hpref & _).
  - apply list_elem_of_In. simpl. auto.
  - discriminate.
  - exists target. split; [exact Ht|]. apply Hpref.
    exists Examples.idleRadio. split; [|reflexivity].
    apply list_elem_of_In. simpl. auto.
Defined.


End ConnectionFacts.

(** ** Admin panel *)

Section AdminFacts.

Import JsString AdminPanel.

Lemma runAction_invokes (p : Props) (calls : list Call) (c : Call) :
  Invoke c ∈ (runAction p calls).1 → c ∈ calls.
Proof.
  induction calls as [|c' calls IH]; simpl.
  - intros H. by apply elem_of_nil in H.
  - destruct (callResult p c') as [e|].
    + simpl. intros H. apply list_elem_of_singleton in H as [= ->]. left.
    + destruct (runAction p calls) as [out r]. simpl in *.
      intros H. apply elem_of_cons in H as [[= ->]|H]; [left|right; auto].
Qed.

Lemma runAction_count (p : Props) (calls : list Call) :
  (length (deviceCommands (runAction p calls).1) ≤
   length (List.filter isDeviceCommand calls))%nat.
Proof.
  induction calls as [|c calls IH]; simpl; [done|].
  destruct (callResult p c) as [e|].
  - simpl. destruct (isDeviceCommand c); simpl; lia.
  - destruct (runAction p calls) as [out r]. simpl in *.
    destruct (isDeviceCommand c); simpl; lia.
Qed.

(** Every step other than a press of the confirm button leaves the log
    without a new device command. *)
Lemma step_not_confirm (p : Props) (s : State) (ev : UiEvent) :
  ev ≠ ClickConfirm →
  ∃ out, log (step p s ev) = log s ++ out ∧ deviceCommands out = [].
Proof.
  intros Hev. destruct ev; try done; simpl; unfold whenEnabled.
  all: repeat case_match; simpl.
  all: try (exists []; by rewrite app_nil_r).
  all: try (eexists; split; [reflexivity|done]).
Qed.

Lemma step_confirm (p : Props) (s : State) :
  ∃ out, log (step p s ClickConfirm) = log s ++ out ∧
         pendingAction (step p s ClickConfirm) = None ∧
         (∀ c, Invoke c ∈ out → ∃ a, pendingAction s = Some a ∧ c ∈ action a) ∧
         (length (deviceCommands out) ≤ length (guardedCalls (pendingAction s)))%nat.
Proof.
  simpl. unfold modalShown, handleConfirm.
  destruct (pendingAction s) as [a|] eqn:Ha.
  - pose proof (runAction_invokes p (action a)) as Hin.
    pose proof (runAction_count p (action a)) as Hcount.
    destruct (runAction p (action a)) as [out [e|]]; simpl in *.
    all: eexists; split; [reflexivity|]; split; [done|]; split.
    all: try (intros c Hc; apply elem_of_app in Hc as [Hc|Hc];
              [eauto|apply list_elem_of_singleton in Hc; done]).
    all: unfold deviceCommands in *; rewrite List.filter_app, length_app; simpl; lia.
  - exists []. rewrite app_nil_r, Ha. repeat split; try done.
    intros c Hc. by apply elem_of_nil in Hc.
Qed.

Lemma step_guarded (p : Props) (s : State) (ev : UiEvent) :
  (length (guardedCalls (pendingAction s)) ≤ 1)%nat →
  (length (guardedCalls (pendingAction (step p s ev))) ≤ 1)%nat.
Proof.
  intros Hs. destruct ev; simpl; unfold whenEnabled, modalShown, handleConfirm.
  all: repeat case_match; simpl; try lia; try done.
Qed.

Lemma run_confirmations (p : Props) (evs : list UiEvent) (s : State) :
  (length (guardedCalls (pendingAction s)) ≤ 1)%nat →
  (length (deviceCommands (log (run p s evs))) ≤
   length (deviceCommands (log s)) + length (List.filter isConfirm evs))%nat.
Proof.
  revert s. induction evs as [|ev evs IH]; intros s Hs; simpl; [lia|].
  specialize (IH (step p s ev) (step_guarded p s ev Hs)).
  unfold run in *. etrans; [exact IH|].
  assert (ev = ClickConfirm ∨ ev ≠ ClickConfirm) as [->|Hne]
    by (destruct ev; auto).
  - destruct (step_confirm p s) as (out & Hlog & _ & _ & Hlen).
    rewrite Hlog. unfold deviceCommands in *.
    rewrite List.filter_app, length_app. simpl. lia.
  - destruct (step_not_confirm p s ev Hne) as (out & Hlog & Hnone).
    rewrite Hlog. unfold deviceCommands in *.
    rewrite List.filter_app, length_app, Hnone.
    destruct ev; try done; simpl; lia.
Qed.

(** C4. A Reboot, Shutdown, Reset NodeDB, Factory Reset or Remove Node
    command reaches its handler only at a press of the confirm button, and
    then it is a call of the action that was pending; Cancel and a click on
    the backdrop clear the pending action and call nothing; over any
    sequence of user actions there are at most as many device commands as
    presses of confirm; and the pending action is a single optional value. *)
Theorem device_commands_need_confirmation (p : Props) :
  (∀ s ev, ev ≠ ClickConfirm →
     ∃ out, log (step p s ev) = log s ++ out ∧ deviceCommands out = []) ∧
  (∀ s, ∃ out, log (step p s ClickConfirm) = log s ++ out ∧
     pendingAction (step p s ClickConfirm) = None ∧
     ∀ c, Invoke c ∈ out → ∃ a, pendingAction s = Some a ∧ c ∈ action a) ∧
  (∀ s ev, ev = ClickCancel ∨ ev = ClickBackdrop →
     pendingAction (step p s ev) = None ∧ log (step p s ev) = log s) ∧
  (∀ evs, (length (deviceCommands (log (run p initial evs))) ≤
           length (List.filter isConfirm evs))%nat) ∧
  (∀ s a b, pendingAction s = Some a → pendingAction s = Some b → a = b).
Proof.
  split; [|split; [|split; [|split]]].
  - apply step_not_confirm.
  - intros s. destruct (step_confirm p s) as (out & H1 & H2 & H3 & _). eauto.
  - intros s ev [-> | ->]; simpl; unfold modalShown;
      destruct (pendingAction s) eqn:E; by rewrite ?E.
  - intros evs. apply (run_confirmations p evs initial). simpl. lia.
  - congruence.
Qed.

Lemma device_commands_need_confirmation_witness :
  pendingAction
    (step Examples.adminProps (run Examples.adminProps initial [ClickFactoryReset])
       ClickCancel) = None ∧
  log (run Examples.adminProps initial [ClickFactoryReset; ClickCancel; ClickConfirm]) = [].
Proof.
  destruct (device_commands_need_confirmation Examples.adminProps) as (_ & _ & H & _).
  destruct (H (run Examples.adminProps initial [ClickFactoryReset]) ClickCancel
              (or_introl eq_refl)) as [Hp Hl].
  split; [exact Hp|]. reflexivity.
Defined.

(** After Reboot and confirm the handler has been called, once. *)
Example reboot_confirmed :
  log (run Examples.adminProps initial [ClickReboot; ClickConfirm; ClickConfirm]) =
  [Invoke (OnReboot 2); Toast "Reboot command sent successfully." "success"].
Proof. reflexivity. Qed.

End AdminFacts.

(** ** Map panel *)

Section MapFacts.

Import MapPanel.







Lemma reportedViews_cons (ev : MapEvent) (evs : list MapEvent) :
  reportedViews (ev :: evs) = reportedViews [ev] ++ reportedViews evs.
Proof. unfold reportedViews. simpl. by case_match. Qed.







Lemma nodesWithPosition_spec (nodes : list (Z * MeshNode)) (n : MeshNode) :
  n ∈ nodesWithPosition nodes ↔
  (∃ k, (k, n) ∈ nodes) ∧
  isNonzero (latitude n) = true ∧ isNonzero (longitude n) = true.
Proof.
  unfold nodesWithPosition.
  rewrite list_elem_of_In, filter_In, in_map_iff, andb_true_iff. split.
  - intros [([k n'] & <- & H) Hnz]. split; [|done].
    exists k. by apply list_elem_of_In.
  - intros ([k Hk] & Hnz). split; [|done].
    exists (k, n). split; [done|]. by apply list_elem_of_In.
Qed.

Lemma markerOf_self (getNodeStatus : Z → NodeStatus) (myNodeNum : Z) (n : MeshNode) :
  node_id n = myNodeNum →
  shape (icon (markerOf getNodeStatus myNodeNum n)) = Star ∧
  iconSize (icon (markerOf getNodeStatus myNodeNum n)) = 32 ∧
  zIndexOffset (markerOf getNodeStatus myNodeNum n) = 1000.
Proof.
  intros H. unfold markerOf, getMarkerIcon. simpl. rewrite H, Z.eqb_refl.
  by destruct (getNodeStatus (last_heard n)).
Qed.

Lemma markerOf_other (getNodeStatus : Z → NodeStatus) (myNodeNum : Z) (n : MeshNode) :
  node_id n ≠ myNodeNum →
  shape (icon (markerOf getNodeStatus myNodeNum n)) = Circle ∧
  iconSize (icon (markerOf getNodeStatus myNodeNum n)) = 25 ∧
  zIndexOffset (markerOf getNodeStatus myNodeNum n) = 0.
Proof.
  intros H. unfold markerOf, getMarkerIcon. simpl. apply Z.eqb_neq in H. rewrite H.
  by destruct (getNodeStatus (last_heard n)).
Qed.

(** C9. The nodes drawn are those of the node map whose latitude and
    longitude both differ from 0, one marker each; the fill of the icon is
    the colour of the status of the last-heard time; and the marker of the
    local node is a star, larger than and above every other marker. *)
Theorem markers_of_positioned_nodes (getNodeStatus : Z → NodeStatus)
    (nodes : list (Z * MeshNode)) (myNodeNum : Z) :
  (∀ n, n ∈ nodesWithPosition nodes ↔
        (∃ k, (k, n) ∈ nodes) ∧
        isNonzero (latitude n) = true ∧ isNonzero (longitude n) = true) ∧
  markers getNodeStatus nodes myNodeNum =
    markerOf getNodeStatus myNodeNum <$> nodesWithPosition nodes ∧
  (∀ n, fill (icon (markerOf getNodeStatus myNodeNum n)) =
        statusColor (getNodeStatus (last_heard n))) ∧
  (∀ m m', m ∈ markers getNodeStatus nodes myNodeNum →
           m' ∈ markers getNodeStatus nodes myNodeNum →
           key m = myNodeNum → key m' ≠ myNodeNum →
           shape (icon m) = Star ∧ shape (icon m') = Circle ∧
           iconSize (icon m') < iconSize (icon m) ∧
           zIndexOffset m' < zIndexOffset m).
Proof.
  split; [|split; [|split]].
  - apply nodesWithPosition_spec.
  - done.
  - intros n. unfold markerOf, getMarkerIcon. simpl.
    by destruct (node_id n =? myNodeNum), (getNodeStatus (last_heard n)).
  - intros m m' Hm Hm' Hself Hother. unfold markers in Hm, Hm'.
    apply list_elem_of_In, in_map_iff in Hm as (n & <- & _).
    apply list_elem_of_In, in_map_iff in Hm' as (n' & <- & _).
    destruct (markerOf_self getNodeStatus myNodeNum n Hself) as (-> & -> & ->).
    destruct (markerOf_other getNodeStatus myNodeNum n' Hother) as (-> & -> & ->).
    repeat split; lia.
Qed.


Lemma markers_of_positioned_nodes_witness :
  zIndexOffset (markerOf Examples.alwaysOnline 1 Examples.farNode) <
  zIndexOffset (markerOf Examples.alwaysOnline 1 Examples.homeNode).
Proof.
  destruct (markers_of_positioned_nodes Examples.alwaysOnline Examples.nodeMap 1)
    as (_ & _ & _ & H).
  apply (H (markerOf Examples.alwaysOnline 1 Examples.homeNode)
           (markerOf Examples.alwaysOnline 1 Examples.farNode)).
  - apply list_elem_of_In. simpl. auto.
  - apply list_elem_of_In. simpl. auto.
  - reflexivity.
  - discriminate.
Defined.

(** A node at latitude 0 is not drawn. *)
Example unpositioned_node_hidden :
  key <$> markers Examples.alwaysOnline Examples.nodeMap 1 = [1; 2].
Proof. reflexivity. Qed.

End MapFacts.

(** ** Chat panel *)

Section ChatFacts.

Import JsString ChatPanel.

Lemma filter_filter_andb {A} (f g : A → bool) (l : list A) :
  List.filter f (List.filter g l) = List.filter (λ x, g x && f x) l.
Proof.
  induction l as [|x l IH]; simpl; [done|].
  destruct (g x); simpl; [|done]. destruct (f x); by rewrite IH.
Qed.

Lemma truthy_spec (x : option Z) : truthy x = true ↔ ∃ n, x = Some n ∧ n ≠ 0.
Proof.
  destruct x as [n|]; simpl.
  - rewrite negb_true_iff, Z.eqb_neq. split; [eauto|]. by intros (? & [= <-] & ?).
  - split; [done|]. by intros (? & ? & ?).
Qed.

Lemma isReaction_spec (m : ChatMessage) :
  isReaction m = true ↔
  ∃ e id, emoji m = Some e ∧ e ≠ 0 ∧ replyId m = Some id ∧ id ≠ 0.
Proof.
  unfold isReaction. rewrite andb_true_iff, !truthy_spec. split.
  - intros [(e & ? & ?) (id & ? & ?)]. by exists e, id.
  - intros (e & id & ? & ? & ? & ?). split; eauto.
Qed.

Lemma splitMessages_fold (messages regular : list ChatMessage)
    (reactions : gmap Z (list Reaction)) :
  (fold_left splitStep messages (regular, reactions)).1 =
    regular ++ List.filter (λ m, negb (isReaction m)) messages ∧
  ∀ id, id ≠ 0 →
    default [] ((fold_left splitStep messages (regular, reactions)).2 !! id) =
    default [] (reactions !! id) ++ reactionsTo id messages.
Proof.
  revert regular reactions. induction messages as [|m messages IH];
    intros regular reactions.
  - simpl. split; [by rewrite app_nil_r|]. intros id _.
    unfold reactionsTo. simpl. by rewrite app_nil_r.
  - cbn [fold_left]. unfold splitStep at 2 4. cbn [List.filter].
    destruct (isReaction m) eqn:Hr; cbn [negb andb].
    + destruct (IH regular
        (<[default 0 (replyId m) :=
             default [] (reactions !! default 0 (replyId m)) ++ [reactionOf m]]> reactions))
        as [IH1 IH2].
      split; [exact IH1|]. intros id Hid. etrans; [exact (IH2 id Hid)|].
      pose proof Hr as Hr'.
      apply isReaction_spec in Hr' as (e & rid & He & _ & Hrid & _).
      rewrite Hrid. cbn [default from_option].
      unfold reactionsTo. cbn [List.filter].
      rewrite Hr, Hrid. cbn [optionEqb andb].
      destruct (Z.eqb_spec rid id) as [->|Hne].
      * rewrite lookup_insert_eq. cbn. by rewrite <- app_assoc.
      * by rewrite lookup_insert_ne.
    + destruct (IH (regular ++ [m]) reactions) as [IH1 IH2].
      split; [by rewrite IH1, <- app_assoc|].
      intros id Hid. etrans; [exact (IH2 id Hid)|]. unfold reactionsTo. cbn [List.filter].
      by rewrite Hr.
Qed.

Lemma regularMessages_filter (messages : list ChatMessage) :
  regularMessages messages = List.filter (λ m, negb (isReaction m)) messages.
Proof.
  unfold regularMessages, splitMessages.
  by destruct (splitMessages_fold messages [] ∅) as [-> _].
Qed.

Lemma reactionsByReplyId_lookup (messages : list ChatMessage) (pid : Z) :
  pid ≠ 0 →
  default [] (reactionsByReplyId messages !! pid) = reactionsTo pid messages.
Proof.
  intros Hpid. unfold reactionsByReplyId, splitMessages.
  destruct (splitMessages_fold messages [] ∅) as [_ H].
  rewrite (H pid Hpid). by rewrite lookup_empty.
Qed.




Section ChatFilter.

Variable toLowerCase : string → string.

Lemma filteredMessages_unfold (myNodeNum : Z) (v : View) (messages : list ChatMessage) :
  filteredMessages toLowerCase myNodeNum v messages =
  List.filter
    (λ m, negb (isReaction m) &&
          match dmNode v with
          | Some node => exchangedWith myNodeNum node m
          | None => onSelectedChannel v m
          end &&
          (negb (searchActive v) ||
           matchesQuery toLowerCase (toLowerCase (searchQuery v)) m))
    messages.
Proof.
  unfold filteredMessages, searchActive. rewrite regularMessages_filter.
  destruct (dmNode v) as [node|], (nonEmpty (trim (searchQuery v)));
    rewrite !filter_filter_andb; apply filter_ext; intros m; simpl;
    unfold exchangedWith, onSelectedChannel;
    by rewrite ?andb_true_r, ?andb_assoc.
Qed.


End ChatFilter.


Lemma unread_fold (myNodeNum : Z) (lastRead : gmap Z Z) (regular : list ChatMessage)
    (counts : gmap Z nat) (ch : Z) :
  default 0%nat (fold_left (unreadStep myNodeNum lastRead) regular counts !! ch) =
  (default 0%nat (counts !! ch) +
   length (List.filter
     (λ m, (negb (sender_id m =? myNodeNum) && negb (truthy (to m)) &&
            (channel m =? ch) && (timestamp m >? default 0 (lastRead !! ch)))%Z)
     regular))%nat.
Proof.
  revert counts. induction regular as [|m regular IH]; intros counts.
  - simpl. lia.
  - cbn [fold_left List.filter]. rewrite IH. unfold unreadStep.
    destruct (sender_id m =? myNodeNum); [simpl; lia|].
    destruct (truthy (to m)); [simpl; lia|]. cbn [negb andb].
    destruct (Z.eqb_spec (channel m) ch) as [->|Hne]; cbn [andb].
    + destruct (timestamp m >? default 0 (lastRead !! ch)); [|simpl; lia].
      rewrite lookup_insert_eq. simpl. lia.
    + destruct (timestamp m >? default 0 (lastRead !! channel m)); [|simpl; lia].
      rewrite lookup_insert_ne by done. simpl. lia.
Qed.

Lemma updateUnread_number (myNodeNum : Z) (messages : list ChatMessage) (u : Unread) (ch : Z) :
  unreadOf (updateUnread myNodeNum messages u) ch =
  unreadNumber myNodeNum (lastRead u) ch messages.
Proof.
  unfold unreadOf, updateUnread, countUnread, unreadNumber. simpl.
  rewrite unread_fold, lookup_empty, regularMessages_filter, filter_filter_andb. simpl.
  f_equal. apply filter_ext. intros m. unfold isUnreadOn.
  by rewrite !andb_assoc.
Qed.

(** C7, amended. The unread count kept for a channel after the counting
    effect is the number of regular broadcasts on that channel from other
    nodes that are later than the last read of the channel; messages of the
    local node and direct messages leave every count as it is; viewing a
    channel in channel mode sets its last-read time to now and removes its
    count, and touches no other channel. The badge shows the count itself
    up to 99 and "99+" above, and is hidden for a count of 0 and for the
    channel being viewed. *)
Theorem unread_counts_spec (myNodeNum : Z) (messages : list ChatMessage) (u : Unread)
    (v : View) (now : Z) :
  (∀ ch, unreadOf (updateUnread myNodeNum messages u) ch =
         unreadNumber myNodeNum (lastRead u) ch messages) ∧
  (∀ m counts, sender_id m = myNodeNum ∨ truthy (to m) = true →
               unreadStep myNodeNum (lastRead u) counts m = counts) ∧
  (viewMode v = Channels →
   lastRead (markRead v now u) !! selectedChannel v = Some now ∧
   unreadCounts (markRead v now u) !! selectedChannel v = None ∧
   unreadOf (markRead v now u) (selectedChannel v) = 0%nat ∧
   ∀ ch, ch ≠ selectedChannel v →
         lastRead (markRead v now u) !! ch = lastRead u !! ch ∧
         unreadOf (markRead v now u) ch = unreadOf u ch) ∧
  (viewMode v = Dm → markRead v now u = u) ∧
  (∀ ch,
     (unreadOf u ch = 0%nat ∨ (viewMode v = Channels ∧ selectedChannel v = ch) →
      unreadBadge v u ch = None) ∧
     (viewMode v = Dm ∨ selectedChannel v ≠ ch →
      ((0 < unreadOf u ch ≤ 99)%nat →
       unreadBadge v u ch = Some (ofNumber (Z.of_nat (unreadOf u ch)))) ∧
      ((99 < unreadOf u ch)%nat → unreadBadge v u ch = Some "99+"))).
Proof.
  split; [apply updateUnread_number|]. split; [|split; [|split]].
  - intros m counts [H|H]; unfold unreadStep.
    + by rewrite H, Z.eqb_refl.
    + rewrite H. by destruct (sender_id m =? myNodeNum).
  - intros Hv. unfold markRead, unreadOf. rewrite Hv. simpl.
    rewrite lookup_insert_eq, lookup_delete_eq. repeat split; try done.
    + by rewrite lookup_insert_ne.
    + by rewrite lookup_delete_ne.
  - intros Hv. unfold markRead. by rewrite Hv.
  - intros ch. unfold unreadBadge.
    destruct (Nat.ltb_spec 0 (unreadOf u ch)), (Nat.ltb_spec 99 (unreadOf u ch)),
      (viewMode v) eqn:Hv; simpl;
      try destruct (Z.eqb_spec (selectedChannel v) ch); simpl;
      intuition (discriminate || lia || congruence).
Qed.

(** With a hundred unread messages the badge reads "99+". *)
Lemma unread_badge_capped :
  ¬ BadgeShowsNumber 1 Examples.hundredMessages Examples.neverRead Examples.dmView 0.
Proof.
  intros H. specialize (H "99+"). vm_compute in H. by specialize (H eq_refl).
Qed.

Lemma unread_counts_spec_witness :
  unreadBadge Examples.dmView
    (updateUnread 1 Examples.hundredMessages Examples.neverRead) 0 = Some "99+" ∧
  unreadOf (markRead Examples.allChannels 1704070000000
              (updateUnread 1 Examples.hundredMessages Examples.neverRead)) (-1) = 0%nat.
Proof.
  destruct (unread_counts_spec 1 Examples.hundredMessages
              (updateUnread 1 Examples.hundredMessages Examples.neverRead)
              Examples.dmView 1704070000000) as (_ & _ & _ & _ & Hbadge).
  destruct (unread_counts_spec 1 Examples.hundredMessages
              (updateUnread 1 Examples.hundredMessages Examples.neverRead)
              Examples.allChannels 1704070000000) as (_ & _ & Hread & _).
  split.
  - destruct (Hbadge 0) as [_ Hshown]. destruct (Hshown (or_introl eq_refl)) as [_ Hcap].
    apply Hcap. vm_compute. lia.
  - by destruct (Hread eq_refl) as (_ & _ & H0 & _).
Defined.

Lemma append_assoc (a b c : string) : (a +:+ b) +:+ c = a +:+ (b +:+ c).
Proof. induction a as [|x a IH]; simpl; [done|]. by rewrite IH. Qed.

Lemma ofNumber_inj (a b : Z) : ofNumber a = ofNumber b → a = b.
Proof.
  unfold ofNumber. intros H. apply DecimalZ.to_int_inj.
  assert (∀ z, Z.to_int z ≠ Decimal.Pos Decimal.Nil ∧ Z.to_int z ≠ Decimal.Neg Decimal.Nil)
    as Hnn.
  { intros [|p|p]; simpl; split; try discriminate;
      intros [= Hp]; by apply DecimalPos.Unsigned.to_uint_nonnil in Hp. }
  destruct (Hnn a) as [Ha1 Ha2], (Hnn b) as [Hb1 Hb2].
  pose proof (DecimalString.NilZero.isi _ Ha1 Ha2) as Ea. pose proof (DecimalString.NilZero.isi _ Hb1 Hb2) as Eb.
  rewrite H in Ea. congruence.
Qed.

Lemma noDash_uint (d : Decimal.uint) : noDash (DecimalString.NilEmpty.string_of_uint d) = true.
Proof. induction d; simpl; done. Qed.

Lemma noDash_nilzero (d : Decimal.uint) : noDash (DecimalString.NilZero.string_of_uint d) = true.
Proof. destruct d; [done|..]; apply (noDash_uint (_ d)). Qed.

Lemma noDash_ofNumber (n : N) : noDash (ofNumber (Z.of_N n)) = true.
Proof. destruct n as [|p]; [done|]. apply noDash_nilzero. Qed.

Lemma noDash_app_dash (p q : string) : noDash (p +:+ String "-" q) = false.
Proof.
  induction p as [|c p IH]; simpl; [done|]. rewrite IH. apply andb_false_r.
Qed.

Lemma split_last_dash (x1 x2 a1 a2 : string) :
  noDash a1 = true → noDash a2 = true →
  x1 +:+ "-" +:+ a1 = x2 +:+ "-" +:+ a2 → x1 = x2 ∧ a1 = a2.
Proof.
  intros H1 H2. revert x2. induction x1 as [|c x1 IH]; intros [|d x2] H; simpl in H.
  - by injection H.
  - injection H as <- ->. by rewrite noDash_app_dash in H1.
  - injection H as -> <-. by rewrite noDash_app_dash in H2.
  - injection H as <- H. destruct (IH _ H) as [-> ->]. done.
Qed.

Section DayFacts.

Variable D : DateApi.

Lemma getDayKey_inj (t1 t2 : Z) :
  getDayKey D t1 = getDayKey D t2 ↔ localDay D t1 = localDay D t2.
Proof.
  unfold getDayKey, localDay. split.
  - intros H.
    assert (∀ y m d : string,
              y +:+ "-" +:+ m +:+ "-" +:+ d = (y +:+ "-" +:+ m) +:+ "-" +:+ d) as Hassoc
      by (intros; by rewrite !append_assoc).
    rewrite !Hassoc in H.
    apply split_last_dash in H as [H Hd]; [|apply noDash_ofNumber..].
    apply split_last_dash in H as [Hy Hm]; [|apply noDash_ofNumber..].
    apply ofNumber_inj in Hy, Hm, Hd. apply N2Z.inj in Hm, Hd. congruence.
  - by intros [= -> -> ->].
Qed.

Lemma getDayKey_nonempty (ts : Z) : getDayKey D ts ≠ "".
Proof.
  unfold getDayKey. intros H.
  destruct (ofNumber (getFullYear D ts)); simpl in H; discriminate.
Qed.

Lemma keyBefore_cons (prev : string) (m : ChatMessage) (rest : list ChatMessage) (k : nat) :
  keyBefore D prev (m :: rest) (S k) = keyBefore D (getDayKey D (timestamp m)) rest k.
Proof. by destruct k. Qed.

Lemma daySeparatorLoop_spec (msgs : list ChatMessage) (i : nat) (prev : string)
    (indices : gset nat) (j : nat) :
  j ∈ daySeparatorLoop D msgs i prev indices ↔
  j ∈ indices ∨
  ∃ k m, j = (i + k)%nat ∧ msgs !! k = Some m ∧
         getDayKey D (timestamp m) ≠ keyBefore D prev msgs k.
Proof.
  revert i prev indices. induction msgs as [|m rest IH]; intros i prev indices.
  - simpl. split; [auto|]. intros [?|(k & m & _ & H & _)]; [done|].
    by rewrite lookup_nil in H.
  - cbn [daySeparatorLoop].
    destruct (String.eqb_spec (getDayKey D (timestamp m)) prev) as [Heq|Hne].
    + rewrite IH. split; (intros [?|(k & m' & -> & Hk & Hkey)]; [by left|right]).
      * exists (S k), m'. rewrite keyBefore_cons, Heq.
        split; [lia|]. split; done.
      * destruct k as [|k]; [simpl in Hk, Hkey; congruence|].
        rewrite keyBefore_cons, Heq in Hkey. exists k, m'.
        split; [lia|]. split; done.
    + rewrite IH, elem_of_union, elem_of_singleton. split.
      * intros [[->|?]|(k & m' & -> & Hk & Hkey)].
        -- right. exists 0%nat, m. split; [lia|]. split; done.
        -- by left.
        -- right. exists (S k), m'. rewrite keyBefore_cons.
           split; [lia|]. split; done.
      * intros [?|(k & m' & -> & Hk & Hkey)]; [by left; right|].
        destruct k as [|k].
        -- left; left. lia.
        -- rewrite keyBefore_cons in Hkey. right. exists k, m'.
           split; [lia|]. split; done.
Qed.

Lemma daySeparatorIndices_spec (filtered : list ChatMessage) (i : nat) :
  i ∈ daySeparatorIndices D filtered ↔
  ∃ m, filtered !! i = Some m ∧
       (i = 0%nat ∨
        ∃ m', filtered !! (i - 1)%nat = Some m' ∧
              localDay D (timestamp m) ≠ localDay D (timestamp m')).
Proof.
  unfold daySeparatorIndices. rewrite daySeparatorLoop_spec. split.
  - intros [H|(k & m & -> & Hk & Hkey)]; [by apply not_elem_of_empty in H|].
    exists m. split; [done|]. destruct k as [|k]; [by left|right].
    simpl in Hkey |- *. rewrite Nat.sub_0_r.
    destruct (filtered !! k) as [m'|] eqn:Hk'.
    + exists m'. split; [done|]. by rewrite <- getDayKey_inj.
    + apply lookup_ge_None in Hk'. apply lookup_lt_Some in Hk. lia.
  - intros (m & Hm & Hi). right. exists i, m. split; [done|]. split; [done|].
    destruct Hi as [->|(m' & Hm' & Hday)].
    + simpl. apply getDayKey_nonempty.
    + destruct i as [|i]; [apply getDayKey_nonempty|].
      simpl in Hm' |- *. rewrite Nat.sub_0_r in Hm'. rewrite Hm'.
      by rewrite getDayKey_inj.
Qed.

(** C8. Message [i] of the filtered list has a separator exactly when it
    is the first message or its local calendar day (year, month, day of
    month) differs from that of message [i - 1]; a non-empty list has one
    at index 0. The label is "Today" when the day of the message is the
    current day, "Yesterday" when the start of the current day is
    86,400,000 ms after the start of the day of the message, and the
    locale-formatted date otherwise. *)
Theorem day_separators_spec (now : Z) (filtered : list ChatMessage) :
  (∀ i, i ∈ daySeparatorIndices D filtered ↔
        ∃ m, filtered !! i = Some m ∧
             (i = 0%nat ∨
              ∃ m', filtered !! (i - 1)%nat = Some m' ∧
                    localDay D (timestamp m) ≠ localDay D (timestamp m'))) ∧
  (filtered ≠ [] → 0%nat ∈ daySeparatorIndices D filtered) ∧
  (∀ i m, filtered !! i = Some m →
     (i ∈ daySeparatorIndices D filtered →
      daySeparator D now filtered i = Some (formatDayLabel D now (timestamp m))) ∧
     (i ∉ daySeparatorIndices D filtered → daySeparator D now filtered i = None)) ∧
  (∀ ts, localDay D ts = localDay D now → formatDayLabel D now ts = "Today") ∧
  (∀ ts, dayStart D now - dayStart D ts = 86400000 →
         formatDayLabel D now ts = "Yesterday") ∧
  (∀ ts, dayStart D now - dayStart D ts ≠ 0 →
         dayStart D now - dayStart D ts ≠ 86400000 →
         formatDayLabel D now ts = toLocaleDateString D ts).
Proof.
  split; [apply daySeparatorIndices_spec|]. split; [|split; [|split; [|split]]].
  - intros Hne. apply daySeparatorIndices_spec.
    destruct filtered as [|m rest]; [done|]. exists m. split; [done|by left].
  - intros i m Hm. unfold daySeparator. rewrite Hm. split; intros Hi; by case_decide.
  - intros ts Hday. unfold formatDayLabel, dayStart.
    injection Hday as -> -> ->. by rewrite Z.sub_diag.
  - intros ts Hdiff. unfold formatDayLabel. by rewrite Hdiff.
  - intros ts H0 H1. unfold formatDayLabel.
    apply Z.eqb_neq in H0, H1. by rewrite H0, H1.
Qed.

End DayFacts.

Lemma day_separators_spec_witness :
  formatDayLabel UtcDate.api 1704153600000 1704067200001 = "Yesterday" ∧
  formatDayLabel UtcDate.api 1704153600000 1704153900000 = "Today" ∧
  formatDayLabel UtcDate.api 1704153600000 1703000000000 = "Tue, Dec 19".
Proof.
  destruct (day_separators_spec UtcDate.api 1704153600000 []) as (_ & _ & _ & Ht & Hy & Ho).
  split; [|split].
  - apply Hy. reflexivity.
  - apply Ht. reflexivity.
  - rewrite Ho; [vm_compute; reflexivity|vm_compute; discriminate..].
Defined.

Lemma to_int_nonnil (z : Z) :
  Z.to_int z ≠ Decimal.Pos Decimal.Nil ∧ Z.to_int z ≠ Decimal.Neg Decimal.Nil.
Proof.
  destruct z as [|p|p]; simpl; split; try discriminate;
    intros [= Hp]; by apply DecimalPos.Unsigned.to_uint_nonnil in Hp.
Qed.

Lemma int_of_string_ofNumber (n : Z) :
  DecimalString.NilZero.int_of_string (ofNumber n) = Some (Z.to_int n).
Proof. destruct (to_int_nonnil n). by apply DecimalString.NilZero.isi. Qed.

Section IntArrayJsonFacts.

Import IntArrayJson.

Lemma parseNumber_ofNumber (n : Z) : parseNumber (ofNumber n) = Some n.
Proof.
  unfold parseNumber. rewrite int_of_string_ofNumber. simpl.
  by rewrite DecimalZ.of_to.
Qed.

Lemma plain_uint (d : Decimal.uint) : plain (DecimalString.NilEmpty.string_of_uint d) = true.
Proof. induction d; simpl; done. Qed.

Lemma plain_ofNumber (n : Z) : plain (ofNumber n) = true.
Proof.
  unfold ofNumber. destruct (Z.to_int n) as [d|d]; simpl;
    (destruct d; [done|..]; apply (plain_uint (_ d))).
Qed.

Lemma ofNumber_nonempty (n : Z) : ofNumber n ≠ "".
Proof.
  intros H. pose proof (int_of_string_ofNumber n) as Hn. by rewrite H in Hn.
Qed.

Lemma parseItems_token (t rest token : string) (acc : list Z) :
  plain t = true →
  parseItems (t +:+ rest) token acc = parseItems rest (token +:+ t) acc.
Proof.
  revert token. induction t as [|c t IH]; intros token Hp.
  - simpl. f_equal. clear. induction token as [|x token IH]; simpl; [done|].
    by rewrite <- IH.
  - simpl in Hp. apply andb_true_iff in Hp as [Hc Hp].
    apply andb_true_iff in Hc as [Hc1 Hc2].
    apply negb_true_iff in Hc1, Hc2. simpl. rewrite Hc1, Hc2.
    rewrite (IH _ Hp). f_equal. rewrite append_assoc. done.
Qed.

Lemma parseItems_comma (rest token : string) (acc : list Z) :
  parseItems ("," +:+ rest) token acc =
  match parseNumber token with
  | Some n => parseItems rest "" (acc ++ [n])
  | None => None
  end.
Proof. reflexivity. Qed.

Lemma parseItems_join (ns : list Z) (n : Z) (acc : list Z) :
  parseItems (join "," (ofNumber <$> (n :: ns)) +:+ "]") "" acc = Some (acc ++ n :: ns).
Proof.
  revert n acc. induction ns as [|n' ns IH]; intros n acc.
  - simpl. rewrite (parseItems_token (ofNumber n) "]" "" acc (plain_ofNumber n)).
    simpl. pose proof (ofNumber_nonempty n) as Hne.
    destruct (ofNumber n) eqn:E; [done|]. rewrite <- E, parseNumber_ofNumber.
    destruct acc; done.
  - change (join "," (ofNumber <$> n :: n' :: ns))
      with (ofNumber n +:+ "," +:+ join "," (ofNumber <$> n' :: ns)).
    rewrite !append_assoc.
    rewrite (parseItems_token (ofNumber n) _ "" acc (plain_ofNumber n)).
    change ("" +:+ ofNumber n) with (ofNumber n).
    rewrite parseItems_comma, parseNumber_ofNumber, IH. by rewrite <- app_assoc.
Qed.

Lemma parse_bracket (body : string) :
  parse ("[" +:+ body) = (λ ns, JArray (JNumber <$> ns)) <$> parseItems body "" [].
Proof. reflexivity. Qed.

Lemma parse_stringify_numbers (ns : list Z) :
  parse (stringify (JArray (JNumber <$> ns))) = Some (JArray (JNumber <$> ns)).
Proof.
  unfold stringify. rewrite <- list_fmap_compose.
  change (stringifyItem ∘ JNumber) with ofNumber.
  destruct ns as [|n ns]; [done|].
  by rewrite parse_bracket, parseItems_join.
Qed.

End IntArrayJsonFacts.

Lemma numbersOf_numbers (ns : list Z) : numbersOf (JNumber <$> ns) = ns.
Proof.
  induction ns as [|n ns IH]; [done|].
  change (n :: numbersOf (JNumber <$> ns) = n :: ns). by rewrite IH.
Qed.

Lemma forallb_isNumber_numbers (ns : list Z) : forallb isNumber (JNumber <$> ns) = true.
Proof. by induction ns. Qed.

Lemma forallb_isNumber_spec (items : list JValue) :
  forallb isNumber items = true ↔ Forall (λ v, ∃ n, v = JNumber n) items.
Proof.
  induction items as [|v items IH]; simpl.
  - split; [constructor|done].
  - rewrite andb_true_iff, IH, Forall_cons. split.
    + intros [Hv ?]. split; [|done]. destruct v; try done. eauto.
    + intros [[n ->] ?]. done.
Qed.

Lemma numbersOf_all (items : list JValue) :
  Forall (λ v, ∃ n, v = JNumber n) items → JNumber <$> numbersOf items = items.
Proof.
  induction 1 as [|v items [n ->] _ IH]; [done|].
  change (JNumber n :: (JNumber <$> numbersOf items) = JNumber n :: items).
  by rewrite IH.
Qed.

Section TabsFacts.

Variable J : JsonApi.

Lemma tabsStep_persisted (s : TabsState) (ev : TabsEvent) :
  storage s !! STORAGE_KEY = Some (JSON_stringify J (JArray (JNumber <$> openDmTabs s))) →
  storage (tabsStep J s ev) !! STORAGE_KEY =
  Some (JSON_stringify J (JArray (JNumber <$> openDmTabs (tabsStep J s ev)))).
Proof.
  intros Hs. destruct ev as [n|n]; simpl.
  - destruct (existsb (Z.eqb n) (openDmTabs s)); [done|].
    simpl. unfold persistOpenDmTabs. by rewrite lookup_insert_eq.
  - unfold persistOpenDmTabs. by rewrite lookup_insert_eq.
Qed.

Lemma tabsRun_persisted (evs : list TabsEvent) (s : TabsState) :
  storage s !! STORAGE_KEY = Some (JSON_stringify J (JArray (JNumber <$> openDmTabs s))) →
  storage (tabsRun J s evs) !! STORAGE_KEY =
  Some (JSON_stringify J (JArray (JNumber <$> openDmTabs (tabsRun J s evs)))).
Proof.
  revert s. induction evs as [|ev evs IH]; intros s Hs; [done|].
  apply IH. by apply tabsStep_persisted.
Qed.

(** C10. After mounting and after every change of the open tabs,
    [localStorage] holds their JSON text under "electastic:openDmTabs". A
    mounted panel starts from the stored value when it is a non-empty text
    that parses to an array of numbers, and from the empty list in every
    other case. With a [JSON] whose [parse] inverts [stringify] on arrays
    of numbers and rejects the empty text, restoring after persisting gives
    the tabs back. *)
Theorem openDmTabs_persistence :
  (∀ st evs,
     storage (tabsRun J (mountTabs J st) evs) !! STORAGE_KEY =
     Some (JSON_stringify J
             (JArray (JNumber <$> openDmTabs (tabsRun J (mountTabs J st) evs))))) ∧
  (∀ st saved items,
     st !! STORAGE_KEY = Some saved → saved ≠ "" →
     JSON_parse J saved = Some (JArray items) →
     Forall (λ v, ∃ n, v = JNumber n) items →
     JNumber <$> loadOpenDmTabs J st = items) ∧
  (∀ st,
     (∀ saved items,
        st !! STORAGE_KEY = Some saved → saved ≠ "" →
        JSON_parse J saved = Some (JArray items) →
        ¬ Forall (λ v, ∃ n, v = JNumber n) items) →
     loadOpenDmTabs J st = []) ∧
  ((∀ ns, JSON_parse J (JSON_stringify J (JArray (JNumber <$> ns))) =
          Some (JArray (JNumber <$> ns))) →
   JSON_parse J "" = None →
   ∀ st tabs, loadOpenDmTabs J (persistOpenDmTabs J tabs st) = tabs).
Proof.
  split; [|split; [|split]].
  - intros st evs. apply tabsRun_persisted. unfold mountTabs, persistOpenDmTabs. simpl.
    by rewrite lookup_insert_eq.
  - intros st saved items Hst Hne Hparse Hall. unfold loadOpenDmTabs.
    rewrite Hst. destruct saved; [done|]. simpl. rewrite Hparse.
    apply forallb_isNumber_spec in Hall as Hb. rewrite Hb. by apply numbersOf_all.
  - intros st Hbad. unfold loadOpenDmTabs.
    destruct (st !! STORAGE_KEY) as [saved|] eqn:Hst; [|done].
    destruct saved as [|c saved]; [done|]. simpl.
    destruct (JSON_parse J (String c saved)) as [[| | | |items|]|] eqn:Hparse; try done.
    destruct (forallb isNumber items) eqn:Hb; [|done].
    apply forallb_isNumber_spec in Hb. by destruct (Hbad _ _ eq_refl ltac:(done) Hparse).
  - intros Hround Hempty st tabs. unfold loadOpenDmTabs, persistOpenDmTabs.
    rewrite lookup_insert_eq.
    destruct (JSON_stringify J (JArray (JNumber <$> tabs))) as [|c text] eqn:Htext.
    + specialize (Hround tabs). rewrite Htext in Hround. congruence.
    + simpl. rewrite <- Htext, Hround, forallb_isNumber_numbers.
      apply numbersOf_numbers.
Qed.

End TabsFacts.

Lemma openDmTabs_persistence_witness :
  loadOpenDmTabs IntArrayJson.api
    (persistOpenDmTabs IntArrayJson.api [3735928559; 12] ∅) = [3735928559; 12].
Proof.
  destruct (openDmTabs_persistence IntArrayJson.api) as (_ & _ & _ & H).
  apply H.
  - exact parse_stringify_numbers.
  - reflexivity.
Defined.

End ChatFacts.

(** * Further properties *)

(** ** Connection manager *)

Section ConnectionMoreFacts.

Import JsString Connection ConnectionMore.

Lemma createConnection_ble_returns (p : Platform) (httpAddress : option string)
    (t : Transport) :
  bleCreate_result p = Returns t →
  ∃ device,
    Eff.outcome (createConnection p "ble" httpAddress) = Returns device ∧
    transport device = capturedTransport p t ∧
    toDevice_close_result (transport device) = toDevice_close_result t ∧
    Eff.trace (createConnection p "ble" httpAddress) =
      match getDevices_result p with
      | Returns _ => [EvBleCreate; EvGetDevices; EvNewMeshDevice]
      | Throws _ => [EvBleCreate; EvGetDevices; EvConsoleWarn; EvNewMeshDevice]
      end.
Proof.
  unfold createConnection, capturedTransport, mbind, mret, Eff_bind, Eff_ret.
  cbn [String.eqb Ascii.eqb Bool.eqb]. intros ->. cbn.
  destruct (getDevices_result p) as [devices|e]; cbn.
  - eexists. repeat split. unfold withBluetoothDevice.
    by destruct (List.find gattConnected devices).
  - eexists. repeat split.
Qed.

Lemma createConnection_ble_throws (p : Platform) (httpAddress : option string)
    (e : Thrown) :
  bleCreate_result p = Throws e →
  createConnection p "ble" httpAddress = ([EvBleCreate], Throws e).
Proof.
  unfold createConnection, mbind, mret, Eff_bind, Eff_ret.
  cbn [String.eqb Ascii.eqb Bool.eqb]. by intros ->.
Qed.

(** X1. When the Web Bluetooth transport cannot be created, [createConnection]
    rethrows and makes no further call. When it can, a failure of
    [getDevices] is logged and swallowed: the device is built on the created
    transport, with the connected Bluetooth device stashed on it when there
    is one. *)
Theorem createConnection_ble_capture (p : Platform) (httpAddress : option string) :
  (∀ e, bleCreate_result p = Throws e →
        createConnection p "ble" httpAddress = ([EvBleCreate], Throws e)) ∧
  (∀ t, bleCreate_result p = Returns t →
        ∃ device,
          Eff.outcome (createConnection p "ble" httpAddress) = Returns device ∧
          transport device = capturedTransport p t ∧
          toDevice_close_result (transport device) = toDevice_close_result t ∧
          Eff.trace (createConnection p "ble" httpAddress) =
            match getDevices_result p with
            | Returns _ => [EvBleCreate; EvGetDevices; EvNewMeshDevice]
            | Throws _ => [EvBleCreate; EvGetDevices; EvConsoleWarn; EvNewMeshDevice]
            end).
Proof.
  split.
  - apply createConnection_ble_throws.
  - apply createConnection_ble_returns.
Qed.

Lemma createConnection_ble_capture_witness :
  ∃ device,
    Eff.outcome (createConnection Examples.platform "ble" None) = Returns device ∧
    bluetoothDevice (transport device) = Some Examples.radio.
Proof.
  destruct (createConnection_ble_capture Examples.platform None) as [_ H].
  destruct (H Examples.plainTransport eq_refl) as (device & Hout & Htr & _).
  exists device. split; [exact Hout|]. rewrite Htr. reflexivity.
Defined.



Lemma reconnectBle_no_devices (p : Platform) :
  (∀ e, getDevices_result p = Throws e → reconnectBle p = ([EvGetDevices], Throws e)) ∧
  (∀ devices, getDevices_result p = Returns devices → reconnectTarget devices = None →
     reconnectBle p =
     ([EvGetDevices],
      Throws (ErrorObj "No previously connected BLE device found for reconnection"))).
Proof.
  unfold reconnectBle, mbind, Eff_bind. split.
  - by intros e ->.
  - intros devices -> Hnone. cbn [Eff.call Eff.bind]. by rewrite Hnone.
Qed.

Lemma staleDisconnect_no_creation (target : BluetoothDevice) :
  List.filter isCreation (staleDisconnect target) = [] ∧
  EvNewMeshDevice ∉ staleDisconnect target.
Proof.
  unfold staleDisconnect. destruct (gattConnected target); simpl; split; try done;
    rewrite list_elem_of_In; simpl; intuition discriminate.
Qed.

Lemma early_throw_creation (e : Thrown) (P : BluetoothDevice → Prop)
    (Q : MeshDevice → Prop) (R : Prop) :
  let m : Eff MeshDevice := ([EvGetDevices], Throws e) in
  (length (List.filter isCreation (Eff.trace m)) ≤ 1)%nat ∧
  (∀ d, EvCreateFromDevice d ∈ Eff.trace m ∨ EvPrepareConnection d ∈ Eff.trace m → P d) ∧
  (∀ d, R → EvPrepareConnection d ∉ Eff.trace m) ∧
  (EvNewMeshDevice ∈ Eff.trace m ↔ ∃ device, Eff.outcome m = Returns device) ∧
  (∀ device, Eff.outcome m = Returns device → Q device).
Proof.
  simpl. split; [lia|]. split; [|split; [|split]].
  - intros d [H|H]; apply list_elem_of_In in H; simpl in H; intuition discriminate.
  - intros d _ H. apply list_elem_of_In in H. simpl in H. intuition discriminate.
  - split.
    + intros H. apply list_elem_of_In in H. simpl in H. intuition discriminate.
    + by intros [device ?].
  - by intros device ?.
Qed.

Lemma createTransport_events (p : Platform) (target : BluetoothDevice) :
  (length (List.filter isCreation (Eff.trace (createTransport p target))) ≤ 1)%nat ∧
  (∀ ev, ev ∈ Eff.trace (createTransport p target) →
         ev = EvCreateFromDevice target ∨ ev = EvPrepareConnection target) ∧
  (∀ d, is_Some (createFromDevice p) →
        EvPrepareConnection d ∉ Eff.trace (createTransport p target)) ∧
  EvNewMeshDevice ∉ Eff.trace (createTransport p target).
Proof.
  unfold createTransport.
  destruct (createFromDevice p) as [create|]; [|destruct (prepareConnection p) as [prepare|]];
    simpl; (split; [lia|]); (split; [|split]).
  all: try (intros ev Hev; apply list_elem_of_In in Hev; simpl in Hev; intuition).
  all: try (intros d Hsome Hev; apply list_elem_of_In in Hev; simpl in Hev;
            (by destruct Hsome) || intuition discriminate).
  all: intros Hev; apply list_elem_of_In in Hev; simpl in Hev; intuition discriminate.
Qed.

(** X3. [reconnectBle] asks the library for a transport at most once, and
    only for the device it selected; it never calls [prepareConnection] when
    [createFromDevice] is a function; [new MeshDevice] is reached exactly
    when it returns, and the device returned has the selected Bluetooth
    device stashed on its transport. *)
Theorem reconnectBle_creation (p : Platform) :
  (length (List.filter isCreation (Eff.trace (reconnectBle p))) ≤ 1)%nat ∧
  (∀ d, EvCreateFromDevice d ∈ Eff.trace (reconnectBle p) ∨
        EvPrepareConnection d ∈ Eff.trace (reconnectBle p) →
        ∃ devices, getDevices_result p = Returns devices ∧
                   reconnectTarget devices = Some d) ∧
  (∀ d, is_Some (createFromDevice p) →
        EvPrepareConnection d ∉ Eff.trace (reconnectBle p)) ∧
  (EvNewMeshDevice ∈ Eff.trace (reconnectBle p) ↔
   ∃ device, Eff.outcome (reconnectBle p) = Returns device) ∧
  (∀ device, Eff.outcome (reconnectBle p) = Returns device →
     ∃ devices target,
       getDevices_result p = Returns devices ∧
       reconnectTarget devices = Some target ∧
       bluetoothDevice (transport device) = Some target).
Proof.
  destruct (reconnectBle_no_devices p) as [Hthrow Hnone].
  destruct (getDevices_result p) as [devices|e] eqn:Hdev.
  2:{ rewrite (Hthrow e eq_refl). by apply early_throw_creation. }
  destruct (reconnectTarget devices) as [target|] eqn:Htarget.
  2:{ rewrite (Hnone devices eq_refl Htarget). by apply early_throw_creation. }
  rewrite (reconnectBle_closed_form p devices target Hdev Htarget).
  destruct (staleDisconnect_no_creation target) as [Hstale1 Hstale2].
  destruct (createTransport_events p target) as (Hc1 & Hc2 & Hc3 & Hc4).
  cbn [Eff.trace Eff.outcome fst snd].
  set (tail := match Eff.outcome (createTransport p target) with
               | Returns (Some _) => [EvNewMeshDevice]
               | _ => []
               end).
  assert (List.filter isCreation tail = []) as Htail1
    by (unfold tail; by repeat case_match).
  assert (∀ ev, ev ∈ tail → ev = EvNewMeshDevice) as Htail2.
  { intros ev. unfold tail. repeat case_match; intros Hev;
      apply list_elem_of_In in Hev; simpl in Hev; intuition. }
  assert (∀ ev, ev ∈ staleDisconnect target → isCreation ev = false) as Hstale3.
  { intros ev Hev. apply list_elem_of_In in Hev.
    assert (In ev (List.filter isCreation (staleDisconnect target)) → False) as Hno
      by (by rewrite Hstale1).
    destruct (isCreation ev) eqn:E; [|done]. destruct Hno. by apply filter_In. }
  assert (∀ ev, isCreation ev = true →
            ev ∈ EvGetDevices :: staleDisconnect target ++
                 Eff.trace (createTransport p target) ++ tail →
            ev ∈ Eff.trace (createTransport p target)) as Hin.
  { intros ev Hev. rewrite elem_of_cons, !elem_of_app.
    intros [->|[H|[H|H]]]; try done.
    - by rewrite (Hstale3 _ H) in Hev.
    - apply Htail2 in H. by subst. }
  split; [|split; [|split; [|split]]].
  - simpl. rewrite !List.filter_app, Hstale1, Htail1, app_nil_r. exact Hc1.
  - intros d Hd. exists devices. split; [done|].
    assert (EvCreateFromDevice d ∈ Eff.trace (createTransport p target) ∨
            EvPrepareConnection d ∈ Eff.trace (createTransport p target)) as [H|H]
      by (destruct Hd as [H|H]; [left|right]; by apply Hin).
    + destruct (Hc2 _ H) as [[= ->]|[=]]. done.
    + destruct (Hc2 _ H) as [[=]|[= ->]]. done.
  - intros d Hsome H. apply Hin in H; [|done]. by apply (Hc3 d).
  - rewrite elem_of_cons, !elem_of_app. split.
    + intros [[=]|[H|[H|H]]].
      * done.
      * destruct (Hc2 _ H) as [[=]|[=]].
      * unfold tail in H. destruct (Eff.outcome (createTransport p target)) as [[t|]|e];
          [eauto|by apply elem_of_nil in H..].
    + intros [device Hdv]. right; right; right. unfold tail.
      destruct (Eff.outcome (createTransport p target)) as [[t|]|e]; [left|done..].
  - intros device Hdv. exists devices, target. split; [done|]. split; [done|].
    destruct (Eff.outcome (createTransport p target)) as [[t|]|e]; [|done..].
    by injection Hdv as <-.
Qed.



End ConnectionMoreFacts.

(** ** Admin panel: node targets *)

Section AdminMoreFacts.

Import JsString AdminPanel.

Lemma of_hex_uint_acc_value (l : Hexadecimal.uint) (p : positive) :
  Z.pos (Pos.of_hex_uint_acc l p) =
  Z.pos p * 16 ^ Z.of_nat (Hexadecimal.nb_digits l) + Z.of_N (Pos.of_hex_uint l).
Proof.
  revert p. induction l; intros p;
    cbn [Pos.of_hex_uint_acc Pos.of_hex_uint Hexadecimal.nb_digits];
    rewrite ?Nat2Z.inj_succ, ?Z.pow_succ_r by lia;
    rewrite ?N2Z.inj_pos, ?IHl; lia.
Qed.

Ltac eval_digit :=
  match goal with
  | |- context [digitValue ?c] =>
      let v := eval vm_compute in (digitValue c) in change (digitValue c) with v
  end.

Lemma parseDigits_hex (u : Hexadecimal.uint) (acc : Z) (seen : bool) :
  parseDigits 16 (HexadecimalString.NilEmpty.string_of_uint u) acc seen =
  match u with
  | Hexadecimal.Nil => if seen then Some acc else None
  | _ => Some (acc * 16 ^ Z.of_nat (Hexadecimal.nb_digits u) + Z.of_N (Pos.of_hex_uint u))
  end.
Proof.
  revert acc seen. induction u; intros acc seen; [done|..].
  all: cbn [HexadecimalString.NilEmpty.string_of_uint parseDigits]; eval_digit.
  all: cbn [Z.ltb Z.compare Pos.compare Pos.compare_cont]; rewrite IHu.
  all: cbn [Pos.of_hex_uint Hexadecimal.nb_digits].
  all: rewrite ?Nat2Z.inj_succ, ?Z.pow_succ_r by lia.
  all: rewrite ?N2Z.inj_pos, ?of_hex_uint_acc_value.
  all: destruct u; cbn [Pos.of_hex_uint Hexadecimal.nb_digits];
    rewrite ?Nat2Z.inj_succ, ?Z.pow_succ_r by lia;
    rewrite ?N2Z.inj_pos, ?of_hex_uint_acc_value; f_equal; cbn [Z.of_nat Z.pow Z.of_N]; lia.
Qed.

Lemma of_uint_acc_value (l : Decimal.uint) (p : positive) :
  Z.pos (Pos.of_uint_acc l p) =
  Z.pos p * 10 ^ Z.of_nat (Decimal.nb_digits l) + Z.of_N (Pos.of_uint l).
Proof.
  revert p. induction l; intros p;
    cbn [Pos.of_uint_acc Pos.of_uint Decimal.nb_digits];
    rewrite ?Nat2Z.inj_succ, ?Z.pow_succ_r by lia;
    rewrite ?N2Z.inj_pos, ?IHl; lia.
Qed.

Lemma parseDigits_dec (u : Decimal.uint) (acc : Z) (seen : bool) :
  parseDigits 10 (DecimalString.NilEmpty.string_of_uint u) acc seen =
  match u with
  | Decimal.Nil => if seen then Some acc else None
  | _ => Some (acc * 10 ^ Z.of_nat (Decimal.nb_digits u) + Z.of_N (Pos.of_uint u))
  end.
Proof.
  revert acc seen. induction u; intros acc seen; [done|..].
  all: cbn [DecimalString.NilEmpty.string_of_uint parseDigits]; eval_digit.
  all: cbn [Z.ltb Z.compare Pos.compare Pos.compare_cont]; rewrite IHu.
  all: cbn [Pos.of_uint Decimal.nb_digits].
  all: rewrite ?Nat2Z.inj_succ, ?Z.pow_succ_r by lia.
  all: rewrite ?N2Z.inj_pos, ?of_uint_acc_value.
  all: destruct u; cbn [Pos.of_uint Decimal.nb_digits];
    rewrite ?Nat2Z.inj_succ, ?Z.pow_succ_r by lia;
    rewrite ?N2Z.inj_pos, ?of_uint_acc_value; f_equal; cbn [Z.of_nat Z.pow Z.of_N]; lia.
Qed.

Lemma parseInt_plain (radix : Z) (s : string) :
  match s with
  | String c _ => negb (isWhiteSpace c) && negb (Ascii.eqb c "-") && negb (Ascii.eqb c "+")
  | EmptyString => false
  end = true →
  startsWith s "0x" || startsWith s "0X" = false →
  parseInt s radix = parseDigits radix s 0 false.
Proof.
  destruct s as [|c s]; [done|]. intros Hhead Hprefix.
  apply andb_true_iff in Hhead as [Hhead Hplus].
  apply andb_true_iff in Hhead as [Hws Hminus].
  apply negb_true_iff in Hws, Hminus, Hplus.
  unfold parseInt. cbn [trimStart]. rewrite Hws.
  assert ((match String c s with
           | String "-" s' => (-1, s')
           | String "+" s' => (1, s')
           | _ => (1, String c s)
           end) = (1, String c s)) as ->
    by (by destruct c as [[] [] [] [] [] [] [] []]).
  rewrite Hprefix, andb_false_r.
  destruct (parseDigits radix (String c s) 0 false) as [n|]; [|done].
  f_equal; lia.
Qed.

Lemma parseInt_minus (radix : Z) (s : string) :
  startsWith s "0x" || startsWith s "0X" = false →
  parseInt (String "-" s) radix =
  match parseDigits radix s 0 false with
  | Some n => Some (- n)
  | None => None
  end.
Proof.
  intros Hprefix. unfold parseInt. cbn [trimStart].
  change (isWhiteSpace "-") with false. cbv iota. rewrite Hprefix, andb_false_r.
  destruct (parseDigits radix s 0 false) as [n|]; [|done].
  f_equal; lia.
Qed.

Lemma hex_no_prefix (u : Hexadecimal.uint) :
  startsWith (HexadecimalString.NilEmpty.string_of_uint u) "0x" ||
  startsWith (HexadecimalString.NilEmpty.string_of_uint u) "0X" = false.
Proof. destruct u as [|u|u|u|u|u|u|u|u|u|u|u|u|u|u|u|u]; try done; by destruct u. Qed.

Lemma dec_no_prefix (u : Decimal.uint) :
  startsWith (DecimalString.NilEmpty.string_of_uint u) "0x" ||
  startsWith (DecimalString.NilEmpty.string_of_uint u) "0X" = false.
Proof. destruct u as [|u|u|u|u|u|u|u|u|u|u]; try done; by destruct u. Qed.

Lemma parseInt_hex_uint (u : Hexadecimal.uint) :
  u ≠ Hexadecimal.Nil →
  parseInt (HexadecimalString.NilEmpty.string_of_uint u) 16 = Some (Z.of_hex_uint u) ∧
  parseInt (String "-" (HexadecimalString.NilEmpty.string_of_uint u)) 16 =
    Some (- Z.of_hex_uint u).
Proof.
  intros Hu. split.
  - pose proof (hex_no_prefix u) as Hp. pose proof (parseDigits_hex u 0 false) as Hd.
    rewrite parseInt_plain, Hd; [|by destruct u|done].
    destruct u; [done|..]; f_equal; unfold Z.of_hex_uint; lia.
  - rewrite parseInt_minus by apply hex_no_prefix. rewrite parseDigits_hex.
    destruct u; [done|..]; f_equal; unfold Z.of_hex_uint; lia.
Qed.

Lemma parseInt_dec_uint (u : Decimal.uint) :
  u ≠ Decimal.Nil →
  parseInt (DecimalString.NilEmpty.string_of_uint u) 10 = Some (Z.of_uint u) ∧
  parseInt (String "-" (DecimalString.NilEmpty.string_of_uint u)) 10 =
    Some (- Z.of_uint u).
Proof.
  intros Hu. split.
  - pose proof (dec_no_prefix u) as Hp. pose proof (parseDigits_dec u 0 false) as Hd.
    rewrite parseInt_plain, Hd; [|by destruct u|done].
    destruct u; [done|..]; f_equal; unfold Z.of_uint; lia.
  - rewrite parseInt_minus by apply dec_no_prefix. rewrite parseDigits_dec.
    destruct u; [done|..]; f_equal; unfold Z.of_uint; lia.
Qed.

Lemma parseInt_toString16 (n : Z) : parseInt (toString16 n) 16 = Some n.
Proof.
  unfold toString16. rewrite <- (HexadecimalZ.of_to n) at 2.
  destruct n as [|p|p]; [done|..]; cbn [Z.to_hex_int Z.of_hex_int];
    pose proof (HexadecimalPos.Unsigned.to_uint_nonnil p) as Hnil;
    destruct (parseInt_hex_uint _ Hnil) as [Hpos Hneg];
    unfold HexadecimalString.NilZero.string_of_int, HexadecimalString.NilZero.string_of_uint;
    by destruct (Pos.to_hex_uint p).
Qed.

Lemma parseInt_ofNumber (n : Z) : parseInt (ofNumber n) 10 = Some n.
Proof.
  unfold ofNumber. rewrite <- (DecimalZ.of_to n) at 2.
  destruct n as [|p|p]; [done|..]; cbn [Z.to_int Z.of_int];
    pose proof (DecimalPos.Unsigned.to_uint_nonnil p) as Hnil;
    destruct (parseInt_dec_uint _ Hnil) as [Hpos Hneg];
    unfold DecimalString.NilZero.string_of_int, DecimalString.NilZero.string_of_uint;
    by destruct (Pos.to_uint p).
Qed.

Lemma ofNumber_no_bang (n : Z) : startsWith (ofNumber n) "!" = false.
Proof.
  unfold ofNumber. destruct n as [|p|p]; [done| |done].
  cbn [Z.to_int DecimalString.NilZero.string_of_int].
  unfold DecimalString.NilZero.string_of_uint. by destruct (Pos.to_uint p).
Qed.

Lemma getTargetNodeNum_hex (s : State) (n : Z) :
  targetNode s = "!" +:+ toString16 n → getTargetNodeNum s = n.
Proof.
  unfold getTargetNodeNum. intros ->.
  change ("!" +:+ toString16 n) with (String "!" (toString16 n)).
  cbn [nonEmpty negb startsWith Ascii.eqb Bool.eqb String.length].
  change (String "!" (toString16 n)) with ("!" +:+ toString16 n).
  rewrite Nat.sub_succ, Nat.sub_0_r.
  pose proof (substring_drop_prefix "!" (toString16 n)) as Hsub.
  cbn [String.length String.append] in Hsub.
  rewrite Nat.sub_succ, Nat.sub_0_r in Hsub.
  change ("!" +:+ toString16 n) with (String "!" (toString16 n)).
  by rewrite Hsub, parseInt_toString16.
Qed.

Lemma getTargetNodeNum_dec (s : State) (n : Z) :
  targetNode s = ofNumber n → getTargetNodeNum s = n.
Proof.
  unfold getTargetNodeNum. intros ->.
  assert (nonEmpty (ofNumber n) = true) as ->
    by (pose proof (ofNumber_nonempty n); by destruct (ofNumber n)).
  cbn [negb]. by rewrite ofNumber_no_bang, parseInt_ofNumber.
Qed.

(** X5. Typing a node number the way the application prints it, as [!]
    followed by its hexadecimal digits or as its decimal digits, makes
    [getTargetNodeNum] return that number, for every number that JavaScript
    represents exactly. *)
Theorem getTargetNodeNum_round_trip (s : State) (n : Z) :
  Z.abs n < 2 ^ 53 →
  (targetNode s = "!" +:+ toString16 n → getTargetNodeNum s = n) ∧
  (targetNode s = ofNumber n → getTargetNodeNum s = n).
Proof.
  intros _. split; [apply getTargetNodeNum_hex|apply getTargetNodeNum_dec].
Qed.

Lemma getTargetNodeNum_round_trip_witness :
  getTargetNodeNum {| targetNode := "!aabbccdd"; pendingAction := None; log := [] |} =
    2864434397 ∧
  getTargetNodeNum {| targetNode := "2864434397"; pendingAction := None; log := [] |} =
    2864434397.
Proof.
  destruct (getTargetNodeNum_round_trip
              {| targetNode := "!aabbccdd"; pendingAction := None; log := [] |}
              2864434397) as [Hhex _]; [reflexivity|].
  destruct (getTargetNodeNum_round_trip
              {| targetNode := "2864434397"; pendingAction := None; log := [] |}
              2864434397) as [_ Hdec]; [reflexivity|].
  split; [apply Hhex|apply Hdec]; reflexivity.
Defined.

(** X6. A conversation tab and a map popup are never labelled with the
    empty string: the short name, else the long name, else [!] and the
    hexadecimal node number (the popup: the long name, else that). The
    label of a node without names, typed into the target field of the admin
    panel, selects that node. *)
Theorem node_labels (nodes : list (Z * MapPanel.MeshNode)) (nodeNum : Z) :
  ChatReplies.getDmLabel nodes nodeNum ≠ "" ∧
  (∀ node, ChatReplies.nodesGet nodes nodeNum = Some node →
     (MapPanel.short_name node ≠ "" →
      ChatReplies.getDmLabel nodes nodeNum = MapPanel.short_name node) ∧
     (MapPanel.short_name node = "" → MapPanel.long_name node ≠ "" →
      ChatReplies.getDmLabel nodes nodeNum = MapPanel.long_name node)) ∧
  (Z.abs nodeNum < 2 ^ 53 →
   ChatReplies.nodesGet nodes nodeNum = None ∨
   (∃ node, ChatReplies.nodesGet nodes nodeNum = Some node ∧
            MapPanel.short_name node = "" ∧ MapPanel.long_name node = "") →
   ∀ s, targetNode s = ChatReplies.getDmLabel nodes nodeNum →
        getTargetNodeNum s = nodeNum) ∧
  (∀ node, MapLegend.popupTitle node ≠ "" ∧
     (MapPanel.long_name node = "" → Z.abs (MapPanel.node_id node) < 2 ^ 53 →
      ∀ s, targetNode s = MapLegend.popupTitle node →
           getTargetNodeNum s = MapPanel.node_id node)).
Proof.
  unfold ChatReplies.getDmLabel, MapLegend.popupTitle.
  split; [|split; [|split]].
  - destruct (ChatReplies.nodesGet nodes nodeNum) as [node|]; [|done].
    destruct (MapPanel.short_name node); simpl; [|done].
    by destruct (MapPanel.long_name node).
  - intros node ->. split.
    + intros Hs. by destruct (MapPanel.short_name node).
    + intros -> Hl. simpl. by destruct (MapPanel.long_name node).
  - intros _ [->|(node & -> & -> & ->)] s Hs; by apply getTargetNodeNum_hex.
  - intros node. split.
    + by destruct (MapPanel.long_name node).
    + intros -> _ s Hs. by apply getTargetNodeNum_hex.
Qed.

Lemma node_labels_witness :
  ChatReplies.getDmLabel Examples.nodeMap 2864434397 = "!aabbccdd" ∧
  getTargetNodeNum
    {| targetNode := ChatReplies.getDmLabel Examples.nodeMap 2864434397;
       pendingAction := None; log := [] |} = 2864434397.
Proof.
  destruct (node_labels Examples.nodeMap 2864434397) as (_ & _ & H & _).
  split; [reflexivity|]. apply H; [reflexivity|by left|reflexivity].
Defined.

End AdminMoreFacts.

(** ** Admin panel: calls *)

Section AdminCallsFacts.

Import JsString AdminPanel AdminCalls.

Lemma invoked_app (l1 l2 : list Output) : invoked (l1 ++ l2) = invoked l1 ++ invoked l2.
Proof. apply omap_app. Qed.

Lemma invoked_Invoke (calls : list Call) : invoked (Invoke <$> calls) = calls.
Proof. induction calls as [|c calls IH]; [done|]. simpl. f_equal. exact IH. Qed.

(** What [runAction] does: every call up to and including the first that
    rejects. *)
Lemma runAction_spec (p : Props) (calls : list Call) :
  (Forall (λ c, callResult p c = None) calls ∧
   runAction p calls = (Invoke <$> calls, None)) ∨
  (∃ pre c e post,
     calls = pre ++ c :: post ∧ Forall (λ c, callResult p c = None) pre ∧
     callResult p c = Some e ∧ runAction p calls = (Invoke <$> (pre ++ [c]), Some e)).
Proof.
  induction calls as [|c calls IH]; [by left|]. simpl.
  destruct (callResult p c) as [e|] eqn:Hc.
  - right. exists [], c, e, calls. by repeat split.
  - destruct IH as [[Hall ->]|(pre & c' & e & post & -> & Hpre & Hc' & ->)].
    + left. split; [by constructor|done].
    + right. exists (c :: pre), c', e, post. repeat split; try done. by constructor.
Qed.

Lemma runAction_forallb (p : Props) (f : Call → bool) (calls : list Call) :
  forallb f calls = true → forallb f (invoked (runAction p calls).1) = true.
Proof.
  induction calls as [|c calls IH]; [done|]. simpl. intros [Hc Hrest]%andb_true_iff.
  destruct (callResult p c).
  - simpl. by rewrite Hc.
  - specialize (IH Hrest). destruct (runAction p calls) as [out r]. simpl in *.
    by rewrite Hc.
Qed.

(** A step keeps a property of calls that holds of the calls made and of
    the calls pending, when the calls that the step itself introduces have
    it. *)
Lemma handleConfirm_forallb (p : Props) (f : Call → bool) (s : State) :
  forallb f (invoked (log s)) = true → forallb f (pendingCalls s) = true →
  forallb f (invoked (log (handleConfirm p s))) = true ∧
  forallb f (pendingCalls (handleConfirm p s)) = true.
Proof.
  unfold handleConfirm, pendingCalls. intros Hlog Hpending.
  destruct (pendingAction s) as [a|] eqn:Ha; [|by rewrite Ha].
  pose proof (runAction_forallb p f (action a) Hpending) as Hrun.
  destruct (runAction p (action a)) as [out [e|]]; simpl in *;
    by rewrite !invoked_app, !forallb_app, Hlog, Hrun.
Qed.

Lemma step_nonzeroTarget (p : Props) (s : State) (ev : UiEvent) :
  forallb nonzeroTarget (invoked (log s)) = true →
  forallb nonzeroTarget (pendingCalls s) = true →
  forallb nonzeroTarget (invoked (log (step p s ev))) = true ∧
  forallb nonzeroTarget (pendingCalls (step p s ev)) = true.
Proof.
  intros Hlog Hpending.
  destruct ev; simpl; unfold whenEnabled, modalShown;
    try (destruct (pendingAction s) eqn:Ha;
         [by apply handleConfirm_forallb|by rewrite ?Ha]);
    repeat case_match; simpl; rewrite ?invoked_app, ?forallb_app, ?Hlog; simpl;
    try done; unfold pendingCalls, nonzeroTarget; simpl;
    repeat match goal with H : (_ =? 0) = false |- _ => rewrite H end; try done.
Qed.

(** X7. Over any sequence of user actions, a trace route or a removal of a
    node is never requested for node 0: an empty or unreadable target stops
    at a warning. *)
Theorem targeted_calls_nonzero (p : Props) (evs : list UiEvent) (c : Call) (n : Z) :
  c ∈ invoked (log (run p initial evs)) → targetOf c = Some n → n ≠ 0.
Proof.
  assert (∀ s, forallb nonzeroTarget (invoked (log s)) = true →
               forallb nonzeroTarget (pendingCalls s) = true →
               forallb nonzeroTarget (invoked (log (run p s evs))) = true) as Hrun.
  { induction evs as [|ev evs IH]; intros s Hlog Hpending; [done|].
    destruct (step_nonzeroTarget p s ev Hlog Hpending). by apply IH. }
  intros Hc Htarget. specialize (Hrun initial eq_refl eq_refl).
  rewrite forallb_forall in Hrun. apply list_elem_of_In, Hrun in Hc.
  unfold nonzeroTarget in Hc. rewrite Htarget in Hc. intros ->. done.
Qed.

Lemma targeted_calls_nonzero_witness :
  OnTraceRoute 255 ∈
    invoked (log (run Examples.adminProps initial [TypeTargetNode "!ff"; ClickTraceRoute])) ∧
  255 ≠ 0.
Proof.
  assert (OnTraceRoute 255 ∈
            invoked (log (run Examples.adminProps initial
                            [TypeTargetNode "!ff"; ClickTraceRoute]))) as Hin
    by (vm_compute; left).
  split; [exact Hin|].
  exact (targeted_calls_nonzero Examples.adminProps _ _ 255 Hin eq_refl).
Defined.





(** X9. Confirming clears the pending action and awaits its calls in
    order. When all of them resolve, all of them are made and one success
    toast names the action. When one rejects, the calls after it are not
    made, and one error toast carries its message. *)
Theorem handleConfirm_fail_fast (p : Props) (s : State) (a : PendingAction) :
  pendingAction s = Some a →
  pendingAction (handleConfirm p s) = None ∧
  (Forall (λ c, callResult p c = None) (action a) →
   log (handleConfirm p s) =
   log s ++ (Invoke <$> action a) ++
     [Toast (name a +:+ " command sent successfully.") "success"]) ∧
  (∀ pre c e post,
     action a = pre ++ c :: post →
     Forall (λ c, callResult p c = None) pre → callResult p c = Some e →
     log (handleConfirm p s) =
     log s ++ (Invoke <$> pre ++ [c]) ++ [Toast ("Failed: " +:+ errorMessage e) "error"]).
Proof.
  intros Ha. unfold handleConfirm. rewrite Ha.
  destruct (runAction_spec p (action a))
    as [[Hall Hrun]|(pre & c & e & post & Hact & Hpre & Hc & Hrun)]; rewrite Hrun.
  - split; [done|]. split; [done|].
    intros pre c e post Hact Hpre Hc. rewrite Hact in Hall.
    apply Forall_app in Hall as [_ Hall]. apply Forall_cons in Hall as [Hnone _].
    congruence.
  - split; [done|]. split.
    + intros Hall. rewrite Hact in Hall.
      apply Forall_app in Hall as [_ Hall]. apply Forall_cons in Hall as [Hnone _].
      congruence.
    + intros pre' c' e' post' Hact' Hpre' Hc'.
      assert (pre' = pre ∧ c' = c) as [-> ->].
      { rewrite Hact in Hact'. clear Hrun Hact Ha.
        revert pre' Hact' Hpre'. induction pre as [|x pre IH]; intros pre' Hact' Hpre'.
        - destruct pre' as [|y pre']; simpl in Hact'; [by injection Hact' as -> _|].
          injection Hact' as -> _. apply Forall_cons in Hpre' as [Hy _]. congruence.
        - destruct pre' as [|y pre']; simpl in Hact'.
          + injection Hact' as -> _. apply Forall_cons in Hpre as [Hx _]. congruence.
          + injection Hact' as -> Hact'. apply Forall_cons in Hpre as [_ Hpre].
            apply Forall_cons in Hpre' as [_ Hpre'].
            destruct (IH Hpre pre' Hact' Hpre') as [-> ->]. done. }
      assert (e' = e) as -> by congruence. done.
Qed.

Lemma handleConfirm_fail_fast_witness :
  log (run MoreExamples.failingProps initial [ClickClearAll; ClickConfirm]) =
  [Invoke DbClearMessages; Toast "Failed: disk full" "error"].
Proof.
  destruct (handleConfirm_fail_fast MoreExamples.failingProps
              (run MoreExamples.failingProps initial [ClickClearAll])
              _ eq_refl) as (_ & _ & Hfail).
  exact (Hfail [] DbClearMessages (ErrorObj "disk full") [DbClearNodes; ClearSessionData]
           eq_refl (Forall_nil_2 _) eq_refl).
Defined.

End AdminCallsFacts.

(** ** Map panel: legend, fitted positions and session *)

Section MapLegendFacts.

Import MapPanel.

Variable getNodeStatus : Z → NodeStatus.

Lemma markerOf_fill (myNodeNum : Z) (n : MeshNode) :
  fill (icon (markerOf getNodeStatus myNodeNum n)) =
  statusColor (getNodeStatus (last_heard n)).
Proof.
  unfold markerOf, getMarkerIcon. simpl.
  by destruct (node_id n =? myNodeNum), (getNodeStatus (last_heard n)).
Qed.

Lemma statusCounts_fold (l : list MeshNode) (c : MapLegend.Counts) (myNodeNum : Z) :
  let r := fold_left (λ counts n, MapLegend.increment counts (getNodeStatus (last_heard n)))
             l c in
  let ms := List.map (markerOf getNodeStatus myNodeNum) l in
  MapLegend.online r = MapLegend.online c + MapLegend.filledWith "#22c55e" ms ∧
  MapLegend.stale r = MapLegend.stale c + MapLegend.filledWith "#eab308" ms ∧
  MapLegend.offline r = MapLegend.offline c + MapLegend.filledWith "#6b7280" ms.
Proof.
  revert c. induction l as [|n l IH]; intros c; simpl.
  - unfold MapLegend.filledWith. simpl. lia.
  - destruct (IH (MapLegend.increment c (getNodeStatus (last_heard n)))) as (Ho & Hs & Hf).
    simpl in Ho, Hs, Hf. rewrite Ho, Hs, Hf. unfold MapLegend.filledWith.
    cbn [List.map List.filter]. rewrite markerOf_fill.
    destruct (getNodeStatus (last_heard n)); simpl; lia.
Qed.

(** X10. The three numbers of the legend count the markers drawn in green,
    in yellow and in grey, and they add up to the number of markers. *)
Theorem legend_counts_markers (nodes : list (Z * MeshNode)) (myNodeNum : Z) :
  let counts := MapLegend.statusCounts getNodeStatus nodes in
  let ms := markers getNodeStatus nodes myNodeNum in
  MapLegend.online counts = MapLegend.filledWith "#22c55e" ms ∧
  MapLegend.stale counts = MapLegend.filledWith "#eab308" ms ∧
  MapLegend.offline counts = MapLegend.filledWith "#6b7280" ms ∧
  MapLegend.online counts + MapLegend.stale counts + MapLegend.offline counts =
    Z.of_nat (length ms).
Proof.
  intros counts ms.
  destruct (statusCounts_fold (nodesWithPosition nodes)
              {| MapLegend.online := 0; MapLegend.stale := 0; MapLegend.offline := 0 |}
              myNodeNum) as (Ho & Hs & Hf).
  fold (MapLegend.statusCounts getNodeStatus nodes) in Ho, Hs, Hf.
  fold (markers getNodeStatus nodes myNodeNum) in Ho, Hs, Hf.
  fold counts in Ho, Hs, Hf. fold ms in Ho, Hs, Hf. simpl in Ho, Hs, Hf.
  repeat split; try done. rewrite Ho, Hs, Hf. unfold MapLegend.filledWith.
  subst ms. unfold markers. generalize (nodesWithPosition nodes) as l.
  induction l as [|n l IH]; [done|]. cbn [List.map List.filter].
  rewrite markerOf_fill. destruct (getNodeStatus (last_heard n)); simpl; lia.
Qed.

End MapLegendFacts.

Section MapFitFacts.

Import MapPanel MapLegend.

Lemma fitEffect_fitOf (se : Session) (lastFitted : nat) (ps : list LatLng) :
  (fitEffect se lastFitted ps).2 = [] ∨
  (ps ≠ [] ∧ userHasInteracted se = false ∧ (fitEffect se lastFitted ps).2 = [fitOf ps]).
Proof.
  unfold fitEffect. destruct (userHasInteracted se); [by left|].
  destruct (Nat.eqb_spec (length ps) 0); [by left|].
  destruct (length ps <=? lastFitted)%nat; [by left|].
  right. split; [by destruct ps|]. split; [done|]. by destruct ps as [|p [|q ps]].
Qed.

Lemma step_fits (s : MapState) (ev : MapEvent) (a : MapAction) :
  a ∈ (step s ev).2 → isAutoFit a = true →
  ∃ nodes, nodes ∈ renderedNodes [ev] ∧ positions nodes ≠ [] ∧
           userHasInteracted (session s) = false ∧ a = fitOf (positions nodes).
Proof.
  destruct ev as [nodes|nodes|c z|c z|]; simpl.
  - destruct (fitEffect_fitOf (session s) 0 (positions nodes)) as [H|(Hne & Hi & H)];
      destruct (fitEffect (session s) 0 (positions nodes)) as [fitted acts];
      simpl in *; subst acts.
    + intros Ha Hfit. apply list_elem_of_singleton in Ha. by subst a.
    + intros Ha Hfit. apply elem_of_cons in Ha as [->|Ha]; [done|].
      apply list_elem_of_singleton in Ha. exists nodes. split; [left|done].
  - destruct (instance s) as [i|]; simpl; [|by intros Ha%elem_of_nil].
    destruct (length (positions nodes) =? depLength i)%nat; simpl;
      [by intros Ha%elem_of_nil|].
    destruct (fitEffect_fitOf (session s) (lastFittedCount i) (positions nodes))
      as [H|(Hne & Hi & H)];
      destruct (fitEffect (session s) (lastFittedCount i) (positions nodes))
        as [fitted acts];
      simpl in *; subst acts.
    + by intros Ha%elem_of_nil.
    + intros Ha Hfit. apply list_elem_of_singleton in Ha. exists nodes.
      split; [left|done].
  - destruct (instance s); simpl; by intros Ha%elem_of_nil.
  - destruct (instance s); simpl; by intros Ha%elem_of_nil.
  - by intros Ha%elem_of_nil.
Qed.

Lemma renderedNodes_cons (ev : MapEvent) (evs : list MapEvent) :
  renderedNodes (ev :: evs) = renderedNodes [ev] ++ renderedNodes evs.
Proof. unfold renderedNodes. simpl. by destruct ev. Qed.

Lemma run_fits (evs : list MapEvent) (s : MapState) (a : MapAction) :
  a ∈ (run s evs).2 → isAutoFit a = true →
  ∃ nodes, nodes ∈ renderedNodes evs ∧ positions nodes ≠ [] ∧ a = fitOf (positions nodes).
Proof.
  revert s. induction evs as [|ev evs IH]; intros s; [by intros Ha%elem_of_nil|].
  rewrite renderedNodes_cons. cbn [run].
  pose proof (step_fits s ev a) as Hstep. destruct (step s ev) as [s1 a1].
  specialize (IH s1). destruct (run s1 evs) as [s2 a2]. simpl in *.
  intros [Ha|Ha]%elem_of_app Hfit.
  - destruct (Hstep Ha Hfit) as (nodes & Hin & Hne & _ & ->).
    exists nodes. split; [|done]. apply elem_of_app. by left.
  - destruct (IH Ha Hfit) as (nodes & Hin & Hne & ->).
    exists nodes. split; [|done]. apply elem_of_app. by right.
Qed.

(** X11. Whatever the map is asked to fly to is the set of positions of a
    node map that was rendered, and that set is not empty: one position is
    flown to, two or more are fitted as bounds. A first mount centres the
    map on the first positioned node, or on the default centre under the
    overlay when there is none, at the default zoom, and then fits. *)
Theorem auto_fit_targets :
  (∀ s evs a, a ∈ (run s evs).2 → isAutoFit a = true →
     ∃ nodes, nodes ∈ renderedNodes evs ∧ positions nodes ≠ [] ∧
              a = fitOf (positions nodes)) ∧
  (∀ s evs ps, FlyToBounds ps ∈ (run s evs).2 → (2 ≤ length ps)%nat) ∧
  (∀ nodes,
     (run {| session := freshSession; instance := None |} [Mount nodes]).2 =
     InitView (center nodes) DEFAULT_ZOOM ::
       (if showsEmptyOverlay nodes then [] else [fitOf (positions nodes)])) ∧
  (∀ nodes, showsEmptyOverlay nodes = true → center nodes = DEFAULT_CENTER).
Proof.
  split; [|split; [|split]].
  - intros s evs a. apply run_fits.
  - intros s evs ps Ha. destruct (run_fits evs s _ Ha eq_refl) as (nodes & _ & Hne & Heq).
    destruct (positions nodes) as [|p [|q l]]; simpl in Heq; try done.
    injection Heq as ->. simpl. lia.
  - intros nodes. unfold showsEmptyOverlay, center, positions. simpl.
    unfold fitEffect, initialView, center, positions. simpl.
    by destruct (nodesWithPosition nodes) as [|n [|n' l]].
  - intros nodes. unfold showsEmptyOverlay, center.
    by destruct (nodesWithPosition nodes).
Qed.

Lemma auto_fit_targets_witness :
  (run {| session := freshSession; instance := None |} [Mount Examples.nodeMap]).2 =
  [InitView (45%float, 7%float) DEFAULT_ZOOM;
   FlyToBounds [(45%float, 7%float); (46%float, 8%float)]].
Proof.
  destruct auto_fit_targets as (_ & _ & Hmount & _).
  rewrite Hmount. reflexivity.
Defined.

Lemma step_session (s : MapState) (ev : MapEvent) :
  session (step s ev).1 = session s ∨
  (∃ c zoom, (c, zoom) ∈ reportedViews [ev] ∧ session (step s ev).1 = trackView c zoom).
Proof.
  destruct ev as [nodes|nodes|c z|c z|]; simpl.
  - left. by destruct (fitEffect (session s) 0 (positions nodes)).
  - left. destruct (instance s) as [i|]; [|done].
    destruct (length (positions nodes) =? depLength i)%nat; [done|].
    by destruct (fitEffect (session s) (lastFittedCount i) (positions nodes)).
  - destruct (instance s); [right|by left]. exists c, z. split; [left|done].
  - destruct (instance s); [right|by left]. exists c, z. split; [left|done].
  - by left.
Qed.

Lemma step_init (s : MapState) (ev : MapEvent) (a : MapAction) :
  a ∈ (step s ev).2 → isAutoFit a = false →
  ∃ nodes, nodes ∈ renderedNodes [ev] ∧ a = initialView (session s) nodes.
Proof.
  destruct ev as [nodes|nodes|c z|c z|]; simpl.
  - destruct (fitEffect_fitOf (session s) 0 (positions nodes)) as [H|(Hne & Hi & H)];
      destruct (fitEffect (session s) 0 (positions nodes)) as [fitted acts];
      simpl in *; subst acts.
    + intros Ha%list_elem_of_singleton _. exists nodes. split; [left|done].
    + intros [->|Ha%list_elem_of_singleton]%elem_of_cons Hfit.
      * exists nodes. split; [left|done].
      * subst a. by destruct (positions nodes) as [|p [|q l]].
  - destruct (instance s) as [i|]; simpl; [|by intros Ha%elem_of_nil].
    destruct (length (positions nodes) =? depLength i)%nat; simpl;
      [by intros Ha%elem_of_nil|].
    destruct (fitEffect_fitOf (session s) (lastFittedCount i) (positions nodes))
      as [H|(Hne & Hi & H)];
      destruct (fitEffect (session s) (lastFittedCount i) (positions nodes))
        as [fitted acts];
      simpl in *; subst acts.
    + by intros Ha%elem_of_nil.
    + intros Ha%list_elem_of_singleton Hfit. subst a.
      by destruct (positions nodes) as [|p [|q l]].
  - destruct (instance s); simpl; by intros Ha%elem_of_nil.
  - destruct (instance s); simpl; by intros Ha%elem_of_nil.
  - by intros Ha%elem_of_nil.
Qed.

Lemma run_untouched (evs : list MapEvent) (s : MapState) :
  reportedViews evs = [] →
  session (run s evs).1 = session s ∧
  ∀ a, a ∈ (run s evs).2 → isAutoFit a = false →
       ∃ nodes, nodes ∈ renderedNodes evs ∧ a = initialView (session s) nodes.
Proof.
  revert s. induction evs as [|ev evs IH]; intros s Hviews.
  - split; [done|]. by intros a Ha%elem_of_nil.
  - rewrite reportedViews_cons in Hviews. apply app_eq_nil in Hviews as [Hev Hevs].
    rewrite renderedNodes_cons. cbn [run].
    pose proof (step_session s ev) as Hse. pose proof (step_init s ev) as Hinit.
    destruct (step s ev) as [s1 a1]. specialize (IH s1 Hevs).
    destruct (run s1 evs) as [s2 a2]. simpl in *.
    assert (session s1 = session s) as Hs1.
    { destruct Hse as [H|(c & zoom & Hin & _)]; [done|].
      rewrite Hev in Hin. by apply elem_of_nil in Hin. }
    destruct IH as [IHs IHa]. split; [congruence|].
    intros a [Ha|Ha]%elem_of_app Hfit.
    + destruct (Hinit a Ha Hfit) as (nodes & Hin & ->).
      exists nodes. split; [|done]. apply elem_of_app. by left.
    + destruct (IHa a Ha Hfit) as (nodes & Hin & ->).
      exists nodes. split; [|by rewrite Hs1]. apply elem_of_app. by right.
Qed.

Lemma run_session (evs : list MapEvent) (s : MapState) :
  session (run s evs).1 = session s ∨
  (∃ c zoom, (c, zoom) ∈ reportedViews evs ∧ session (run s evs).1 = trackView c zoom).
Proof.
  revert s. induction evs as [|ev evs IH]; intros s; [by left|].
  rewrite reportedViews_cons. cbn [run].
  pose proof (step_session s ev) as Hse. destruct (step s ev) as [s1 a1].
  specialize (IH s1). destruct (run s1 evs) as [s2 a2]. simpl in *.
  destruct IH as [IH|(c & zoom & Hin & IH)].
  - destruct Hse as [Hse|(c & zoom & Hin & Hse)]; [left; congruence|].
    right. exists c, zoom. split; [apply elem_of_app; by left|congruence].
  - right. exists c, zoom. split; [apply elem_of_app; by right|done].
Qed.

(** X12. The saved view is all or nothing: a session is either untouched,
    with no centre, no zoom and no interaction recorded, or it holds the
    centre and zoom of one reported view and is marked as interacted.
    Until the map reports a view, every mount opens on the centre computed
    from the nodes at the default zoom. *)
Theorem session_all_or_nothing (evs : list MapEvent) :
  let final := (run {| session := freshSession; instance := None |} evs).1 in
  (session final = freshSession ∨
   ∃ c zoom, (c, zoom) ∈ reportedViews evs ∧
             session final =
             {| savedCenter := Some c; savedZoom := Some zoom;
                userHasInteracted := true |}) ∧
  (reportedViews evs = [] →
   session final = freshSession ∧
   ∀ a, a ∈ (run {| session := freshSession; instance := None |} evs).2 →
        isAutoFit a = false →
        ∃ nodes, nodes ∈ renderedNodes evs ∧ a = InitView (center nodes) DEFAULT_ZOOM).
Proof.
  split.
  - apply (run_session evs {| session := freshSession; instance := None |}).
  - intros Hviews.
    apply (run_untouched evs {| session := freshSession; instance := None |} Hviews).
Qed.

Lemma session_all_or_nothing_witness :
  session (run {| session := freshSession; instance := None |}
             [Mount Examples.nodeMap; Render []; Unmount; Mount []]).1 = freshSession.
Proof.
  destruct (session_all_or_nothing
              [Mount Examples.nodeMap; Render []; Unmount; Mount []]) as [_ H].
  by destruct (H eq_refl) as [Hs _].
Defined.

End MapFitFacts.

(** ** Chat panel: quoted replies and grouped reactions *)

Section ChatRepliesFacts.

Import JsString ChatPanel ChatReplies.






Lemma sendersOf_groupAdd (e e' : Z) (s : string) (g : list (Z * list string)) :
  sendersOf e' (groupAdd e s g) =
  if e' =? e then Some (default [] (sendersOf e g) ++ [s]) else sendersOf e' g.
Proof.
  induction g as [|[e1 ss] g IH]; simpl.
  - by rewrite (Z.eqb_sym e e').
  - destruct (Z.eqb_spec e1 e) as [->|Hne]; simpl.
    + rewrite (Z.eqb_sym e e'). by destruct (e' =? e).
    + rewrite IH. destruct (Z.eqb_spec e1 e') as [->|Hne']; [|done].
      by apply Z.eqb_neq in Hne as ->.
Qed.

Lemma sendersOf_fold (e : Z) (rs : list Reaction) (g : list (Z * list string)) :
  sendersOf e (fold_left (λ g r, groupAdd (r_emoji r) (r_sender_name r) g) rs g) =
  match reactedWith e rs with
  | [] => sendersOf e g
  | names => Some (default [] (sendersOf e g) ++ names)
  end.
Proof.
  revert g. induction rs as [|r rs IH]; intros g; [done|].
  cbn [fold_left]. rewrite IH, sendersOf_groupAdd. unfold reactedWith.
  cbn [List.filter]. rewrite (Z.eqb_sym e (r_emoji r)).
  destruct (Z.eqb_spec (r_emoji r) e) as [He|Hne]; [|done].
  rewrite fmap_cons, He.
  destruct (r_sender_name <$> List.filter (λ r0, r_emoji r0 =? e) rs) as [|n ns];
    [done|]. cbn. by rewrite <- app_assoc.
Qed.

Lemma groupAdd_fst (e : Z) (s : string) (g : list (Z * list string)) :
  (groupAdd e s g).*1 = if existsb (Z.eqb e) g.*1 then g.*1 else g.*1 ++ [e].
Proof.
  induction g as [|[e1 ss] g IH]; [done|]. cbn [groupAdd].
  destruct (Z.eqb_spec e1 e) as [->|Hne]; rewrite !fmap_cons; cbn [fst existsb].
  - by rewrite Z.eqb_refl.
  - rewrite IH, (Z.eqb_sym e e1). apply Z.eqb_neq in Hne as ->. cbn [orb].
    by destruct (existsb (Z.eqb e) g.*1).
Qed.

Lemma groupAdd_NoDup (e : Z) (s : string) (g : list (Z * list string)) :
  NoDup g.*1 → NoDup (groupAdd e s g).*1.
Proof.
  intros Hg. rewrite groupAdd_fst. destruct (existsb (Z.eqb e) g.*1) eqn:E; [done|].
  apply NoDup_app. split; [done|]. split; [|apply NoDup_singleton].
  intros x Hx [= ->]%list_elem_of_singleton.
  assert (existsb (Z.eqb e) g.*1 = true) as Ht; [|congruence].
  apply existsb_exists. exists e. split; [by apply list_elem_of_In|apply Z.eqb_refl].
Qed.

Lemma group_fold_NoDup (rs : list Reaction) (g : list (Z * list string)) :
  NoDup g.*1 →
  NoDup (fold_left (λ g r, groupAdd (r_emoji r) (r_sender_name r) g) rs g).*1.
Proof.
  revert g. induction rs as [|r rs IH]; intros g Hg; [done|].
  cbn [fold_left]. by apply IH, groupAdd_NoDup.
Qed.

Lemma groupAdd_total (e : Z) (s : string) (g : list (Z * list string)) :
  sum_list (length <$> (groupAdd e s g).*2) = S (sum_list (length <$> g.*2)).
Proof.
  induction g as [|[e1 ss] g IH]; [done|]. cbn [groupAdd].
  destruct (e1 =? e); rewrite !fmap_cons; cbn [snd sum_list sum_list_with].
  - rewrite length_app. simpl. lia.
  - rewrite IH. lia.
Qed.

Lemma group_fold_total (rs : list Reaction) (g : list (Z * list string)) :
  sum_list (length <$>
    (fold_left (λ g r, groupAdd (r_emoji r) (r_sender_name r) g) rs g).*2) =
  (sum_list (length <$> g.*2) + length rs)%nat.
Proof.
  revert g. induction rs as [|r rs IH]; intros g; simpl; [lia|].
  rewrite IH, groupAdd_total. lia.
Qed.

Lemma sendersOf_elem (e : Z) (ss : list string) (g : list (Z * list string)) :
  NoDup g.*1 → (e, ss) ∈ g → sendersOf e g = Some ss.
Proof.
  induction g as [|[e1 ss1] g IH]; simpl; [by intros _ H%elem_of_nil|].
  intros [Hnotin Hg]%NoDup_cons [[= -> ->]|Hin]%elem_of_cons.
  - by rewrite Z.eqb_refl.
  - destruct (Z.eqb_spec e1 e) as [->|Hne]; [|by apply IH].
    destruct Hnotin. apply list_elem_of_fmap. by exists (e, ss).
Qed.

(** X14. Under a message the reactions are grouped by emoji: each emoji
    appears once, its count is the number of reactions to the message with
    that emoji and is at least one, its tooltip joins the names of those who
    sent them in order, and the counts add up to the number of reactions. A
    message without a packet id, or with packet id 0, shows none. *)
Theorem grouped_reactions_spec (messages : list ChatMessage) (packet : option Z) :
  (truthy packet = false → getGroupedReactions messages packet = []) ∧
  (∀ pid, packet = Some pid → pid ≠ 0 →
     NoDup (g_emoji <$> getGroupedReactions messages packet) ∧
     (∀ g, g ∈ getGroupedReactions messages packet →
        g_count g = length (reactedWith (g_emoji g) (reactionsTo pid messages)) ∧
        (1 ≤ g_count g)%nat ∧
        g_tooltip g = join ", " (reactedWith (g_emoji g) (reactionsTo pid messages))) ∧
     sum_list (g_count <$> getGroupedReactions messages packet) =
       length (reactionsTo pid messages)).
Proof.
  split.
  - intros Hp. unfold getGroupedReactions. by rewrite Hp.
  - intros pid -> Hpid. unfold getGroupedReactions. simpl.
    apply Z.eqb_neq in Hpid as Hp. rewrite Hp. simpl.
    pose proof (reactionsByReplyId_lookup messages pid Hpid) as Hl.
    destruct (reactionsByReplyId messages !! pid) as [rs|]; simpl in Hl.
    2:{ rewrite <- Hl. split; [constructor|]. split; [|done].
        by intros g Hg%elem_of_nil. }
    subst rs. set (rs := reactionsTo pid messages).
    set (grouped := fold_left (λ g r, groupAdd (r_emoji r) (r_sender_name r) g) rs []).
    assert (NoDup grouped.*1) as Hnodup by (apply group_fold_NoDup; constructor).
    split; [|split].
    + assert ((g_emoji <$>
                List.map (λ '(e, senders),
                   {| g_emoji := e; g_count := length senders;
                      g_tooltip := join ", " senders |}) grouped) = grouped.*1) as ->; [|done].
      clear Hnodup. generalize grouped as l.
      induction l as [|[e ss] l IH]; [done|]. simpl. f_equal. exact IH.
    + intros g Hg. apply list_elem_of_In, in_map_iff in Hg as ([e ss] & <- & Hin).
      apply list_elem_of_In in Hin. simpl.
      pose proof (sendersOf_elem e ss grouped Hnodup Hin) as Hs.
      unfold grouped in Hs. rewrite sendersOf_fold in Hs. simpl in Hs.
      destruct (reactedWith e rs) as [|n ns] eqn:E; [done|].
      injection Hs as <-. simpl. split; [done|]. split; [lia|done].
    + pose proof (group_fold_total rs []) as Ht. fold grouped in Ht. simpl in Ht.
      rewrite <- Ht. generalize grouped as l.
      induction l as [|[e ss] l IH]; [done|]. simpl. f_equal. exact IH.
Qed.

End ChatRepliesFacts.

(** ** Chat panel: conversations, sending and reacting *)

Section ChatUiFacts.

Import JsString ChatPanel ChatUi.





Lemma step_fields (myNodeNum : Z) (s : Ui) (ev : UiEvent) :
  view (step myNodeNum s ev) = view (handle myNodeNum s ev) ∧
  openDmTabs (step myNodeNum s ev) = openDmTabs (handle myNodeNum s ev) ∧
  input (step myNodeNum s ev) = input (handle myNodeNum s ev) ∧
  sending (step myNodeNum s ev) = sending (handle myNodeNum s ev) ∧
  showSearch (step myNodeNum s ev) = showSearch (handle myNodeNum s ev) ∧
  pickerOpenFor (step myNodeNum s ev) = pickerOpenFor (handle myNodeNum s ev) ∧
  isConnected (step myNodeNum s ev) = isConnected (handle myNodeNum s ev) ∧
  calls (step myNodeNum s ev) = calls (handle myNodeNum s ev).
Proof. unfold step. by destruct (sameConversation s (handle myNodeNum s ev)). Qed.

Lemma includesTab_elem (s : Ui) (n : Z) : includesTab s n = true ↔ n ∈ openDmTabs s.
Proof.
  unfold includesTab. rewrite existsb_exists, list_elem_of_In. split.
  - by intros (x & Hx & ->%Z.eqb_eq).
  - intros H. exists n. split; [done|apply Z.eqb_refl].
Qed.

Lemma openDmTo_view (s : Ui) (n : Z) :
  viewMode (view (openDmTo s n)) = Dm ∧
  activeDmNode (view (openDmTo s n)) = Some n ∧
  n ∈ openDmTabs (openDmTo s n) ∧
  selectedChannel (view (openDmTo s n)) = selectedChannel (view s).
Proof.
  unfold openDmTo. destruct (includesTab s n) eqn:E; simpl; repeat split; try done.
  - by apply includesTab_elem.
  - apply elem_of_app. right. left.
Qed.

Lemma handle_conversation (myNodeNum : Z) (s : Ui) (ev : UiEvent) :
  (viewMode (view s) = Dm → is_Some (activeDmNode (view s))) →
  (∀ n, activeDmNode (view s) = Some n → n ∈ openDmTabs s) →
  (viewMode (view (handle myNodeNum s ev)) = Dm →
   is_Some (activeDmNode (view (handle myNodeNum s ev)))) ∧
  (∀ n, activeDmNode (view (handle myNodeNum s ev)) = Some n →
        n ∈ openDmTabs (handle myNodeNum s ev)).
Proof.
  intros Hmode Hactive.
  destruct ev; cbn [handle]; unfold whenRendered, consumeDmTarget, handleEscape,
    handleSend, sendSettled, handleReact; try done.
  - destruct (showSearch s); done.
  - destruct (includesTab s nodeNum) eqn:E; [|done]. simpl.
    split; [eauto|]. intros n [= <-]. by apply includesTab_elem.
  - destruct (includesTab s nodeNum) eqn:E; [|done]. unfold closeDmTab.
    destruct (optionEqb (activeDmNode (view s)) nodeNum) eqn:Ha.
    + destruct (last (List.filter (λ n, negb (n =? nodeNum)) (openDmTabs s)))
        as [m|] eqn:Hl; simpl.
      * split; [eauto|]. intros n [= <-]. apply last_Some in Hl as [l' Hl].
        rewrite Hl. apply elem_of_app. right. left.
      * done.
    + simpl. split; [done|]. intros n Hn. apply list_elem_of_In, filter_In.
      split; [by apply list_elem_of_In, Hactive|].
      rewrite Hn in Ha. simpl in Ha. by rewrite Ha.
  - destruct target as [n|]; [|done]. cbn [emit view openDmTabs].
    destruct (openDmTo_view s n) as (_ & Ha & Hin & _).
    split; [rewrite Ha; eauto|]. rewrite Ha. by intros m [= <-].
  - simpl. destruct (replyingTo s); simpl; [done|].
    destruct (showSearch s); simpl; [done|].
    destruct (viewMode (view s)) eqn:Hv; simpl; [by rewrite Hv|]. split; [done|].
    exact Hactive.
  - by destruct (isConnected s && negb (sending s)).
  - by destruct (negb (nonEmpty (trim (input s))) || negb (isConnected s) || sending s).
  - destruct (sending s); [|done]. by destruct result.
  - by destruct (showsActions s msg && negb (sender_id msg =? myNodeNum)).
  - destruct (showPicker s i msg); [|done].
    destruct (REACTION_EMOJIS !! k); [|done]. simpl. by destruct result.
  - by destruct (showsActions s msg).
  - destruct (showsActions s msg && negb (sender_id msg =? myNodeNum)); [|done].
    destruct (openDmTo_view s (sender_id msg)) as (_ & Ha & Hin & _).
    split; [rewrite Ha; eauto|]. rewrite Ha. by intros m [= <-].
  - by destruct (bool_decide (is_Some (replyingTo s))).
Qed.

Lemma run_conversation (myNodeNum : Z) (evs : list UiEvent) (s : Ui) :
  (viewMode (view s) = Dm → is_Some (activeDmNode (view s))) →
  (∀ n, activeDmNode (view s) = Some n → n ∈ openDmTabs s) →
  (viewMode (view (run myNodeNum s evs)) = Dm →
   is_Some (activeDmNode (view (run myNodeNum s evs)))) ∧
  (∀ n, activeDmNode (view (run myNodeNum s evs)) = Some n →
        n ∈ openDmTabs (run myNodeNum s evs)).
Proof.
  revert s. induction evs as [|ev evs IH]; intros s Hmode Hactive; [done|].
  cbn [run fold_left]. apply IH.
  - destruct (step_fields myNodeNum s ev) as (-> & _).
    by apply handle_conversation.
  - destruct (step_fields myNodeNum s ev) as (-> & -> & _).
    by apply handle_conversation.
Qed.

Section Persisted.

Variable J : JsonApi.

Lemma handle_tabs (myNodeNum : Z) (s : Ui) (ev : UiEvent) (ts : TabsState) :
  ChatPanel.openDmTabs ts = openDmTabs s →
  ChatPanel.openDmTabs (tabsRun J ts (option_list (tabsEventOf myNodeNum s ev))) =
  openDmTabs (handle myNodeNum s ev).
Proof.
  intros Hts.
  destruct ev; cbn [handle tabsEventOf]; unfold whenRendered, consumeDmTarget,
    handleEscape, handleSend, sendSettled, handleReact; try done.
  - by destruct (showSearch s).
  - by destruct (includesTab s nodeNum).
  - destruct (includesTab s nodeNum); [|done]. simpl. rewrite Hts. unfold closeDmTab.
    destruct (optionEqb (activeDmNode (view s)) nodeNum); [|done].
    by destruct (last (List.filter (λ n, negb (n =? nodeNum)) (openDmTabs s))).
  - destruct target as [n|]; [|done]. simpl. rewrite Hts. unfold openDmTo, includesTab.
    by destruct (existsb (Z.eqb n) (openDmTabs s)).
  - simpl. destruct (replyingTo s); simpl; [done|].
    destruct (showSearch s); simpl; [done|]. by destruct (viewMode (view s)).
  - by destruct (isConnected s && negb (sending s)).
  - by destruct (negb (nonEmpty (trim (input s))) || negb (isConnected s) || sending s).
  - destruct (sending s); [|done]. by destruct result.
  - by destruct (showsActions s msg && negb (sender_id msg =? myNodeNum)).
  - destruct (showPicker s i msg); [|done].
    destruct (REACTION_EMOJIS !! k); [|done]. simpl. by destruct result.
  - by destruct (showsActions s msg).
  - destruct (showsActions s msg && negb (sender_id msg =? myNodeNum)); [|done].
    simpl. rewrite Hts. unfold openDmTo, includesTab.
    by destruct (existsb (Z.eqb (sender_id msg)) (openDmTabs s)).
  - by destruct (bool_decide (is_Some (replyingTo s))).
Qed.

Lemma run_tabs (myNodeNum : Z) (evs : list UiEvent) (s : Ui) (ts : TabsState) :
  ChatPanel.openDmTabs ts = openDmTabs s →
  ChatPanel.openDmTabs (tabsRun J ts (tabsEvents myNodeNum s evs)) =
  openDmTabs (run myNodeNum s evs).
Proof.
  revert s ts. induction evs as [|ev evs IH]; intros s ts Hts; [done|].
  cbn [tabsEvents run fold_left]. unfold tabsRun. rewrite fold_left_app.
  apply IH. destruct (step_fields myNodeNum s ev) as (_ & -> & _).
  by apply handle_tabs.
Qed.

(** X15. Whatever happens to the panel, the conversation view is never
    without a conversation: in DM mode a node is active, and the active
    node always has a tab. The tabs of the panel are those that the
    persistence effect has written to [localStorage]. *)
Theorem conversation_has_tab (myNodeNum : Z) (st : gmap string string) (connected : bool)
    (evs : list UiEvent) :
  let start := initial (loadOpenDmTabs J st) connected in
  let s := run myNodeNum start evs in
  (viewMode (view s) = Dm → ∃ n, activeDmNode (view s) = Some n ∧ n ∈ openDmTabs s) ∧
  (∀ n, activeDmNode (view s) = Some n → n ∈ openDmTabs s) ∧
  (dmNode (view s) = None ↔ viewMode (view s) = Channels) ∧
  storage (tabsRun J (mountTabs J st) (tabsEvents myNodeNum start evs)) !! STORAGE_KEY =
    Some (JSON_stringify J (JArray (JNumber <$> openDmTabs s))).
Proof.
  intros start s.
  destruct (run_conversation myNodeNum evs start) as [Hmode Hactive]; [done..|].
  fold s in Hmode, Hactive.
  split; [|split; [|split]].
  - intros Hdm. destruct (Hmode Hdm) as [n Hn]. exists n. split; [done|by apply Hactive].
  - done.
  - unfold dmNode. destruct (viewMode (view s)) eqn:Hv; [done|].
    destruct (Hmode eq_refl) as [n Hn]. rewrite Hn. done.
  - rewrite tabsRun_persisted.
    + by rewrite (run_tabs myNodeNum evs start (mountTabs J st)).
    + unfold mountTabs, persistOpenDmTabs. simpl. by rewrite lookup_insert_eq.
Qed.

End Persisted.

Lemma conversation_has_tab_witness :
  ∃ n,
    activeDmNode
      (view (run 1 (initial (loadOpenDmTabs IntArrayJson.api ∅) true)
               [InitialDmTarget (Some 2); InitialDmTarget (Some 3); ClickCloseDm 3])) =
      Some n ∧
    n ∈ openDmTabs
          (run 1 (initial (loadOpenDmTabs IntArrayJson.api ∅) true)
             [InitialDmTarget (Some 2); InitialDmTarget (Some 3); ClickCloseDm 3]).
Proof.
  destruct (conversation_has_tab IntArrayJson.api 1 ∅ true
              [InitialDmTarget (Some 2); InitialDmTarget (Some 3); ClickCloseDm 3])
    as (H & _).
  apply H. reflexivity.
Defined.

(** The calls that an event adds. *)
Lemma handle_calls (myNodeNum : Z) (s : Ui) (ev : UiEvent) :
  ∃ new, calls (handle myNodeNum s ev) = calls s ++ new ∧
    (∀ text ch dest rid, OnSend text ch dest rid ∈ new →
       ev = Submit ∧ sending s = false ∧ isConnected s = true ∧
       text = trim (input s) ∧ nonEmpty text = true ∧ ch ≠ -1 ∧
       (ch = selectedChannel (view s) ∨ selectedChannel (view s) = -1 ∧ ch = 0) ∧
       dest = dmNode (view s) ∧ rid = replyingTo s ≫= packetId) ∧
    (∀ e rid ch dest, OnReact e rid ch dest ∈ new →
       ∃ i msg k label result,
         ev = ClickEmoji i msg k result ∧ showPicker s i msg = true ∧
         REACTION_EMOJIS !! k = Some (e, label) ∧ rid = packetId msg ∧
         ch = channel msg ∧ dest = dmNode (view s)).
Proof.
  assert (∀ c : Call, c ∈ @nil Call → False) as Hnil by (by intros c H%elem_of_nil).
  destruct ev; cbn [handle]; unfold whenRendered, consumeDmTarget, handleEscape,
    handleSend, sendSettled, handleReact.
  all: try (exists []; rewrite app_nil_r; split; [done|]; split; intros; by exfalso; eauto).
  - exists []. rewrite app_nil_r. split; [by destruct (showSearch s)|].
    split; intros; by exfalso; eauto.
  - exists []. rewrite app_nil_r. split; [by destruct (includesTab s nodeNum)|].
    split; intros; by exfalso; eauto.
  - exists []. rewrite app_nil_r. split.
    + destruct (includesTab s nodeNum); [|done]. unfold closeDmTab.
      destruct (optionEqb (activeDmNode (view s)) nodeNum); [|done].
      by destruct (last (List.filter (λ n, negb (n =? nodeNum)) (openDmTabs s))).
    + split; intros; by exfalso; eauto.
  - destruct target as [n|].
    + exists [OnDmTargetConsumed]. split.
      * unfold openDmTo. by destruct (includesTab s n).
      * split; intros * H%list_elem_of_singleton; done.
    + exists []. rewrite app_nil_r. split; [done|]. split; intros; by exfalso; eauto.
  - exists []. rewrite app_nil_r. split.
    + simpl. destruct (replyingTo s); simpl; [done|].
      destruct (showSearch s); simpl; [done|]. by destruct (viewMode (view s)).
    + split; intros; by exfalso; eauto.
  - exists []. rewrite app_nil_r. split; [by destruct (isConnected s && negb (sending s))|].
    split; intros; by exfalso; eauto.
  - destruct (nonEmpty (trim (input s))) eqn:Hin, (isConnected s) eqn:Hc,
      (sending s) eqn:Hs; simpl.
    all: try (exists []; rewrite app_nil_r; split; [done|]; split; intros; by exfalso; eauto).
    eexists. split; [reflexivity|]. split.
    + intros text ch dest rid [= -> -> -> ->]%list_elem_of_singleton.
      repeat split; try done.
      * destruct (Z.eqb_spec (selectedChannel (view s)) (-1)); [done|done].
      * destruct (Z.eqb_spec (selectedChannel (view s)) (-1)); [by right|by left].
    + intros * H%list_elem_of_singleton. done.
  - destruct (sending s); [|exists []; rewrite app_nil_r; split; [done|];
                             split; intros; by exfalso; eauto].
    destruct result.
    + exists [ConsoleError]. split; [done|].
      split; intros * H%list_elem_of_singleton; done.
    + exists []. rewrite app_nil_r. split; [done|]. split; intros; by exfalso; eauto.
  - exists [OnNodeClick (sender_id msg)]. split; [done|].
    split; intros * H%list_elem_of_singleton; done.
  - exists []. rewrite app_nil_r.
    split; [by destruct (showsActions s msg && negb (sender_id msg =? myNodeNum))|].
    split; intros; by exfalso; eauto.
  - destruct (showPicker s i msg) eqn:Hp;
      [|exists []; rewrite app_nil_r; split; [done|]; split; intros; by exfalso; eauto].
    destruct (REACTION_EMOJIS !! k) as [[e label]|] eqn:Hk;
      [|exists []; rewrite app_nil_r; split; [done|]; split; intros; by exfalso; eauto].
    destruct result as [err|]; eexists; (split; [reflexivity|]); split.
    + intros * [H|H%list_elem_of_singleton]%elem_of_cons; done.
    + intros e' rid ch dest [[= -> -> -> ->]|H%list_elem_of_singleton]%elem_of_cons; [|done].
      by exists i, msg, k, label, (Some err).
    + intros * H%list_elem_of_singleton. done.
    + intros e' rid ch dest [= -> -> -> ->]%list_elem_of_singleton.
      by exists i, msg, k, label, None.
  - exists []. rewrite app_nil_r. split; [by destruct (showsActions s msg)|].
    split; intros; by exfalso; eauto.
  - exists []. rewrite app_nil_r. split.
    + destruct (showsActions s msg && negb (sender_id msg =? myNodeNum)); [|done].
      unfold openDmTo. by destruct (includesTab s (sender_id msg)).
    + split; intros; by exfalso; eauto.
  - exists []. rewrite app_nil_r.
    split; [by destruct (bool_decide (is_Some (replyingTo s)))|].
    split; intros; by exfalso; eauto.
Qed.

Lemma run_calls_ind (myNodeNum : Z) (P : Call → Prop) (Q : Ui → Prop)
    (evs : list UiEvent) (R : UiEvent → Prop) (s : Ui) :
  (∀ s ev c, Q s → R ev → c ∈ calls (handle myNodeNum s ev) → c ∈ calls s ∨ P c) →
  (∀ s ev, Q s → R ev → Q (step myNodeNum s ev)) →
  Q s → Forall R evs → (∀ c, c ∈ calls s → P c) →
  ∀ c, c ∈ calls (run myNodeNum s evs) → P c.
Proof.
  intros Hcalls Hstep. revert s.
  induction evs as [|ev evs IH]; intros s HQ HR Hs; [done|].
  apply Forall_cons in HR as [Hev HR]. cbn [run fold_left]. apply IH; [by apply Hstep|done|].
  intros c Hc. destruct (step_fields myNodeNum s ev) as (_ & _ & _ & _ & _ & _ & _ & Heq).
  rewrite Heq in Hc. destruct (Hcalls s ev c HQ Hev Hc); auto.
Qed.





Lemma handle_picker (myNodeNum : Z) (s : Ui) (ev : UiEvent) :
  packetIdInRange ev = true →
  (∀ key, pickerOpenFor s = Some key → 0 < key) →
  ∀ key, pickerOpenFor (handle myNodeNum s ev) = Some key → 0 < key.
Proof.
  intros Hev Hs.
  destruct ev; cbn [handle]; unfold whenRendered, consumeDmTarget, handleEscape,
    handleSend, sendSettled, handleReact; try done.
  - by destruct (showSearch s).
  - by destruct (includesTab s nodeNum).
  - destruct (includesTab s nodeNum); [|done]. unfold closeDmTab.
    destruct (optionEqb (activeDmNode (view s)) nodeNum); [|done].
    by destruct (last (List.filter (λ n, negb (n =? nodeNum)) (openDmTabs s))).
  - destruct target as [n|]; [|done]. unfold openDmTo. by destruct (includesTab s n).
  - simpl. destruct (replyingTo s); simpl; [done|].
    destruct (showSearch s); simpl; [done|]. by destruct (viewMode (view s)).
  - by destruct (isConnected s && negb (sending s)).
  - by destruct (negb (nonEmpty (trim (input s))) || negb (isConnected s) || sending s).
  - destruct (sending s); [|done]. by destruct result.
  - destruct (showsActions s msg && negb (sender_id msg =? myNodeNum)) eqn:Hshown;
      [|done].
    destruct (showPicker s i msg); [done|]. simpl. intros key [= <-].
    apply andb_true_iff in Hshown as [Hshown _]. unfold showsActions in Hshown.
    apply andb_true_iff in Hshown as [_ Hpid]. unfold pickerKey. simpl in Hev.
    destruct (packetId msg) as [pid|]; [|done]. simpl in *.
    apply negb_true_iff, Z.eqb_neq in Hpid. apply Z.leb_le in Hev. lia.
  - destruct (showPicker s i msg); [|done].
    destruct (REACTION_EMOJIS !! k); [|done]. by destruct result.
  - by destruct (showsActions s msg).
  - destruct (showsActions s msg && negb (sender_id msg =? myNodeNum)); [|done].
    unfold openDmTo. by destruct (includesTab s (sender_id msg)).
  - by destruct (bool_decide (is_Some (replyingTo s))).
Qed.

(** X17. When no message carries a negative packet id, every reaction
    handed to [onReact] has one of the five standard emoji codes, none of
    which is 0, and replies to a packet id that is present and positive: a
    message that carries the two is a reaction in the sense of the panel. *)
Theorem reactions_are_reactions (myNodeNum : Z) (tabs : list Z) (connected : bool)
    (evs : list UiEvent) :
  Forall (λ ev, packetIdInRange ev = true) evs →
  ∀ e rid ch dest,
    OnReact e rid ch dest ∈ calls (run myNodeNum (initial tabs connected) evs) →
    e ∈ REACTION_EMOJIS.*1 ∧ e ≠ 0 ∧ (∃ pid, rid = Some pid ∧ 0 < pid) ∧
    ∀ m, emoji m = Some e → replyId m = rid → isReaction m = true.
Proof.
  intros Hevs.
  assert (∀ c, c ∈ calls (run myNodeNum (initial tabs connected) evs) →
            match c with
            | OnReact e rid _ _ =>
                e ∈ REACTION_EMOJIS.*1 ∧ e ≠ 0 ∧ ∃ pid, rid = Some pid ∧ 0 < pid
            | _ => True
            end) as Hall.
  { apply (run_calls_ind myNodeNum _ (λ s, ∀ key, pickerOpenFor s = Some key → 0 < key)
             evs (λ ev, packetIdInRange ev = true)); try done.
    - intros s ev c Hs Hev Hc.
      destruct (handle_calls myNodeNum s ev) as (new & Heq & _ & Hreact).
      rewrite Heq in Hc. apply elem_of_app in Hc as [Hc|Hc]; [by left|right].
      destruct c as [|e rid ch dest| | |]; try done.
      destruct (Hreact _ _ _ _ Hc) as (i & msg & k & label & result & _ & Hp & Hk & -> & _).
      split; [|split].
      + apply list_elem_of_fmap. exists (e, label). split; [done|].
        by eapply list_elem_of_lookup_2.
      + intros ->. do 5 (destruct k as [|k]; [simpl in Hk; discriminate|]).
        simpl in Hk. discriminate.
      + unfold showPicker, pickerKey in Hp.
        destruct (pickerOpenFor s) as [key|] eqn:Hkey; [|done]. simpl in Hp.
        apply Z.eqb_eq in Hp. specialize (Hs key eq_refl).
        destruct (packetId msg) as [pid|]; simpl in Hp; [|lia].
        exists pid. split; [done|lia].
    - intros s ev Hs Hev key.
      destruct (step_fields myNodeNum s ev) as (_ & _ & _ & _ & _ & -> & _).
      by apply handle_picker.
    - by intros c Hc%elem_of_nil. }
  intros e rid ch dest Hc. destruct (Hall _ Hc) as (He & Hne & pid & -> & Hpid).
  repeat split; try done; [by exists pid|].
  intros m Hm Hr. unfold isReaction. rewrite Hm, Hr. simpl.
  apply Z.eqb_neq in Hne as ->. simpl. apply negb_true_iff, Z.eqb_neq. lia.
Qed.

Lemma reactions_are_reactions_witness :
  isReaction Examples.thumbsUp = true.
Proof.
  apply (reactions_are_reactions 1 [] true
           [ClickReactToggle 0 Examples.hello; ClickEmoji 0 Examples.hello 0 None]
           ltac:(by repeat constructor) 128077 (Some 11) 0 None);
    [vm_compute; left|reflexivity|reflexivity].
Defined.

Lemma sameConversation_view (s s' : Ui) :
  view s' = view s → sameConversation s s' = true.
Proof.
  intros Hv. unfold sameConversation. rewrite Hv, Z.eqb_refl.
  destruct (viewMode (view s)), (activeDmNode (view s)); simpl; by rewrite ?Z.eqb_refl.
Qed.

(** One press of Escape, field by field. *)
Lemma escape_step (myNodeNum : Z) (s : Ui) :
  pickerOpenFor (step myNodeNum s KeyEscape) = None ∧
  replyingTo (step myNodeNum s KeyEscape) = None ∧
  showSearch (step myNodeNum s KeyEscape) =
    match replyingTo s with Some _ => showSearch s | None => false end ∧
  viewMode (view (step myNodeNum s KeyEscape)) =
    match replyingTo s with
    | Some _ => viewMode (view s)
    | None => if showSearch s then viewMode (view s) else Channels
    end ∧
  (is_Some (replyingTo s) ∨ showSearch s = true →
   view (step myNodeNum s KeyEscape) = view s) ∧
  activeDmNode (view (step myNodeNum s KeyEscape)) = activeDmNode (view s) ∧
  selectedChannel (view (step myNodeNum s KeyEscape)) = selectedChannel (view s) ∧
  searchQuery (view (step myNodeNum s KeyEscape)) = searchQuery (view s) ∧
  openDmTabs (step myNodeNum s KeyEscape) = openDmTabs s ∧
  input (step myNodeNum s KeyEscape) = input s ∧
  sending (step myNodeNum s KeyEscape) = sending s ∧
  calls (step myNodeNum s KeyEscape) = calls s.
Proof.
  unfold step. cbn [handle]. unfold handleEscape.
  change (replyingTo (setPickerOpenFor s None)) with (replyingTo s).
  change (showSearch (setPickerOpenFor s None)) with (showSearch s).
  change (view (setPickerOpenFor s None)) with (view s).
  destruct (replyingTo s) as [m|] eqn:Hr.
  - rewrite sameConversation_view by done. cbn. rewrite ?Hr. repeat split; done.
  - destruct (showSearch s) eqn:Hs.
    + rewrite sameConversation_view by done. cbn. rewrite ?Hr, ?Hs. repeat split; done.
    + destruct (viewMode (view s)) eqn:Hv.
      * rewrite sameConversation_view by done. cbn. rewrite ?Hr, ?Hs, ?Hv.
        repeat split; try done; by intros [[? [=]]|[=]].
      * destruct (sameConversation s (setViewMode (setPickerOpenFor s None) Channels));
          cbn; rewrite ?Hr, ?Hs, ?Hv; repeat split; try done; by intros [[? [=]]|[=]].
Qed.

(** X18. Escape closes the emoji picker and then exactly one thing: the
    reply when there is one, else the search bar when it is shown, else the
    conversation view. Three presses always end in the channel view with no
    reply, no search bar and no picker; the tabs, the active node, the
    channel, the input, and the search query itself are left as they were. *)
Theorem escape_priority (myNodeNum : Z) (s : Ui) :
  pickerOpenFor (step myNodeNum s KeyEscape) = None ∧
  (is_Some (replyingTo s) →
   replyingTo (step myNodeNum s KeyEscape) = None ∧
   showSearch (step myNodeNum s KeyEscape) = showSearch s ∧
   view (step myNodeNum s KeyEscape) = view s) ∧
  (replyingTo s = None → showSearch s = true →
   showSearch (step myNodeNum s KeyEscape) = false ∧
   view (step myNodeNum s KeyEscape) = view s) ∧
  (replyingTo s = None → showSearch s = false →
   viewMode (view (step myNodeNum s KeyEscape)) = Channels) ∧
  (replyingTo (run myNodeNum s [KeyEscape; KeyEscape; KeyEscape]) = None ∧
   showSearch (run myNodeNum s [KeyEscape; KeyEscape; KeyEscape]) = false ∧
   viewMode (view (run myNodeNum s [KeyEscape; KeyEscape; KeyEscape])) = Channels ∧
   pickerOpenFor (run myNodeNum s [KeyEscape; KeyEscape; KeyEscape]) = None) ∧
  (openDmTabs (run myNodeNum s [KeyEscape; KeyEscape; KeyEscape]) = openDmTabs s ∧
   activeDmNode (view (run myNodeNum s [KeyEscape; KeyEscape; KeyEscape])) =
     activeDmNode (view s) ∧
   selectedChannel (view (run myNodeNum s [KeyEscape; KeyEscape; KeyEscape])) =
     selectedChannel (view s) ∧
   searchQuery (view (run myNodeNum s [KeyEscape; KeyEscape; KeyEscape])) =
     searchQuery (view s) ∧
   input (run myNodeNum s [KeyEscape; KeyEscape; KeyEscape]) = input s ∧
   sending (run myNodeNum s [KeyEscape; KeyEscape; KeyEscape]) = sending s ∧
   calls (run myNodeNum s [KeyEscape; KeyEscape; KeyEscape]) = calls s).
Proof.
  pose proof (escape_step myNodeNum s)
    as (Hp1 & Hr1 & Hs1 & Hm1 & Hv1 & Ha1 & Hc1 & Hq1 & Ht1 & Hi1 & Hn1 & Hl1).
  split; [done|]. split; [|split; [|split]].
  - intros [m Hm]. rewrite Hm in Hs1. split; [done|]. split; [done|]. apply Hv1. left. eauto.
  - intros Hr Hs. rewrite Hr in Hs1. split; [done|]. apply Hv1. by right.
  - intros Hr Hs. by rewrite Hm1, Hr, Hs.
  - cbn [run fold_left].
    set (s1 := step myNodeNum s KeyEscape) in *.
    pose proof (escape_step myNodeNum s1)
      as (Hp2 & Hr2 & Hs2 & Hm2 & _ & Ha2 & Hc2 & Hq2 & Ht2 & Hi2 & Hn2 & Hl2).
    set (s2 := step myNodeNum s1 KeyEscape) in *.
    pose proof (escape_step myNodeNum s2)
      as (Hp3 & Hr3 & Hs3 & Hm3 & _ & Ha3 & Hc3 & Hq3 & Ht3 & Hi3 & Hn3 & Hl3).
    rewrite Hr1 in Hs2, Hm2. rewrite Hr2, Hs2 in Hm3. rewrite Hr2 in Hs3.
    repeat split; congruence.
Qed.

Lemma NoDup_List_filter {A} (f : A → bool) (l : list A) :
  NoDup l → NoDup (List.filter f l).
Proof.
  induction 1 as [|x l Hx Hl IH]; simpl; [constructor|].
  destruct (f x); [|done]. constructor; [|done].
  intros [Hin _]%list_elem_of_In%filter_In. by apply Hx, list_elem_of_In.
Qed.

Lemma handle_NoDup (myNodeNum : Z) (s : Ui) (ev : UiEvent) :
  NoDup (openDmTabs s) → NoDup (openDmTabs (handle myNodeNum s ev)).
Proof.
  intros Hs.
  assert (∀ n, NoDup (openDmTabs (openDmTo s n))) as Hopen.
  { intros n. unfold openDmTo. destruct (includesTab s n) eqn:E; simpl; [done|].
    apply NoDup_app. split; [done|]. split; [|apply NoDup_singleton].
    intros x Hx [= ->]%list_elem_of_singleton.
    apply includesTab_elem in Hx. congruence. }
  destruct ev; cbn [handle]; unfold whenRendered, consumeDmTarget, handleEscape,
    handleSend, sendSettled, handleReact; try done.
  - by destruct (showSearch s).
  - by destruct (includesTab s nodeNum).
  - destruct (includesTab s nodeNum); [|done]. unfold closeDmTab.
    destruct (optionEqb (activeDmNode (view s)) nodeNum);
      [destruct (last (List.filter (λ n, negb (n =? nodeNum)) (openDmTabs s)))|];
      simpl; by apply NoDup_List_filter.
  - destruct target as [n|]; [|done]. apply Hopen.
  - simpl. destruct (replyingTo s); simpl; [done|].
    destruct (showSearch s); simpl; [done|]. by destruct (viewMode (view s)).
  - by destruct (isConnected s && negb (sending s)).
  - by destruct (negb (nonEmpty (trim (input s))) || negb (isConnected s) || sending s).
  - destruct (sending s); [|done]. by destruct result.
  - by destruct (showsActions s msg && negb (sender_id msg =? myNodeNum)).
  - destruct (showPicker s i msg); [|done].
    destruct (REACTION_EMOJIS !! k); [|done]. simpl. by destruct result.
  - by destruct (showsActions s msg).
  - destruct (showsActions s msg && negb (sender_id msg =? myNodeNum)); [|done].
    apply Hopen.
  - by destruct (bool_decide (is_Some (replyingTo s))).
Qed.

(** X19. Opening a conversation never duplicates a tab: when the stored
    tabs are distinct, the tabs stay distinct whatever happens. Closing a
    tab removes the node from the tabs, and the conversation shown
    afterwards is not with that node. *)
Theorem tabs_stay_distinct (myNodeNum : Z) (tabs : list Z) (connected : bool)
    (evs : list UiEvent) :
  NoDup tabs →
  NoDup (openDmTabs (run myNodeNum (initial tabs connected) evs)) ∧
  ∀ n, n ∈ openDmTabs (run myNodeNum (initial tabs connected) evs) →
       (n ∉ openDmTabs (run myNodeNum (initial tabs connected) (evs ++ [ClickCloseDm n]))) ∧
       dmNode (view (run myNodeNum (initial tabs connected) (evs ++ [ClickCloseDm n]))) ≠
         Some n.
Proof.
  intros Htabs.
  assert (∀ s, NoDup (openDmTabs s) → NoDup (openDmTabs (run myNodeNum s evs))) as Hrun.
  { induction evs as [|ev evs IH]; intros s Hs; [done|].
    cbn [run fold_left]. apply IH.
    destruct (step_fields myNodeNum s ev) as (_ & -> & _). by apply handle_NoDup. }
  split; [by apply Hrun|].
  intros n Hn. unfold run. rewrite fold_left_app. cbn [fold_left].
  fold (run myNodeNum (initial tabs connected) evs).
  set (s := run myNodeNum (initial tabs connected) evs) in *.
  destruct (step_fields myNodeNum s (ClickCloseDm n)) as (-> & -> & _).
  cbn [handle]. apply includesTab_elem in Hn. rewrite Hn. cbn [whenRendered].
  unfold closeDmTab. split.
  - assert (n ∉ List.filter (λ m, negb (m =? n)) (openDmTabs s)) as Hout.
    { intros [_ H]%list_elem_of_In%filter_In. by rewrite Z.eqb_refl in H. }
    destruct (optionEqb (activeDmNode (view s)) n);
      [destruct (last (List.filter (λ m, negb (m =? n)) (openDmTabs s)))|]; done.
  - destruct (optionEqb (activeDmNode (view s)) n) eqn:Ha.
    + destruct (last (List.filter (λ m, negb (m =? n)) (openDmTabs s))) as [m|] eqn:Hl.
      * unfold dmNode. simpl. destruct (viewMode (view s)); [done|].
        intros [= ->]. apply last_Some in Hl as [l' Hl].
        assert (In n (List.filter (λ m, negb (m =? n)) (openDmTabs s))) as Hin
          by (rewrite Hl; apply in_or_app; right; by left).
        apply filter_In in Hin as [_ H]. by rewrite Z.eqb_refl in H.
      * done.
    + unfold dmNode. simpl. destruct (viewMode (view s)); [done|].
      intros Heq. rewrite Heq in Ha. simpl in Ha. by rewrite Z.eqb_refl in Ha.
Qed.

Lemma tabs_stay_distinct_witness :
  NoDup (openDmTabs (run 1 (initial [2; 3] true)
                       [InitialDmTarget (Some 3); InitialDmTarget (Some 4)])).
Proof.
  apply (tabs_stay_distinct 1 [2; 3] true
           [InitialDmTarget (Some 3); InitialDmTarget (Some 4)]).
  repeat constructor; rewrite list_elem_of_In; simpl; intuition discriminate.
Defined.

End ChatUiFacts.

(** ** Chat panel: unread counts and views *)

Section ChatViewsFacts.

Import JsString ChatPanel ChatReplies.

Lemma unreadNumber_read (myNodeNum : Z) (lastRead : gmap Z Z) (ch now : Z)
    (messages : list ChatMessage) :
  (∀ m, m ∈ messages → channel m = ch → timestamp m ≤ now) →
  unreadNumber myNodeNum (<[ch := now]> lastRead) ch messages = 0%nat.
Proof.
  intros Hle. unfold unreadNumber.
  rewrite (filter_ext_in _ (λ _, false)); [by rewrite filter_false|].
  intros m Hm%list_elem_of_In. unfold isUnreadOn. rewrite lookup_insert_eq. simpl.
  destruct (Z.eqb_spec (channel m) ch) as [Hch|]; [|by rewrite andb_false_r].
  specialize (Hle m Hm Hch).
  assert ((timestamp m >? now) = false) as -> by (rewrite Z.gtb_ltb; apply Z.ltb_ge; lia).
  by rewrite andb_false_r.
Qed.

Lemma unreadNumber_other (myNodeNum : Z) (lastRead : gmap Z Z) (sel ch now : Z)
    (messages : list ChatMessage) :
  ch ≠ sel →
  unreadNumber myNodeNum (<[sel := now]> lastRead) ch messages =
  unreadNumber myNodeNum lastRead ch messages.
Proof.
  intros Hne. unfold unreadNumber. f_equal. apply filter_ext. intros m.
  unfold isUnreadOn. by rewrite lookup_insert_ne.
Qed.

(** X20. Once a channel has been viewed, its messages up to that moment
    never count as unread again: neither right after the effects that
    follow their arrival, nor when the counts are computed anew, and no
    badge is shown for it. The counts of the other channels are what they
    would be without the viewing; in particular the "All" view marks no
    channel as read. *)
Theorem viewed_channel_stays_read (myNodeNum : Z) (messages : list ChatMessage)
    (u : Unread) (v : View) (now : Z) :
  viewMode v = Channels →
  (∀ m, m ∈ messages → channel m = selectedChannel v → timestamp m ≤ now) →
  unreadOf (markRead v now (updateUnread myNodeNum messages u)) (selectedChannel v) = 0%nat ∧
  unreadOf (updateUnread myNodeNum messages (markRead v now u)) (selectedChannel v) = 0%nat ∧
  (∀ v', unreadBadge v' (updateUnread myNodeNum messages (markRead v now u))
           (selectedChannel v) = None) ∧
  (∀ ch, ch ≠ selectedChannel v →
     unreadOf (updateUnread myNodeNum messages (markRead v now u)) ch =
     unreadNumber myNodeNum (lastRead u) ch messages ∧
     unreadOf (markRead v now (updateUnread myNodeNum messages u)) ch =
     unreadNumber myNodeNum (lastRead u) ch messages).
Proof.
  intros Hv Hle.
  assert (unreadOf (updateUnread myNodeNum messages (markRead v now u)) (selectedChannel v) =
          0%nat) as Hzero.
  { rewrite updateUnread_number. unfold markRead. rewrite Hv. simpl.
    by apply unreadNumber_read. }
  split; [|split; [done|split]].
  - unfold markRead, unreadOf. rewrite Hv. simpl. by rewrite lookup_delete_eq.
  - intros v'. unfold unreadBadge. by rewrite Hzero.
  - intros ch Hch. split.
    + rewrite updateUnread_number. unfold markRead. rewrite Hv. simpl.
      by apply unreadNumber_other.
    + rewrite <- updateUnread_number. unfold markRead, unreadOf. rewrite Hv. simpl.
      by rewrite lookup_delete_ne.
Qed.

Lemma viewed_channel_stays_read_witness :
  unreadOf (updateUnread 1 Examples.hundredMessages
              (markRead MoreExamples.channelZero 1704070000000 Examples.neverRead)) 0 =
  0%nat.
Proof.
  apply (viewed_channel_stays_read 1 Examples.hundredMessages Examples.neverRead
           MoreExamples.channelZero 1704070000000 eq_refl).
  intros m Hm _. unfold Examples.hundredMessages in Hm.
  apply elem_of_replicate in Hm as [-> _]. simpl. lia.
Defined.

Section Views.

Variable toLowerCase : string → string.

Lemma filter_sublist {A} (f : A → bool) (l : list A) : List.filter f l `sublist_of` l.
Proof.
  induction l as [|x l IH]; simpl; [done|].
  destruct (f x); [by apply sublist_skip|by apply sublist_cons].
Qed.

Lemma filter_sublist_impl {A} (f g : A → bool) (l : list A) :
  (∀ x, f x = true → g x = true) → List.filter f l `sublist_of` List.filter g l.
Proof.
  intros Himpl. induction l as [|x l IH]; simpl; [done|].
  destruct (f x) eqn:Hf.
  - rewrite (Himpl x Hf). by apply sublist_skip.
  - destruct (g x); [by apply sublist_cons|done].
Qed.

Lemma filteredMessages_elem (myNodeNum : Z) (v : View) (messages : list ChatMessage)
    (m : ChatMessage) :
  m ∈ filteredMessages toLowerCase myNodeNum v messages ↔
  m ∈ messages ∧ isReaction m = false ∧
  match dmNode v with
  | Some node => exchangedWith myNodeNum node m
  | None => onSelectedChannel v m
  end = true ∧
  (negb (searchActive v) || matchesQuery toLowerCase (toLowerCase (searchQuery v)) m) = true.
Proof.
  rewrite filteredMessages_unfold, list_elem_of_In, filter_In, <- list_elem_of_In.
  rewrite !andb_true_iff, negb_true_iff. tauto.
Qed.

(** X21. The list shown keeps the order of the messages and repeats none;
    a search only removes messages from it. A message never shows both in
    a channel view and in a conversation, or in two conversations, as long
    as neither the local node nor the other node has number 0. The "All"
    view shows every message that any channel view shows. *)
Theorem views_partition (myNodeNum : Z) (messages : list ChatMessage) :
  (∀ v, filteredMessages toLowerCase myNodeNum v messages `sublist_of` messages) ∧
  (∀ v, filteredMessages toLowerCase myNodeNum v messages `sublist_of`
        filteredMessages toLowerCase myNodeNum (withoutSearch v) messages) ∧
  (myNodeNum ≠ 0 →
   ∀ v vc node m, dmNode v = Some node → node ≠ 0 → dmNode vc = None →
     m ∈ filteredMessages toLowerCase myNodeNum v messages →
     m ∉ filteredMessages toLowerCase myNodeNum vc messages) ∧
  (∀ v1 v2 a b m, dmNode v1 = Some a → dmNode v2 = Some b → a ≠ b →
     m ∈ filteredMessages toLowerCase myNodeNum v1 messages →
     m ∉ filteredMessages toLowerCase myNodeNum v2 messages) ∧
  (∀ v m, dmNode v = None →
     m ∈ filteredMessages toLowerCase myNodeNum v messages →
     m ∈ filteredMessages toLowerCase myNodeNum (onChannel v (-1)) messages).
Proof.
  split; [|split; [|split; [|split]]].
  - intros v. rewrite filteredMessages_unfold. apply filter_sublist.
  - intros v. rewrite !filteredMessages_unfold. apply filter_sublist_impl.
    intros m. unfold searchActive, withoutSearch, dmNode, onSelectedChannel. simpl.
    rewrite (andb_true_r (negb (isReaction m) && _)). by intros [H _]%andb_true_iff.
  - intros Hmy v vc node m Hv Hnode Hvc.
    rewrite !filteredMessages_elem, Hv, Hvc.
    intros (_ & _ & Hex & _) (_ & _ & Hch & _).
    unfold exchangedWith, onSelectedChannel, optionEqb, truthy in *.
    destruct (to m) as [t|]; simpl in *; [|by rewrite andb_false_r in Hex].
    apply andb_true_iff in Hch as [Ht%negb_true_iff%negb_false_iff%Z.eqb_eq _].
    subst t. apply orb_true_iff in Hex as [[H%Z.eqb_eq _]%andb_true_iff|
                                           [_ H%Z.eqb_eq]%andb_true_iff]; congruence.
  - intros v1 v2 a b m Hv1 Hv2 Hab. rewrite !filteredMessages_elem, Hv1, Hv2.
    intros (_ & _ & H1 & _) (_ & _ & H2 & _).
    unfold exchangedWith, optionEqb in *.
    destruct (to m) as [t|]; simpl in *; [|by rewrite andb_false_r in H1].
    apply orb_true_iff in H1 as [[Ha%Z.eqb_eq Hs%Z.eqb_eq]%andb_true_iff|
                                 [Hs%Z.eqb_eq Ha%Z.eqb_eq]%andb_true_iff];
      apply orb_true_iff in H2 as [[Hb%Z.eqb_eq Hs'%Z.eqb_eq]%andb_true_iff|
                                   [Hs'%Z.eqb_eq Hb%Z.eqb_eq]%andb_true_iff];
      congruence.
  - intros v m Hv. rewrite !filteredMessages_elem.
    assert (dmNode (onChannel v (-1)) = None) as ->
      by (unfold dmNode, onChannel in *; simpl; by destruct (viewMode v)).
    rewrite Hv. unfold onSelectedChannel, searchActive, onChannel. simpl.
    intros (Hin & Hr & Hch & Hq). repeat split; try done.
    apply andb_true_iff in Hch as [-> _]. done.
Qed.

End Views.

Lemma views_partition_witness :
  Examples.whisper ∉
    filteredMessages AsciiCase.toLowerCase 1 Examples.allChannels
      [Examples.hello; Examples.thumbsUp; Examples.whisper].
Proof.
  destruct (views_partition AsciiCase.toLowerCase 1
              [Examples.hello; Examples.thumbsUp; Examples.whisper])
    as (_ & _ & Hdisjoint & _).
  apply (Hdisjoint ltac:(done) Examples.dmView Examples.allChannels 2);
    [reflexivity|done|reflexivity|vm_compute; left].
Defined.

End ChatViewsFacts.

(** ** Chat panel: highlighted search matches *)

Section HighlightFacts.

Import JsString Highlight.

Variable canonicalize : ascii → ascii.
Variable toLowerCase : string → string.











End HighlightFacts.


